(** * Plane.so issue tool: the API client's request, retry and clean-up logic

    A shallow embedding of [src/api/plane_client.py] (class [PlaneClient])
    and the properties of its request-execution layer.

    Conventions of the embedding.
    - A Python [str] is a [string], one [ascii] per character; text outside
      Latin-1 stands for its UTF-8 bytes.  The tests the client performs on
      text (emptiness, search for an ASCII marker) do not depend on the
      difference.
    - A Python [int] is a [Z]; the retry counter and bound are [nat].
    - Values decoded from JSON are of type [json].  Numbers with a fraction
      or an exponent (Python floats) are not represented.
    - The interpreter's [json.loads] and [str()] are parameters of the
      development (class [Runtime]); the HTTP transport and the clock are
      parameters too (class [Network]).
    - Effects are explicit: a computation takes the state of the outside
      world and returns a value or a raised exception, the new state and
      the events it produced (requests sent, sleeps, log records, prints). *)

From Stdlib Require Import String Ascii List ZArith Bool Arith Lia.
Import ListNotations.
Local Open Scope string_scope.
Local Open Scope Z_scope.
Set Warnings "-register-all".

Module PlaneClient.

(** ** Decoded JSON values and the Python operations the client applies *)

Inductive json : Type :=
| JNull
| JBool (b : bool)
| JInt (z : Z)
| JStr (s : string)
| JArr (items : list json)
| JObj (fields : list (string * json)).

(** HTTP response as [requests.Response] exposes it to the client. *)
Record response : Type := mkResponse {
  status_code : Z;
  resp_headers : list (string * string);
  text : string
}.

(** Exceptions.  [RequestException], [HTTPError] and
    [RequestsJSONDecodeError] are the classes of [requests.exceptions]
    (the last two are subclasses of the first); [ApiError], [RetriesFailed]
    and [MaxRetriesExceeded] are the three plain [Exception(...)] values
    [_make_request] builds, kept structured instead of formatted. *)
Inductive exn : Type :=
| RequestException (kind : string)
| HTTPError (r : response)
| RequestsJSONDecodeError
| JSONDecodeError
| ValueError (msg : string) (cause : option exn)
| OverflowError
| KeyError (key : string)
| TypeError
| AttributeError
| ApiError (status : Z) (body : string)
| RetriesFailed (n : nat) (cause : exn)
| MaxRetriesExceeded (n : nat).

(** [isinstance(e, RequestException)] *)
Definition is_RequestException (e : exn) : bool :=
  match e with
  | RequestException _ | HTTPError _ | RequestsJSONDecodeError => true
  | _ => false
  end.

Inductive result (A : Type) : Type :=
| Ok (a : A)
| Raise (e : exn).
Arguments Ok {A} a.
Arguments Raise {A} e.

(** [bool(v)] *)
Definition truthy (v : json) : bool :=
  match v with
  | JNull => false
  | JBool b => b
  | JInt z => negb (z =? 0)
  | JStr s => negb (s =? "")%string
  | JArr l => match l with [] => false | _ => true end
  | JObj l => match l with [] => false | _ => true end
  end.

(** [isinstance(v, dict)] *)
Definition is_dict (v : json) : bool :=
  match v with JObj _ => true | _ => false end.

Fixpoint assoc {A : Type} (key : string) (l : list (string * A)) : option A :=
  match l with
  | [] => None
  | (k, v) :: l' => if (k =? key)%string then Some v else assoc key l'
  end.

(** [needle in haystack] on strings *)
Fixpoint contains (needle haystack : string) : bool :=
  prefix needle haystack ||
  match haystack with
  | EmptyString => false
  | String _ rest => contains needle rest
  end.

(** Equality of decoded values, as far as [key in list] needs it: a [str]
    equals only the same [str]. *)
Definition eq_str (key : string) (v : json) : bool :=
  match v with JStr s => (s =? key)%string | _ => false end.

(** [key in v] *)
Definition py_in (key : string) (v : json) : result bool :=
  match v with
  | JObj l => Ok (match assoc key l with Some _ => true | None => false end)
  | JArr l => Ok (existsb (eq_str key) l)
  | JStr s => Ok (contains key s)
  | _ => Raise TypeError
  end.

(** [v[key]] *)
Definition py_getitem (v : json) (key : string) : result json :=
  match v with
  | JObj l => match assoc key l with Some x => Ok x | None => Raise (KeyError key) end
  | _ => Raise TypeError
  end.

(** [v.get(key, default)] *)
Definition py_get (v : json) (key : string) (default : json) : result json :=
  match v with
  | JObj l => Ok (match assoc key l with Some x => x | None => default end)
  | _ => Raise AttributeError
  end.

(** [v.get(key)] *)
Definition py_get_none (v : json) (key : string) : result json :=
  py_get v key JNull.

(** The sequence [for x in v] runs over. *)
Definition py_iter (v : json) : result (list json) :=
  match v with
  | JArr l => Ok l
  | JObj l => Ok (map (fun kv => JStr (fst kv)) l)
  | JStr s => Ok (map (fun c => JStr (String c EmptyString)) (list_ascii_of_string s))
  | _ => Raise TypeError
  end.

(** [len(v)] *)
Definition py_len (v : json) : result nat :=
  match v with
  | JArr l => Ok (List.length l)
  | JObj l => Ok (List.length l)
  | JStr s => Ok (String.length s)
  | _ => Raise TypeError
  end.

(** ** [int(s)] on a header value

    CPython skips surrounding whitespace, accepts one sign, and then wants
    decimal digits, single underscores allowed between two digits. *)

Definition is_space (c : ascii) : bool :=
  let n := nat_of_ascii c in
  (((9 <=? n) && (n <=? 13)) || ((28 <=? n) && (n <=? 32))
   || (n =? 133) || (n =? 160))%nat.

Definition is_digit (c : ascii) : bool :=
  let n := nat_of_ascii c in ((48 <=? n) && (n <=? 57))%nat.

Definition digit_value (c : ascii) : Z := Z.of_nat (nat_of_ascii c) - 48.

Fixpoint lstrip (s : string) : string :=
  match s with
  | String c s' => if is_space c then lstrip s' else s
  | EmptyString => EmptyString
  end.

Fixpoint rstrip (s : string) : string :=
  match s with
  | EmptyString => EmptyString
  | String c s' =>
      match rstrip s' with
      | EmptyString => if is_space c then EmptyString else String c EmptyString
      | t => String c t
      end
  end.

Fixpoint digits (s : string) (acc : Z) (after_digit : bool) : option Z :=
  match s with
  | EmptyString => if after_digit then Some acc else None
  | String c s' =>
      if is_digit c then digits s' (10 * acc + digit_value c) true
      else if (c =? "_")%char && after_digit then digits s' acc false
      else None
  end.

Definition py_int (s : string) : option Z :=
  match rstrip (lstrip s) with
  | String "+" s' => digits s' 0 false
  | String "-" s' => option_map Z.opp (digits s' 0 false)
  | s' => digits s' 0 false
  end.

(** ** The interpreter and the outside world *)

(** [json.loads] ([None] when it raises its decode error) and [str()] on a
    decoded value, as f-strings apply it; [str()] of a string is the
    string. *)
Class Runtime : Type := {
  json_loads : string -> option json;
  py_str : json -> string;
  py_str_str : forall s, py_str (JStr s) = s
}.

Record request : Type := mkRequest {
  method : string;
  url : string;
  req_headers : list (string * string);
  body : option json
}.

(** What [requests.request] does with a request: it returns a response, or
    raises a [RequestException] (connection error, timeout, ...). *)
Inductive reply : Type :=
| Responded (r : response)
| Failed (kind : string).

(** The remote service, the network and the clock, as a state machine. *)
Class Network (W : Type) : Type := {
  transmit : request -> W -> reply * W;
  elapse : Z -> W -> W
}.

Inductive level : Type := DEBUG | INFO | WARNING | ERROR.

(** One constructor per message the client logs or prints; the values
    interpolated in the message are the arguments. *)
Inductive message : Type :=
| MsgInitialized (workspace project : string)
| MsgAuthenticationFailed
| MsgValidated
| MsgValidationFailed (e : exn)
| MsgMakingRequest (method endpoint : string)
| MsgRequestHeaders (h : list (string * string))
| MsgRequestData (d : json)
| MsgResponseStatus (status : Z)
| MsgResponseHeaders (h : list (string * string))
| MsgResponseBody (body : string)
| MsgRateLimited (secs : Z)
| MsgModuleExists
| MsgApiError (status : Z) (body : string)
| MsgRequestSuccessful (data : json)
| MsgRetrying (secs : Z)
| MsgRequestFailed (n : nat) (e : exn)
| MsgMaxRetries (n : nat)
| MsgModuleIssuesResponse (r : json)
| MsgCouldNotAddComment (e : exn)
| MsgFoundModules (n : nat)
| MsgProcessingModule (name : json)
| MsgFoundIssues (n : nat) (name : json)
| MsgProcessingModuleIssue (record : json)
| MsgSkippingInvalid (record : json)
| MsgSkippingWithoutId (name : json)
| MsgDeletingIssue (name id : json)
| MsgDeletedIssue (name : json)
| MsgErrorDeletingIssue (name : json) (e : exn)
| MsgFullErrorDetails (e : exn)
| MsgDeletingModule (name id : json)
| MsgDeletedModule (name : json)
| MsgErrorProcessingModule (name : json) (e : exn)
| MsgErrorDuringCleanup (e : exn).

Inductive event : Type :=
| Sent (r : request)
| Slept (secs : Z)
| Logged (l : level) (m : message)
| Printed (m : message).

(** ** Computations: state, exceptions and an event trace *)

Definition M (St A : Type) : Type := St -> result A * St * list event.

Definition ret {St A} (a : A) : M St A := fun s => (Ok a, s, []).

Definition raise {St A} (e : exn) : M St A := fun s => (Raise e, s, []).

Definition bind {St A B} (m : M St A) (k : A -> M St B) : M St B :=
  fun s =>
    match m s with
    | (Ok a, s1, t1) =>
        match k a s1 with (r, s2, t2) => (r, s2, (t1 ++ t2)%list) end
    | (Raise e, s1, t1) => (Raise e, s1, t1)
    end.

Notation "x <- m ;; k" := (bind m (fun x => k))
  (at level 61, m at next level, right associativity).
Notation "m ;; k" := (bind m (fun _ => k))
  (at level 61, right associativity).

(** [try: m  except <class> as e: handler e], where [catches] tells the
    exceptions of the class. *)
Definition try_except {St A} (m : M St A) (catches : exn -> bool)
    (handler : exn -> M St A) : M St A :=
  fun s =>
    match m s with
    | (Raise e, s1, t1) =>
        if catches e
        then match handler e s1 with (r, s2, t2) => (r, s2, (t1 ++ t2)%list) end
        else (Raise e, s1, t1)
    | done => done
    end.

(** Every exception of the model derives from [Exception]. *)
Definition Exception (e : exn) : bool := true.

Definition emit {St} (ev : event) : M St unit := fun s => (Ok tt, s, [ev]).

Definition log {St} (l : level) (m : message) : M St unit := emit (Logged l m).

Definition print {St} (m : message) : M St unit := emit (Printed m).

Definition lift {St A} (r : result A) : M St A := fun s => (r, s, []).

(** [if c: m] *)
Definition when {St} (c : bool) (m : M St unit) : M St unit :=
  if c then m else ret tt.

(** ** The client *)

Record Client : Type := mkClient {
  api_key : string;
  workspace_slug : string;
  project_id : string;
  base_url : string;
  retry_delay : Z;
  max_retries : nat;
  headers : list (string * string)
}.

Definition lower_char (c : ascii) : ascii :=
  let n := nat_of_ascii c in
  if ((65 <=? n) && (n <=? 90))%nat then ascii_of_nat (n + 32) else c.

Fixpoint lower (s : string) : string :=
  match s with
  | EmptyString => EmptyString
  | String c s' => String (lower_char c) (lower s')
  end.

(** [response.headers.get(name)]: the names of a [CaseInsensitiveDict]
    compare without regard to case. *)
Fixpoint headers_get (h : list (string * string)) (name : string) : option string :=
  match h with
  | [] => None
  | (k, v) :: h' =>
      if (lower k =? lower name)%string then Some v else headers_get h' name
  end.

(** [response.raise_for_status()] *)
Definition raise_for_status {St} (r : response) : M St unit :=
  if (400 <=? status_code r) && (status_code r <? 600)
  then raise (HTTPError r) else ret tt.

(** Largest number of seconds whose nanoseconds fit the 64-bit clock value
    [time.sleep] converts its argument to. *)
Definition sleep_max : Z := 9223372036.

(** The [ValueError] of [int(s)] on a string that is not an integer. *)
Definition invalid_literal : exn :=
  ValueError "invalid literal for int() with base 10" None.

Section Transport.
Context {W : Type} `{Network W} `{Runtime}.

(** [requests.request(method=..., url=..., headers=..., json=...)] *)
Definition requests_request (req : request) : M W response :=
  fun w =>
    match transmit req w with
    | (Responded r, w') => (Ok r, w', [Sent req])
    | (Failed kind, w') => (Raise (RequestException kind), w', [Sent req])
    end.

(** [time.sleep(secs)] *)
Definition time_sleep (secs : Z) : M W unit :=
  fun w =>
    if (secs <? - sleep_max) || (sleep_max <? secs)
    then (Raise OverflowError, w, [])
    else if secs <? 0
    then (Raise (ValueError "sleep length must be non-negative" None), w, [])
    else (Ok tt, elapse secs w, [Slept secs]).

(** [response.json()]; its decode error is a [RequestException]. *)
Definition response_json (r : response) : M W json :=
  match json_loads (text r) with
  | Some v => ret v
  | None => raise RequestsJSONDecodeError
  end.

(** [int(response.headers.get('Retry-After', self.retry_delay))] *)
Definition retry_after (self : Client) (r : response) : result Z :=
  match headers_get (resp_headers r) "Retry-After" with
  | None => Ok (retry_delay self)
  | Some v =>
      match py_int v with
      | Some n => Ok n
      | None => Raise invalid_literal
      end
  end.

Definition module_exists_marker : string :=
  "Module with this name already exists".

(** How one pass through the body of the [while] loop ends when it does
    not raise: [continue], or [return v]. *)
Inductive flow : Type :=
| Continue
| Return (v : json).

(** What the [try] block of [_make_request] does with a response
    (lines 93-125). *)
Definition handle_response (self : Client) (method : string)
    (response : response) : M W flow :=
  log DEBUG (MsgResponseStatus (status_code response)) ;;
  log DEBUG (MsgResponseHeaders (resp_headers response)) ;;
  when (negb (text response =? "")%string)
       (log DEBUG (MsgResponseBody (text response))) ;;
  if status_code response =? 429 then
    secs <- lift (retry_after self response) ;;
    log WARNING (MsgRateLimited secs) ;;
    time_sleep secs ;;
    ret Continue
  else if (status_code response =? 400) || (status_code response =? 403) then
    let error_body := text response in
    if (status_code response =? 400) && contains module_exists_marker error_body
    then
      error_data <- match json_loads error_body with
                    | Some v => ret v
                    | None => raise JSONDecodeError
                    end ;;
      log INFO MsgModuleExists ;;
      id <- lift (py_getitem error_data "id") ;;
      ret (Return (JObj [("id"%string, id)]))
    else
      log ERROR (MsgApiError (status_code response) error_body) ;;
      raise (ApiError (status_code response) error_body)
  else
    raise_for_status response ;;
    if (method =? "DELETE")%string || (text response =? "")%string
    then ret (Return (JObj []))
    else
      response_data <- response_json response ;;
      log DEBUG (MsgRequestSuccessful response_data) ;;
      ret (Return response_data).

(** The request [_make_request] sends, the same on every pass. *)
Definition request_of (self : Client) (method endpoint : string)
    (data : option json) : request :=
  {| method := method;
     url := base_url self ++ "/api/v1" ++ endpoint;
     req_headers := headers self;
     body := data |}.

(** The [try] block of [_make_request] (lines 81-125). *)
Definition attempt (self : Client) (method endpoint : string)
    (data : option json) : M W flow :=
  log DEBUG (MsgMakingRequest method endpoint) ;;
  log DEBUG (MsgRequestHeaders (headers self)) ;;
  when (match data with Some d => truthy d | None => false end)
       (log DEBUG (MsgRequestData (match data with Some d => d | None => JNull end))) ;;
  response <- requests_request (request_of self method endpoint data) ;;
  handle_response self method response.

(** The [except RequestException as e] clause (lines 127-134). *)
Definition on_request_exception (self : Client) (retries : nat) (e : exn)
    : M W flow :=
  if (retries <? max_retries self - 1)%nat then
    log WARNING (MsgRetrying (retry_delay self)) ;;
    time_sleep (retry_delay self) ;;
    ret Continue
  else
    log ERROR (MsgRequestFailed (max_retries self) e) ;;
    raise (RetriesFailed (max_retries self) e).

(** The [while retries < self.max_retries] loop and the two statements
    after it.  [left] is [max_retries - retries], the number of passes
    the loop condition still allows: the condition holds exactly when
    [left] is a successor, and [retries += 1] takes one from it. *)
Fixpoint request_loop (self : Client) (method endpoint : string)
    (data : option json) (left retries : nat) : M W json :=
  match left with
  | O =>
      log ERROR (MsgMaxRetries (max_retries self)) ;;
      raise (MaxRetriesExceeded (max_retries self))
  | S left' =>
      f <- try_except (attempt self method endpoint data)
             is_RequestException (on_request_exception self retries) ;;
      match f with
      | Continue => request_loop self method endpoint data left' (S retries)
      | Return v => ret v
      end
  end.

Definition _make_request (self : Client) (method endpoint : string)
    (data : option json) : M W json :=
  request_loop self method endpoint data (max_retries self) 0.

(** The probe of [_validate_api_connection]: a GET of the project. *)
Definition probe_request (self : Client) : request :=
  {| method := "GET";
     url := base_url self ++ "/api/v1/workspaces/" ++ workspace_slug self
              ++ "/projects/" ++ project_id self ++ "/";
     req_headers := headers self;
     body := None |}.

(** [_validate_api_connection] *)
Definition _validate_api_connection (self : Client) : M W unit :=
  try_except
    (response <- requests_request (probe_request self) ;;
     (if status_code response =? 401 then
        log ERROR MsgAuthenticationFailed ;;
        raise (ValueError "Authentication failed. Invalid API key." None)
      else ret tt) ;;
     raise_for_status response ;;
     log INFO MsgValidated)
    Exception
    (fun e =>
       log ERROR (MsgValidationFailed e) ;;
       raise (ValueError "Failed to validate API connection" (Some e))).

(** [os.getenv(name)] on the process environment *)
Definition getenv (environ : list (string * string)) (name : string)
    : option string := assoc name environ.

(** [not v] for a value that may be [None] *)
Definition unset (v : option string) : bool :=
  match v with
  | Some s => (s =? "")%string
  | None => true
  end.

Definition value_or (v : option string) (default : string) : string :=
  match v with Some s => s | None => default end.

(** The attributes [__init__] sets (lines 25-47). *)
Definition client_of (environ : list (string * string)) : Client :=
  {| api_key := value_or (getenv environ "PLANE_API_KEY") "";
     workspace_slug := value_or (getenv environ "PLANE_WORKSPACE_SLUG") "";
     project_id := value_or (getenv environ "PLANE_PROJECT_ID") "";
     base_url := value_or (getenv environ "PLANE_HOST") "https://lub.11data.de";
     retry_delay := 5;
     max_retries := 3;
     headers := [("Content-Type", "application/json");
                 ("x-api-key", value_or (getenv environ "PLANE_API_KEY") "");
                 ("Accept", "*/*");
                 ("User-Agent", "curl/8.7.1")] |}.

Definition invalid_api_key : exn :=
  ValueError
    "Invalid API key format. Please check your PLANE_API_KEY environment variable."
    None.

Definition missing_variables : exn :=
  ValueError
    "Missing required environment variables: PLANE_WORKSPACE_SLUG and/or PLANE_PROJECT_ID"
    None.

(** [__init__]; the configuration is read from the environment. *)
Definition __init__ (environ : list (string * string)) : M W Client :=
  let self := client_of environ in
  if unset (getenv environ "PLANE_API_KEY")
     || (String.length (api_key self) <? 32)%nat
  then raise invalid_api_key
  else if negb (negb (unset (getenv environ "PLANE_WORKSPACE_SLUG"))
                && negb (unset (getenv environ "PLANE_PROJECT_ID")))
  then raise missing_variables
  else
    log INFO (MsgInitialized (workspace_slug self) (project_id self)) ;;
    _validate_api_connection self ;;
    ret self.

End Transport.

(** ** Entity operations

    Every operation goes through [self._make_request]; the section takes
    that bound method as a variable, so that the operations can be run
    against the transport-level [_make_request] above as well as against a
    stand-in that answers from a table. *)

Record IssueProperty : Type := mkIssueProperty {
  display_name : string;
  property_description : string;
  property_type : string;
  relation_type : option string;
  default_value : option (list string);
  validation_rules : json;
  is_required : bool;
  is_active : bool;
  is_multi : bool
}.

Record Issue : Type := mkIssue {
  name : string;
  description : string;
  module_id : option string;
  properties : option (list IssueProperty)
}.

(** [hasattr(e, 'response')] and the attribute's value: the exceptions of
    [requests] carry a [response] attribute, [None] unless a response was
    received. *)
Definition exn_response (e : exn) : option (option response) :=
  match e with
  | HTTPError r => Some (Some r)
  | RequestException _ | RequestsJSONDecodeError => Some None
  | _ => None
  end.

Section Operations.
Context {St : Type} `{Runtime}.
Variable self : Client.
Variable self_make_request : string -> string -> option json -> M St json.

(** [for x in l: body x] *)
Fixpoint for_each {A : Type} (l : list A) (body : A -> M St unit) : M St unit :=
  match l with
  | [] => ret tt
  | x :: l' => body x ;; for_each l' body
  end.

(** [/workspaces/{self.workspace_slug}/projects/{self.project_id}], the
    start of every endpoint *)
Definition project_path : string :=
  "/workspaces/" ++ workspace_slug self ++ "/projects/" ++ project_id self.

Definition get_modules : M St json :=
  let endpoint := project_path ++ "/modules/" in
  response <- self_make_request "GET" endpoint None ;;
  lift (py_get response "results" (JArr [])).

Definition create_module (name : string) : M St json :=
  let endpoint := project_path ++ "/modules/" in
  let data := JObj [("name", JStr name);
                    ("description", JStr ("Module for " ++ name))] in
  try_except
    (response <- self_make_request "POST" endpoint (Some data) ;;
     lift (py_getitem response "id"))
    Exception
    (fun e =>
       match exn_response e with
       | Some (Some r) =>
           if status_code r =? 400 then
             error_data <- match json_loads (text r) with
                           | Some v => ret v
                           | None => raise JSONDecodeError
                           end ;;
             has_id <- lift (py_in "id" error_data) ;;
             if has_id : bool then lift (py_getitem error_data "id")
             else raise e
           else raise e
       | Some None => raise AttributeError
       | None => raise e
       end).

(** The payload of a comment (lines 182-199). *)
Definition comment_data (comment : string) : json :=
  JObj [("comment", JStr comment);
        ("comment_html", JStr comment);
        ("comment_json",
         JObj [("type", JStr "doc");
               ("content",
                JArr [JObj [("type", JStr "paragraph");
                            ("content",
                             JArr [JObj [("type", JStr "text");
                                         ("text", JStr comment)]])]])])].

Definition create_comment (issue_id : json) (comment : string) : M St json :=
  let endpoint := project_path ++ "/issues/" ++ py_str issue_id ++ "/comments/" in
  let data := comment_data comment in
  self_make_request "POST" endpoint (Some data).

Definition link_issue_to_module (issue_id module_id : json) : M St json :=
  let endpoint :=
    project_path ++ "/modules/" ++ py_str module_id ++ "/module-issues/" in
  let data := JObj [("issues", JArr [issue_id])] in
  self_make_request "POST" endpoint (Some data).

Definition create_issue (issue : Issue) : M St json :=
  let endpoint := project_path ++ "/issues/" in
  let data := JObj [("name", JStr (name issue));
                    ("state", JStr "7ee23e4f-6c29-49c6-8220-06991ecd95f2")] in
  response <- self_make_request "POST" endpoint (Some data) ;;
  when (negb (description issue =? "")%string)
    (try_except
       (id <- lift (py_getitem response "id") ;;
        create_comment id (description issue) ;;
        ret tt)
       Exception
       (fun e => print (MsgCouldNotAddComment e))) ;;
  when (negb (unset (module_id issue)))
    (id <- lift (py_getitem response "id") ;;
     link_issue_to_module id (JStr (value_or (module_id issue) "")) ;;
     ret tt) ;;
  ret response.

Definition get_module_issues (module_id : json) : M St json :=
  let endpoint :=
    project_path ++ "/modules/" ++ py_str module_id ++ "/module-issues/" in
  response <- self_make_request "GET" endpoint None ;;
  log DEBUG (MsgModuleIssuesResponse response) ;;
  lift (py_get response "results" (JArr [])).

Definition delete_issue (issue_id : json) : M St unit :=
  let endpoint := project_path ++ "/issues/" ++ py_str issue_id ++ "/" in
  self_make_request "DELETE" endpoint None ;;
  ret tt.

Definition delete_module (module_id : json) : M St unit :=
  let endpoint := project_path ++ "/modules/" ++ py_str module_id ++ "/" in
  self_make_request "DELETE" endpoint None ;;
  ret tt.

(** Lines 284-291 of [cleanup_project]: where the issue fields of an
    association record are looked for.  [JNull] is Python's [None]. *)
Definition issue_data_of (module_issue : json) : json :=
  match module_issue with
  | JObj fields =>
      match assoc "issue" fields with
      | Some v => v
      | None =>
          match assoc "issue_detail" fields with
          | Some v => v
          | None => module_issue
          end
      end
  | _ => JNull
  end.

(** The body of the loop over the association records of one module
    (lines 276-310).  The statements before the call of [delete_issue]
    cannot raise, so the [try] is placed around the only part that can;
    the handler reads [issue_name], which is bound by then. *)
Definition cleanup_issue (module_issue : json) : M St unit :=
  log DEBUG (MsgProcessingModuleIssue module_issue) ;;
  let issue_data := issue_data_of module_issue in
  if negb (truthy issue_data) || negb (is_dict issue_data) then
    log WARNING (MsgSkippingInvalid module_issue)
  else
    issue_id <- lift (py_get_none issue_data "id") ;;
    issue_name <- lift (py_get issue_data "name" (JStr "Unknown")) ;;
    if negb (truthy issue_id) then
      log WARNING (MsgSkippingWithoutId issue_name)
    else
      try_except
        (log INFO (MsgDeletingIssue issue_name issue_id) ;;
         delete_issue issue_id ;;
         log INFO (MsgDeletedIssue issue_name))
        Exception
        (fun e =>
           log ERROR (MsgErrorDeletingIssue issue_name e) ;;
           log DEBUG (MsgFullErrorDetails e)).

(** The body of the loop over the modules (lines 265-320). *)
Definition cleanup_module (module : json) : M St unit :=
  module_id <- lift (py_getitem module "id") ;;
  module_name <- lift (py_getitem module "name") ;;
  log INFO (MsgProcessingModule module_name) ;;
  try_except
    (module_issues <- get_module_issues module_id ;;
     n <- lift (py_len module_issues) ;;
     log INFO (MsgFoundIssues n module_name) ;;
     records <- lift (py_iter module_issues) ;;
     for_each records cleanup_issue ;;
     log INFO (MsgDeletingModule module_name module_id) ;;
     delete_module module_id ;;
     log INFO (MsgDeletedModule module_name))
    Exception
    (fun e =>
       log ERROR (MsgErrorProcessingModule module_name e) ;;
       log DEBUG (MsgFullErrorDetails e)).

Definition cleanup_project : M St unit :=
  try_except
    (modules <- get_modules ;;
     n <- lift (py_len modules) ;;
     log INFO (MsgFoundModules n) ;;
     items <- lift (py_iter modules) ;;
     for_each items cleanup_module)
    Exception
    (fun e =>
       log ERROR (MsgErrorDuringCleanup e) ;;
       log DEBUG (MsgFullErrorDetails e) ;;
       raise e).

End Operations.

(** ** The remaining operations of the client

    [get_issue_comments], [create_issue_property], [get_issue_types] and
    [delete_all_issues_in_project].  The last one writes two log records
    of its own; computations that produce other events than those of
    [event] are of type [T E St A], of which [M St A] is the instance at
    [event]. *)

Definition T (E St A : Type) : Type := St -> result A * St * list E.

Definition tret {E St A} (a : A) : T E St A := fun s => (Ok a, s, []).

Definition traise {E St A} (e : exn) : T E St A := fun s => (Raise e, s, []).

Definition tbind {E St A B} (m : T E St A) (k : A -> T E St B) : T E St B :=
  fun s =>
    match m s with
    | (Ok a, s1, t1) =>
        match k a s1 with (r, s2, t2) => (r, s2, (t1 ++ t2)%list) end
    | (Raise e, s1, t1) => (Raise e, s1, t1)
    end.

Notation "x <~ m ;; k" := (tbind m (fun x => k))
  (at level 61, m at next level, right associativity).
Notation "m ;;; k" := (tbind m (fun _ => k))
  (at level 61, right associativity).

(** [try: m  except <class> as e: handler e] *)
Definition ttry {E St A} (m : T E St A) (catches : exn -> bool)
    (handler : exn -> T E St A) : T E St A :=
  fun s =>
    match m s with
    | (Raise e, s1, t1) =>
        if catches e
        then match handler e s1 with (r, s2, t2) => (r, s2, (t1 ++ t2)%list) end
        else (Raise e, s1, t1)
    | done => done
    end.

Definition temit {E St} (ev : E) : T E St unit := fun s => (Ok tt, s, [ev]).

Definition tlift {E St A} (r : result A) : T E St A := fun s => (r, s, []).

(** [for x in l: body x] *)
Fixpoint tfor_each {E St A} (l : list A) (body : A -> T E St unit) : T E St unit :=
  match l with
  | [] => tret tt
  | x :: l' => body x ;;; tfor_each l' body
  end.

(** The messages logged by [delete_all_issues_in_project] that
    [cleanup_project] does not share with it. *)
Inductive message_more : Type :=
| MsgFoundProjectIssues (n : nat)
| MsgErrorFetchingOrDeleting (e : exn).

Inductive event_more : Type :=
| Core (ev : event)
| LoggedMore (l : level) (m : message_more).

(** A computation of the client seen among the larger events. *)
Definition core {St A} (m : M St A) : T event_more St A :=
  fun s => match m s with (r, s', t) => (r, s', map Core t) end.

(** [IssueProperty.model_dump()] *)
Definition model_dump (p : IssueProperty) : json :=
  let optional_str (v : option string) :=
    match v with Some s => JStr s | None => JNull end in
  JObj [("display_name", JStr (display_name p));
        ("description", JStr (property_description p));
        ("property_type", JStr (property_type p));
        ("relation_type", optional_str (relation_type p));
        ("default_value",
         match default_value p with
         | Some l => JArr (map JStr l)
         | None => JNull
         end);
        ("validation_rules", validation_rules p);
        ("is_required", JBool (is_required p));
        ("is_active", JBool (is_active p));
        ("is_multi", JBool (is_multi p))].

(** [str(e)] for the exceptions the client builds itself; the text of the
    exceptions raised by the libraries is a parameter. *)
Class Texts : Type := {
  library_text : exn -> string
}.

Fixpoint exn_str `{Runtime} `{Texts} (e : exn) : string :=
  match e with
  | ApiError status body =>
      py_str (JInt status) ++ " Error. Response: " ++ body
  | RetriesFailed n cause =>
      "API request failed after " ++ py_str (JInt (Z.of_nat n)) ++ " retries: "
        ++ exn_str cause
  | MaxRetriesExceeded n =>
      "Maximum retries (" ++ py_str (JInt (Z.of_nat n)) ++ ") exceeded"
  | _ => library_text e
  end.

Section MoreOperations.
Context {St : Type} `{Runtime} `{Texts}.
Variable self : Client.
Variable self_make_request : string -> string -> option json -> M St json.

Definition get_issue_types : M St json :=
  let endpoint := project_path self ++ "/issue-types/" in
  try_except
    (response <- self_make_request "GET" endpoint None ;;
     lift (py_get response "results" (JArr [])))
    Exception
    (fun e =>
       if contains "Payment required" (exn_str e) then ret (JArr [])
       else raise e).

Definition create_issue_property (issue_type_id : json)
    (property_data : IssueProperty) : M St json :=
  let endpoint :=
    project_path self ++ "/issue-types/" ++ py_str issue_type_id
      ++ "/issue-properties/" in
  self_make_request "POST" endpoint (Some (model_dump property_data)).

Definition get_issue_comments (issue_id : json) : M St json :=
  let endpoint :=
    project_path self ++ "/issues/" ++ py_str issue_id ++ "/comments/" in
  response <- self_make_request "GET" endpoint None ;;
  lift (py_get response "results" (JArr [])).

(** The body of the loop of [delete_all_issues_in_project]
    (lines 335-346). *)
Definition delete_listed_issue (issue : json) : M St unit :=
  issue_id <- lift (py_get_none issue "id") ;;
  issue_name <- lift (py_get issue "name" (JStr "Unknown")) ;;
  if negb (truthy issue_id) then
    log WARNING (MsgSkippingWithoutId issue)
  else
    try_except
      (log INFO (MsgDeletingIssue issue_name issue_id) ;;
       delete_issue self self_make_request issue_id ;;
       log INFO (MsgDeletedIssue issue_name))
      Exception
      (fun e =>
         log ERROR (MsgErrorDeletingIssue issue_name e) ;;
         log DEBUG (MsgFullErrorDetails e)).

Definition delete_all_issues_in_project : T event_more St unit :=
  ttry
    (let endpoint := project_path self ++ "/issues/" in
     response <~ core (self_make_request "GET" endpoint None) ;;
     issues <~ tlift (py_get response "results" (JArr [])) ;;
     n <~ tlift (py_len issues) ;;
     temit (LoggedMore INFO (MsgFoundProjectIssues n)) ;;;
     items <~ tlift (py_iter issues) ;;
     tfor_each items (fun issue => core (delete_listed_issue issue)))
    Exception
    (fun e =>
       temit (LoggedMore ERROR (MsgErrorFetchingOrDeleting e)) ;;;
       core (log DEBUG (MsgFullErrorDetails e))).

End MoreOperations.

End PlaneClient.

(** * The command-line tool ([main.py])

    The arguments are taken as parsed by [argparse], the environment as it
    is after [load_dotenv].  Reading the input file and opening the output
    file are parameters (class [Files]).  The tool has a logger of its
    own: its events are those of the client, its log records, and the
    writing of the export. *)

Module Main.
Import PlaneClient.

(** [ModuleIssue] of [src/models/issue.py] *)
Record ModuleIssue : Type := mkModuleIssue {
  body : string;
  description : string
}.

(** The [ValidationError] of pydantic, a [ValueError]. *)
Definition validation_error (model : string) : exn :=
  ValueError ("validation error for " ++ model) None.

(** [ModuleIssue(body=b, description=d)]: both fields are of type [str],
    and pydantic 2 (the client calls [model_dump]) takes no other decoded
    value for them. *)
Definition ModuleIssue_new (b d : json) : result ModuleIssue :=
  match b, d with
  | JStr b', JStr d' => Ok (mkModuleIssue b' d')
  | _, _ => Raise (validation_error "ModuleIssue")
  end.

(** [Issue(name=n, description=d, module_id=m)]: [module_id] is an
    optional [str]. *)
Definition Issue_new (n d : string) (m : json) : result Issue :=
  match m with
  | JStr id => Ok (mkIssue n d (Some id) None)
  | JNull => Ok (mkIssue n d None None)
  | _ => Raise (validation_error "Issue")
  end.

Class Files : Type := {
  (** [json.load] of the file opened for reading *)
  load_json : string -> result json;
  (** the exception of [open(path, 'w')], if it raises *)
  open_for_writing : string -> option exn
}.

(** The exported data: a dictionary from module names to lists of issue
    entries, in insertion order. *)
Definition export_data : Type := list (json * list json).

Inductive tool_message : Type :=
| MsgErrorLoadingWorkPackages (e : exn)
| MsgExported (path : string)
| MsgErrorExporting (e : exn)
| MsgLoadedApiKey (masked : string)
| MsgLoadedWorkspaceSlug (v : option string)
| MsgLoadedProjectId (v : option string)
| MsgLoadedHost (v : option string)
| MsgMissingVariables (names : list string)
| MsgCleaningUp
| MsgDeletingAllIssues
| MsgInputRequired
| MsgLoadedWorkPackages (n : nat)
| MsgDryRun
| MsgWouldCreateModule (name : string)
| MsgWouldCreateIssue (body : string)
| MsgWouldDescribe (description : string)
| MsgUsingIssueType (id : json)
| MsgNoIssueTypes (e : exn)
| MsgCreatedModule (name : string) (id : json)
| MsgCreatedIssue (name : string) (id : json)
| MsgErrorProcessingPackage (name : string) (e : exn)
| MsgErrorProcessingWorkPackages (e : exn).

Inductive tool_event : Type :=
| FromClient (ev : event_more)
| ToolLogged (l : level) (m : tool_message)
| Dumped (path : string) (data : export_data).

(** A computation seen among larger events. *)
Definition tmap {E E' St A} (f : E -> E') (m : T E St A) : T E' St A :=
  fun s => match m s with (r, s', t) => (r, s', map f t) end.

(** A computation of the client among the events of the tool. *)
Definition client {St A} (m : M St A) : T tool_event St A :=
  tmap (fun ev => FromClient (Core ev)) m.

Definition tlog {St} (l : level) (m : tool_message) : T tool_event St unit :=
  temit (ToolLogged l m).

(** [[f(x) for x in l]], where [f] may raise *)
Fixpoint traverse {A B : Type} (f : A -> result B) (l : list A) : result (list B) :=
  match l with
  | [] => Ok []
  | x :: l' =>
      match f x with
      | Ok y => match traverse f l' with
                | Ok ys => Ok (y :: ys)
                | Raise e => Raise e
                end
      | Raise e => Raise e
      end
  end.

(** The [ModuleIssue] built from one entry of the input (lines 29-32). *)
Definition module_issue_of `{Runtime} (issue : json) : result ModuleIssue :=
  if is_dict issue then
    match py_getitem issue "name" with
    | Ok b =>
        match py_getitem issue "description" with
        | Ok d => ModuleIssue_new b d
        | Raise e => Raise e
        end
    | Raise e => Raise e
    end
  else ModuleIssue_new issue (JStr ("Task: " ++ py_str issue)).

(** The dictionary comprehension of [load_work_packages] (lines 27-36);
    the keys of a decoded object are distinct. *)
Definition work_packages_of `{Runtime} (data : json)
    : result (list (string * list ModuleIssue)) :=
  match data with
  | JObj fields =>
      traverse (fun entry : string * json =>
                  match py_iter (snd entry) with
                  | Ok issues =>
                      match traverse module_issue_of issues with
                      | Ok l => Ok (fst entry, l)
                      | Raise e => Raise e
                      end
                  | Raise e => Raise e
                  end) fields
  | _ => Raise AttributeError
  end.

(** [bool(v)] and [v1 == v2] on keys of a dictionary: [True] equals [1]. *)
Definition hashable (v : json) : bool :=
  match v with JArr _ | JObj _ => false | _ => true end.

Definition key_eq (a b : json) : bool :=
  let num v := match v with
               | JBool true => Some 1
               | JBool false => Some 0
               | JInt z => Some z
               | _ => None
               end in
  match a, b with
  | JNull, JNull => true
  | JStr s, JStr t => (s =? t)%string
  | _, _ => match num a, num b with
            | Some x, Some y => x =? y
            | _, _ => false
            end
  end.

(** [d[k] = v] *)
Fixpoint dict_set (d : export_data) (k : json) (v : list json) : export_data :=
  match d with
  | [] => [(k, v)]
  | (k', v') :: d' =>
      if key_eq k' k then (k', v) :: d' else (k', v') :: dict_set d' k v
  end.

(** [d[k].append(x)], for a key that is present *)
Fixpoint dict_append (d : export_data) (k : json) (x : json) : export_data :=
  match d with
  | [] => []
  | (k', v') :: d' =>
      if key_eq k' k then (k', (v' ++ [x])%list) :: d'
      else (k', v') :: dict_append d' k x
  end.

(** The key is masked for the debug record of [main] (line 97). *)
Fixpoint stars (n : nat) : string :=
  match n with
  | O => EmptyString
  | S n' => String "*" (stars n')
  end.

Definition mask (api_key : string) : string :=
  if (api_key =? "")%string then "None"
  else stars (String.length api_key - 4)
         ++ substring (String.length api_key - 4) 4 api_key.

(** The arguments of the command line. *)
Record Args : Type := mkArgs {
  input : option string;
  dry_run : bool;
  export : option string;
  cleanup : bool;
  delete_all_issues : bool
}.

Definition required_env_vars : list string :=
  ["PLANE_API_KEY"; "PLANE_WORKSPACE_SLUG"; "PLANE_PROJECT_ID"; "PLANE_HOST"].

Section Tool.
Context `{Runtime} `{Texts} `{Files}.

Section WithClient.
Context {St : Type}.
Variable self : Client.
Variable self_make_request : string -> string -> option json -> M St json.

Definition load_work_packages (file_path : string)
    : T tool_event St (list (string * list ModuleIssue)) :=
  ttry
    (data <~ tlift (load_json file_path) ;;
     tlift (work_packages_of data))
    Exception
    (fun e =>
       tlog ERROR (MsgErrorLoadingWorkPackages e) ;;;
       traise e).

(** One entry of the list of comments of an exported issue
    (lines 65-68). *)
Definition comment_entry (comment : json) : result json :=
  match py_getitem comment "comment" with
  | Ok text =>
      match py_getitem comment "created_at" with
      | Ok created_at => Ok (JObj [("text", text); ("created_at", created_at)])
      | Raise e => Raise e
      end
  | Raise e => Raise e
  end.

(** The body of the loop over the issues of a module (lines 56-71). *)
Definition export_issue (module_name : json) (data : export_data) (issue : json)
    : T tool_event St export_data :=
  issue_id <~ tlift (py_getitem issue "id") ;;
  comments <~ client (get_issue_comments self self_make_request issue_id) ;;
  issue_name <~ tlift (py_getitem issue "name") ;;
  items <~ tlift (py_iter comments) ;;
  entries <~ tlift (traverse comment_entry items) ;;
  tret (dict_append data module_name
          (JObj [("name", issue_name); ("id", issue_id);
                 ("comments", JArr entries)])).

(** A loop that updates the dictionary. *)
Fixpoint tfold {A : Type} (l : list A) (data : export_data)
    (body : export_data -> A -> T tool_event St export_data)
    : T tool_event St export_data :=
  match l with
  | [] => tret data
  | x :: l' => data' <~ body data x ;; tfold l' data' body
  end.

(** The body of the loop over the modules (lines 49-71). *)
Definition export_module (data : export_data) (module : json)
    : T tool_event St export_data :=
  module_id <~ tlift (py_getitem module "id") ;;
  module_name <~ tlift (py_getitem module "name") ;;
  data <~ (if hashable module_name then tret (dict_set data module_name [])
           else traise TypeError) ;;
  module_issues <~ client (get_module_issues self self_make_request module_id) ;;
  issues <~ tlift (py_iter module_issues) ;;
  tfold issues data (export_issue module_name).

Definition export_issues (output_file : string) : T tool_event St unit :=
  ttry
    (modules <~ client (get_modules self self_make_request) ;;
     items <~ tlift (py_iter modules) ;;
     data <~ tfold items [] export_module ;;
     match open_for_writing output_file with
     | Some e => traise e
     | None => temit (Dumped output_file data)
     end ;;;
     tlog INFO (MsgExported output_file))
    Exception
    (fun e =>
       tlog ERROR (MsgErrorExporting e) ;;;
       traise e).

(** The dry run of [main] (lines 133-139). *)
Definition dry_run_packages (work_packages : list (string * list ModuleIssue))
    : T tool_event St unit :=
  tlog INFO MsgDryRun ;;;
  tfor_each work_packages
    (fun package =>
       tlog INFO (MsgWouldCreateModule (fst package)) ;;;
       tfor_each (snd package)
         (fun issue =>
            tlog INFO (MsgWouldCreateIssue (body issue)) ;;;
            tlog INFO (MsgWouldDescribe (description issue)))).

(** [issue_types[0]] for a true value *)
Definition first_item (v : json) : result json :=
  match v with
  | JArr (x :: _) => Ok x
  | JStr (String c _) => Ok (JStr (String c EmptyString))
  | JObj _ => Raise (KeyError "0")
  | _ => Raise TypeError
  end.

(** The look-up of the issue types by [main] (lines 142-149). *)
Definition find_issue_type : T tool_event St unit :=
  ttry
    (issue_types <~ client (get_issue_types self self_make_request) ;;
     issue_type_id <~
       (if truthy issue_types then
          first <~ tlift (first_item issue_types) ;;
          tlift (py_getitem first "id")
        else tret JNull) ;;
     if truthy issue_type_id then tlog INFO (MsgUsingIssueType issue_type_id)
     else tret tt)
    Exception
    (fun e => tlog WARNING (MsgNoIssueTypes e)).

(** The body of the loop over the issues of a work package
    (lines 158-164). *)
Definition create_package_issue (module_id : json) (module_issue : ModuleIssue)
    : T tool_event St unit :=
  issue <~ tlift (Issue_new (body module_issue) (description module_issue) module_id) ;;
  created_issue <~ client (create_issue self self_make_request issue) ;;
  id <~ tlift (py_getitem created_issue "id") ;;
  tlog INFO (MsgCreatedIssue (name issue) id).

(** The body of the loop over the work packages (lines 151-167). *)
Definition create_package (package : string * list ModuleIssue) : T tool_event St unit :=
  let module_name := fst package in
  ttry
    (module_id <~ client (create_module self self_make_request module_name) ;;
     tlog INFO (MsgCreatedModule module_name module_id) ;;;
     tfor_each (snd package) (create_package_issue module_id))
    Exception
    (fun e => tlog ERROR (MsgErrorProcessingPackage module_name e)).

(** What [main] does with the work packages when the run is not a dry run
    (lines 141-167). *)
Definition create_packages (work_packages : list (string * list ModuleIssue))
    : T tool_event St unit :=
  find_issue_type ;;;
  tfor_each work_packages create_package.

End WithClient.

Context {W : Type} `{Network W}.

(** The [try] block of [main] (lines 109-167). *)
Definition run_mode (args : Args) (environ : list (string * string))
    : T tool_event W unit :=
  self <~ client (__init__ environ) ;;
  if cleanup args then
    tlog INFO MsgCleaningUp ;;;
    client (cleanup_project self (_make_request self))
  else if negb (unset (export args)) then
    export_issues self (_make_request self) (value_or (export args) "")
  else if delete_all_issues args then
    tlog INFO MsgDeletingAllIssues ;;;
    tmap FromClient (delete_all_issues_in_project self (_make_request self))
  else if unset (input args) then
    tlog ERROR MsgInputRequired
  else
    work_packages <~ load_work_packages (value_or (input args) "") ;;
    tlog INFO (MsgLoadedWorkPackages (List.length work_packages)) ;;;
    if dry_run args then dry_run_packages work_packages
    else create_packages self (_make_request self) work_packages.

(** [main], after the arguments are parsed and the [.env] file is
    loaded. *)
Definition main (args : Args) (environ : list (string * string)) : T tool_event W unit :=
  let api_key := value_or (getenv environ "PLANE_API_KEY") "" in
  tlog DEBUG (MsgLoadedApiKey (mask api_key)) ;;;
  tlog DEBUG (MsgLoadedWorkspaceSlug (getenv environ "PLANE_WORKSPACE_SLUG")) ;;;
  tlog DEBUG (MsgLoadedProjectId (getenv environ "PLANE_PROJECT_ID")) ;;;
  tlog DEBUG (MsgLoadedHost (getenv environ "PLANE_HOST")) ;;;
  let missing_vars :=
    filter (fun var => unset (getenv environ var)) required_env_vars in
  match missing_vars with
  | _ :: _ => tlog ERROR (MsgMissingVariables missing_vars)
  | [] =>
      ttry (run_mode args environ) Exception
        (fun e => tlog ERROR (MsgErrorProcessingWorkPackages e))
  end.

End Tool.

End Main.

Import PlaneClient.

(** ** Reading traces *)

(** The interactions with the outside world: requests and sleeps. *)
Definition is_io (e : event) : bool :=
  match e with Sent _ | Slept _ => true | _ => false end.

Definition io (t : list event) : list event := filter is_io t.

(** The number of transport attempts in a trace. *)
Definition attempts (t : list event) : nat :=
  List.length (filter (fun e => match e with Sent _ => true | _ => false end) t).

(** The log records written before a request is sent and after a response
    is received. *)
Definition request_logs (self : Client) (method endpoint : string)
    (data : option json) : list event :=
  [Logged DEBUG (MsgMakingRequest method endpoint);
   Logged DEBUG (MsgRequestHeaders (headers self))]
  ++ match data with
     | Some d => if truthy d then [Logged DEBUG (MsgRequestData d)] else []
     | None => []
     end.

Definition response_logs (r : response) : list event :=
  [Logged DEBUG (MsgResponseStatus (status_code r));
   Logged DEBUG (MsgResponseHeaders (resp_headers r))]
  ++ (if (text r =? "")%string then [] else [Logged DEBUG (MsgResponseBody (text r))]).

(** A response that ends [_make_request] with the result [v]: a status of
    the 2xx class and, unless the request is a DELETE or the body is empty,
    a body that decodes to [v]. *)
Definition succeeds `{Runtime} (method : string) (r : response) (v : json) : Prop :=
  200 <= status_code r < 300 /\
  if (method =? "DELETE")%string || (text r =? "")%string
  then v = JObj []
  else json_loads (text r) = Some v.

(** ** Vocabulary of the properties *)

(** The statuses [raise_for_status] raises for that [_make_request] does
    not treat before it. *)
Definition http_error_status (s : Z) : Prop :=
  400 <= s < 600 /\ s <> 429 /\ s <> 400 /\ s <> 403.

(** [rate_limited self req ns w w']: from the state [w], the request is
    answered by one 429 response per element of [ns], each asking for a
    wait of that many seconds (the [Retry-After] header, or the client's
    fixed delay when the header is absent), and the client has waited so
    long each time; [w'] is the state after the last wait. *)
Inductive rate_limited {W : Type} `{Network W} (self : Client)
    (req : request) : list Z -> W -> W -> Prop :=
| rate_limited_nil (w : W) : rate_limited self req [] w w
| rate_limited_cons (w w1 w' : W) (r : response) (n : Z) (ns : list Z) :
    transmit req w = (Responded r, w1) ->
    status_code r = 429 ->
    retry_after self r = Ok n ->
    0 <= n <= sleep_max ->
    rate_limited self req ns (elapse n w1) w' ->
    rate_limited self req (n :: ns) w w'.

(** The configuration has the shape the constructor asks for: a token of
    at least 32 characters, and a workspace and a project identifier. *)
Definition shape_valid (environ : list (string * string)) : Prop :=
  (exists key, getenv environ "PLANE_API_KEY" = Some key /\
               (32 <= String.length key)%nat) /\
  (exists workspace, getenv environ "PLANE_WORKSPACE_SLUG" = Some workspace /\
                     workspace <> "") /\
  (exists project, getenv environ "PLANE_PROJECT_ID" = Some project /\
                   project <> "").

(** A call of [self._make_request]: method, endpoint and data. *)
Definition call : Type := string * string * option json.

(** A stand-in for [self._make_request] that answers a call from [respond],
    given the calls made before, and adds the call to the record.  No
    assumption is made on [respond]: it can answer any call with a result
    or with any exception. *)
Definition recorded (respond : list call -> call -> result json)
    : string -> string -> option json -> M (list call) json :=
  fun method endpoint data calls =>
    let c := (method, endpoint, data) in
    (respond calls c, (calls ++ [c])%list, []).

(** The identifier [cleanup_project] finds in an association record, if it
    finds a usable one: the record's issue data is a dictionary whose [id]
    is a true value. *)
Definition usable_id (record : json) : option json :=
  match issue_data_of record with
  | JObj fields =>
      match assoc "id" fields with
      | Some id => if truthy id then Some id else None
      | None => None
      end
  | _ => None
  end.

(** A module of the project: its entry in the listing of modules, its
    identifier, and the association records its issue listing returns. *)
Record module_state : Type := mkModuleState {
  listed : json;
  identifier : json;
  associations : list json
}.

(** A response of a listing endpoint with the given items. *)
Definition lists (resp : json) (items : list json) : Prop :=
  py_get resp "results" (JArr []) = Ok (JArr items).

Section CleanupCalls.
Context `{Runtime}.
Variable self : Client.

Definition list_modules_call : call :=
  ("GET", project_path self ++ "/modules/", None).

Definition list_issues_call (module_id : json) : call :=
  ("GET", project_path self ++ "/modules/" ++ py_str module_id ++ "/module-issues/",
   None).

Definition delete_issue_call (issue_id : json) : call :=
  ("DELETE", project_path self ++ "/issues/" ++ py_str issue_id ++ "/", None).

Definition delete_module_call (module_id : json) : call :=
  ("DELETE", project_path self ++ "/modules/" ++ py_str module_id ++ "/", None).

(** The delete calls for a list of association records: one per record
    with a usable identifier. *)
Definition delete_issue_calls (records : list json) : list call :=
  flat_map (fun record =>
              match usable_id record with
              | Some id => [delete_issue_call id]
              | None => []
              end) records.

(** A call that deletes an issue, a call that deletes a module. *)
Definition is_delete_issue (c : call) : bool :=
  (fst (fst c) =? "DELETE")%string
  && prefix (project_path self ++ "/issues/") (snd (fst c)).

Definition is_delete_module (c : call) : bool :=
  (fst (fst c) =? "DELETE")%string
  && prefix (project_path self ++ "/modules/") (snd (fst c)).

(** The calls made for one module. *)
Definition module_calls (m : module_state) : list call :=
  list_issues_call (identifier m)
    :: delete_issue_calls (associations m)
    ++ [delete_module_call (identifier m)].

(** Every module has an identifier and a name in the listing, and its own
    issue listing succeeds whenever it is asked for. *)
Definition listings_succeed (respond : list call -> call -> result json)
    (modules : list module_state) : Prop :=
  forall m, In m modules ->
    py_getitem (listed m) "id" = Ok (identifier m) /\
    (exists name, py_getitem (listed m) "name" = Ok name) /\
    (forall calls, exists resp,
        respond calls (list_issues_call (identifier m)) = Ok resp /\
        lists resp (associations m)).

End CleanupCalls.

(** ** Vocabulary for the remaining operations and for the tool *)

(** The call that lists the issues of the project, and the identifier
    [delete_all_issues_in_project] reads from a listed issue. *)
Definition project_issues_call (self : Client) : call :=
  ("GET", project_path self ++ "/issues/", None).

Definition listed_id (issue : json) : option json :=
  match py_get_none issue "id" with
  | Ok id => if truthy id then Some id else None
  | Raise _ => None
  end.

(** The delete calls for the listed issues: one per issue with a true
    [id]. *)
Definition listed_issue_calls `{Runtime} (self : Client) (issues : list json)
    : list call :=
  flat_map (fun issue =>
              match listed_id issue with
              | Some id => [delete_issue_call self id]
              | None => []
              end) issues.

(** The requests in a trace of the tool. *)
Definition tool_requests (t : list Main.tool_event) : list request :=
  flat_map (fun ev => match ev with
                      | Main.FromClient (Core (Sent r)) => [r]
                      | _ => []
                      end) t.

(** The four debug records [main] starts with. *)
Definition main_preamble (environ : list (string * string)) : list Main.tool_event :=
  [Main.ToolLogged DEBUG
     (Main.MsgLoadedApiKey (Main.mask (value_or (getenv environ "PLANE_API_KEY") "")));
   Main.ToolLogged DEBUG (Main.MsgLoadedWorkspaceSlug (getenv environ "PLANE_WORKSPACE_SLUG"));
   Main.ToolLogged DEBUG (Main.MsgLoadedProjectId (getenv environ "PLANE_PROJECT_ID"));
   Main.ToolLogged DEBUG (Main.MsgLoadedHost (getenv environ "PLANE_HOST"))].

(** The variables [main] asks for that are missing or empty. *)
Definition missing_vars (environ : list (string * string)) : list string :=
  filter (fun var => unset (getenv environ var)) Main.required_env_vars.

(** The requests in a trace of the client. *)
Definition sent (t : list event) : list request :=
  flat_map (fun ev => match ev with Sent r => [r] | _ => [] end) t.

(** Computations of the tool that leave the state alone and send
    nothing. *)
Definition quiet {St A : Type} (m : T Main.tool_event St A) : Prop :=
  forall s, snd (fst (m s)) = s /\ tool_requests (snd (m s)) = [].

(** The files written in a trace of the tool. *)
Definition dumps (t : list Main.tool_event) : list (string * Main.export_data) :=
  flat_map (fun ev => match ev with Main.Dumped p d => [(p, d)] | _ => [] end) t.

(** A call that reads: a GET without data. *)
Definition is_read (c : call) : Prop := fst (fst c) = "GET" /\ snd c = None.

(** Computations of the tool that only read from the service and write no
    file. *)
Definition reading {A : Type} (m : T Main.tool_event (list call) A) : Prop :=
  forall calls, exists new,
    snd (fst (m calls)) = (calls ++ new)%list /\
    Forall is_read new /\
    dumps (snd (m calls)) = [].

(** What [export_issues] collects before it opens the output file
    (lines 45-71). *)
Definition collected `{Runtime} (self : Client)
    (respond : list call -> call -> result json)
    : T Main.tool_event (list call) Main.export_data :=
  tbind (Main.client (get_modules self (recorded respond)))
    (fun modules =>
       tbind (tlift (py_iter modules))
         (fun items =>
            Main.tfold items [] (Main.export_module self (recorded respond)))).

(** How an entry of the input file reads: a string is the name of an
    issue whose description is made from it, an object gives the name and
    the description. *)
Inductive entry_of : json -> Main.ModuleIssue -> Prop :=
| entry_plain (s : string) :
    entry_of (JStr s) (Main.mkModuleIssue s ("Task: " ++ s))
| entry_detailed (fields : list (string * json)) (n d : string) :
    assoc "name" fields = Some (JStr n) ->
    assoc "description" fields = Some (JStr d) ->
    entry_of (JObj fields) (Main.mkModuleIssue n d).

(** A field of the input file reads as a work package. *)
Definition package_of (field : string * json)
    (package : string * list Main.ModuleIssue) : Prop :=
  fst field = fst package /\
  exists items, snd field = JArr items /\ Forall2 entry_of items (snd package).

(** The calls that create a module and an issue. *)
Definition create_module_call (self : Client) (name : string) : call :=
  ("POST", project_path self ++ "/modules/",
   Some (JObj [("name", JStr name); ("description", JStr ("Module for " ++ name))])).

Definition create_issue_call (self : Client) (name : string) : call :=
  ("POST", project_path self ++ "/issues/",
   Some (JObj [("name", JStr name);
               ("state", JStr "7ee23e4f-6c29-49c6-8220-06991ecd95f2")])).

(** The call that lists the issue types. *)
Definition issue_types_call (self : Client) : call :=
  ("GET", project_path self ++ "/issue-types/", None).

(** ** Stand-ins for examples: a scripted transport and a table decoder *)

(** The i-th request is answered by the i-th entry of the script; the
    state is the number of requests seen. *)
Definition scripted (script : list reply) : Network nat :=
  {| transmit := fun _ i => (nth i script (Failed "ConnectionError"), S i);
     elapse := fun _ i => i |}.

Definition dq : string := String (ascii_of_nat 34) EmptyString.

(** The JSON text of an object with the one field [id]. *)
Definition id_body (id : string) : string :=
  "{" ++ dq ++ "id" ++ dq ++ ": " ++ dq ++ id ++ dq ++ "}".

(** A decoder given by a table from texts to values.  The examples format
    strings only; [str()] of the other values is not theirs. *)
Definition table_runtime (table : list (string * json)) : Runtime :=
  {| json_loads := fun s => assoc s table;
     py_str := fun v => match v with JStr s => s | _ => "None" end;
     py_str_str := fun s => eq_refl |}.

(** The body of a 400 response that reports an existing module. *)
Definition exists_body (id : string) : string :=
  "{" ++ dq ++ "error" ++ dq ++ ": " ++ dq ++ module_exists_marker ++ dq ++ ", "
      ++ dq ++ "id" ++ dq ++ ": " ++ dq ++ id ++ dq ++ "}".

Definition exists_json (id : string) : json :=
  JObj [("error", JStr module_exists_marker); ("id", JStr id)].

(** A valid configuration, and the client the constructor builds from
    it. *)
Definition valid_environ : list (string * string) :=
  [("PLANE_API_KEY", "0123456789abcdef0123456789abcdef");
   ("PLANE_WORKSPACE_SLUG", "ws");
   ("PLANE_PROJECT_ID", "p1");
   ("PLANE_HOST", "https://plane.example")].

Definition demo_client : Client := client_of valid_environ.

(** A project with two modules and three issues, one per shape of
    association record, on a service that refuses every deletion. *)
Definition demo_modules : list module_state :=
  [ {| listed := JObj [("id", JStr "m-1"); ("name", JStr "Backend")];
       identifier := JStr "m-1";
       associations :=
         [JObj [("id", JStr "i-1"); ("name", JStr "Login")];
          JObj [("module", JStr "m-1"); ("issue", JObj [("id", JStr "i-2")])]] |};
    {| listed := JObj [("id", JStr "m-2"); ("name", JStr "Frontend")];
       identifier := JStr "m-2";
       associations :=
         [JObj [("issue_detail", JObj [("id", JStr "i-3"); ("name", JStr "Menu")])]] |} ].

Definition demo_listing (items : list json) : json := JObj [("results", JArr items)].

Definition demo_respond : list call -> call -> result json :=
  fun _ c =>
    let endpoint := snd (fst c) in
    if (fst (fst c) =? "GET")%string then
      if (endpoint =? "/workspaces/ws/projects/p1/modules/")%string
      then Ok (demo_listing (map listed demo_modules))
      else if (endpoint =? "/workspaces/ws/projects/p1/modules/m-1/module-issues/")%string
      then Ok (demo_listing (associations (nth 0 demo_modules (mkModuleState JNull JNull []))))
      else if (endpoint =? "/workspaces/ws/projects/p1/modules/m-2/module-issues/")%string
      then Ok (demo_listing (associations (nth 1 demo_modules (mkModuleState JNull JNull []))))
      else Raise (ApiError 400 "unknown")
    else Raise (ApiError 403 "forbidden").

(** A module between the two modules of the example whose issue listing
    is refused. *)
Definition locked_module : module_state :=
  {| listed := JObj [("id", JStr "m-x"); ("name", JStr "Locked")];
     identifier := JStr "m-x";
     associations := [] |}.

Definition demo_respond_locked : list call -> call -> result json :=
  fun calls c =>
    let endpoint := snd (fst c) in
    if (fst (fst c) =? "GET")%string
       && (endpoint =? "/workspaces/ws/projects/p1/modules/")%string
    then Ok (demo_listing
               (map listed (firstn 1 demo_modules ++ locked_module :: skipn 1 demo_modules)))
    else if (endpoint =? "/workspaces/ws/projects/p1/modules/m-x/module-issues/")%string
    then Raise (ApiError 403 "forbidden")
    else demo_respond calls c.

(** ** Lemmas on traces and on one pass of the request loop *)

Lemma io_app (a b : list event) : io (a ++ b) = (io a ++ io b)%list.
Proof. apply filter_app. Qed.

Lemma attempts_app (a b : list event) : attempts (a ++ b) = (attempts a + attempts b)%nat.
Proof. unfold attempts. now rewrite filter_app, length_app. Qed.

Lemma io_request_logs self method endpoint data :
  io (request_logs self method endpoint data) = [].
Proof.
  unfold request_logs. destruct data as [d|]; [destruct (truthy d)|]; reflexivity.
Qed.

Lemma io_response_logs r : io (response_logs r) = [].
Proof. unfold response_logs. destruct (text r =? "")%string; reflexivity. Qed.

Lemma attempts_request_logs self method endpoint data :
  attempts (request_logs self method endpoint data) = 0%nat.
Proof.
  unfold request_logs. destruct data as [d|]; [destruct (truthy d)|]; reflexivity.
Qed.

Lemma attempts_response_logs r : attempts (response_logs r) = 0%nat.
Proof. unfold response_logs. destruct (text r =? "")%string; reflexivity. Qed.

Lemma io_cons (e : event) (t : list event) :
  io (e :: t) = if is_io e then e :: io t else io t.
Proof. reflexivity. Qed.

Lemma io_nil : io [] = [].
Proof. reflexivity. Qed.

Lemma attempts_cons (e : event) (t : list event) :
  attempts (e :: t) =
  match e with Sent _ => S (attempts t) | _ => attempts t end.
Proof. destruct e; reflexivity. Qed.

Lemma attempts_nil : attempts [] = 0%nat.
Proof. reflexivity. Qed.

Create Rewrite HintDb io_trace.
Create Rewrite HintDb sent_trace.
#[local] Hint Rewrite io_app io_cons io_nil io_request_logs io_response_logs
  app_nil_r : io_trace.
#[local] Hint Rewrite attempts_app attempts_cons attempts_nil
  attempts_request_logs attempts_response_logs Nat.add_0_r : sent_trace.

(** Reads the requests and sleeps, or counts the attempts, of an explicit
    trace. *)
Ltac read_io := autorewrite with io_trace; cbn [is_io app]; try reflexivity.
Ltac count_attempts := autorewrite with sent_trace; cbn [Nat.add]; try reflexivity.

Section OnePass.
Context {W : Type} `{Network W} `{Runtime}.
Variables (self : Client) (method endpoint : string) (data : option json).

Let req := request_of self method endpoint data.
Let pre := request_logs self method endpoint data.

(** A pass sends the request; a transport failure is the pass's
    exception, a response is handed to [handle_response]. *)
Lemma attempt_eq (w : W) :
  attempt self method endpoint data w =
  match transmit req w with
  | (Responded r, w1) =>
      match handle_response self method r w1 with
      | (res, w2, t) => (res, w2, pre ++ Sent req :: t)
      end
  | (Failed kind, w1) => (Raise (RequestException kind), w1, pre ++ [Sent req])
  end%list.
Proof.
  subst req pre. unfold attempt, request_logs, requests_request.
  destruct data as [d|]; [destruct (truthy d)|];
    cbv [bind log emit when ret];
    (destruct (transmit _ w) as [[r|kind] w1]; [|reflexivity]);
    destruct (handle_response self method r w1) as [[res w2] t];
    destruct res; reflexivity.
Qed.

Lemma handle_rate_limited (r : response) (w : W) (n : Z) :
  status_code r = 429 ->
  retry_after self r = Ok n ->
  0 <= n <= sleep_max ->
  handle_response self method r w =
  (Ok Continue, elapse n w,
   response_logs r ++ [Logged WARNING (MsgRateLimited n); Slept n])%list.
Proof.
  intros Hs Hn Hr. unfold handle_response, response_logs, time_sleep.
  rewrite Hs, Hn. cbv [bind log emit when ret lift].
  assert (((n <? - sleep_max) || (sleep_max <? n)) = false) as ->.
  { unfold sleep_max in *. apply orb_false_iff. split; apply Z.ltb_ge; lia. }
  assert ((n <? 0) = false) as -> by (apply Z.ltb_ge; lia).
  destruct (text r =? "")%string; reflexivity.
Qed.

Lemma handle_rate_limited_raises (r : response) (w : W) (e : exn) :
  status_code r = 429 ->
  retry_after self r = Raise e ->
  handle_response self method r w = (Raise e, w, response_logs r).
Proof.
  intros Hs Hn. unfold handle_response, response_logs.
  rewrite Hs, Hn. cbv [bind log emit when ret lift].
  destruct (text r =? "")%string; reflexivity.
Qed.

Lemma handle_module_exists (r : response) (w : W) (error_data id : json) :
  status_code r = 400 ->
  contains module_exists_marker (text r) = true ->
  json_loads (text r) = Some error_data ->
  py_getitem error_data "id" = Ok id ->
  handle_response self method r w =
  (Ok (Return (JObj [("id"%string, id)])), w,
   response_logs r ++ [Logged INFO MsgModuleExists])%list.
Proof.
  intros Hs Hc Hj Hi. unfold handle_response, response_logs.
  rewrite Hs, Hc, Hj. cbv [bind log emit when ret lift]. rewrite Hi.
  destruct (text r =? "")%string; reflexivity.
Qed.

Lemma handle_http_error (r : response) (w : W) :
  400 <= status_code r < 600 ->
  status_code r <> 429 -> status_code r <> 400 -> status_code r <> 403 ->
  handle_response self method r w = (Raise (HTTPError r), w, response_logs r).
Proof.
  intros Hs H1 H2 H3. unfold handle_response, response_logs, raise_for_status.
  apply Z.eqb_neq in H1, H2, H3. rewrite H1, H2, H3.
  assert (((400 <=? status_code r) && (status_code r <? 600)) = true) as ->.
  { apply andb_true_iff. split; [apply Z.leb_le | apply Z.ltb_lt]; lia. }
  cbv [bind log emit when ret lift raise].
  destruct (text r =? "")%string; reflexivity.
Qed.

Lemma handle_success (r : response) (w : W) (v : json) :
  succeeds method r v ->
  exists t, handle_response self method r w = (Ok (Return v), w, t) /\ io t = [].
Proof.
  intros [Hs Hv]. unfold handle_response, raise_for_status, response_json.
  assert ((status_code r =? 429) = false) as -> by (apply Z.eqb_neq; lia).
  assert ((status_code r =? 400) = false) as -> by (apply Z.eqb_neq; lia).
  assert ((status_code r =? 403) = false) as -> by (apply Z.eqb_neq; lia).
  assert (((400 <=? status_code r) && (status_code r <? 600)) = false) as ->.
  { apply andb_false_iff. left. apply Z.leb_gt. lia. }
  destruct ((method =? "DELETE")%string || (text r =? "")%string) eqn:E.
  - subst v. cbv [bind log emit when ret lift raise].
    destruct (text r =? "")%string; eexists; split; reflexivity.
  - rewrite Hv. apply orb_false_iff in E as [_ E]. rewrite E.
    cbv [bind log emit when ret lift raise]. eexists; split; reflexivity.
Qed.

End OnePass.

#[global] Opaque request_logs response_logs.

(** ** Lemmas on the request loop: how a pass determines the next step *)

Section Loop.
Context {W : Type} `{Network W} `{Runtime}.
Variables (self : Client) (method endpoint : string) (data : option json).

Let loop := request_loop self method endpoint data.
Let pass := attempt self method endpoint data.

Lemma loop_return (left retries : nat) (w w1 : W) (v : json) (t : list event) :
  pass w = (Ok (Return v), w1, t) ->
  loop (S left) retries w = (Ok v, w1, t).
Proof.
  subst loop pass. intros E. cbn [request_loop].
  unfold bind, try_except. rewrite E. cbv [ret]. now rewrite app_nil_r.
Qed.

Lemma loop_continue (left retries : nat) (w w1 : W) (t1 : list event) :
  pass w = (Ok Continue, w1, t1) ->
  loop (S left) retries w =
  match loop left (S retries) w1 with
  | (res, w2, t2) => (res, w2, t1 ++ t2)
  end%list.
Proof.
  subst loop pass. intros E. cbn [request_loop].
  unfold bind at 1. unfold try_except. rewrite E. reflexivity.
Qed.

Lemma loop_raise (left retries : nat) (w w1 : W) (e : exn) (t : list event) :
  pass w = (Raise e, w1, t) ->
  is_RequestException e = false ->
  loop (S left) retries w = (Raise e, w1, t).
Proof.
  subst loop pass. intros E C. cbn [request_loop].
  unfold bind, try_except. rewrite E, C. reflexivity.
Qed.

Lemma loop_retry (left retries : nat) (w w1 : W) (e : exn) (t1 : list event) :
  pass w = (Raise e, w1, t1) ->
  is_RequestException e = true ->
  (retries < max_retries self - 1)%nat ->
  0 <= retry_delay self <= sleep_max ->
  loop (S left) retries w =
  match loop left (S retries) (elapse (retry_delay self) w1) with
  | (res, w2, t2) =>
      (res, w2,
       t1 ++ [Logged WARNING (MsgRetrying (retry_delay self));
              Slept (retry_delay self)] ++ t2)
  end%list.
Proof.
  subst loop pass. intros E C R D. cbn [request_loop].
  unfold bind at 1. unfold try_except, on_request_exception, time_sleep.
  rewrite E, C. apply Nat.ltb_lt in R. rewrite R.
  assert (((retry_delay self <? - sleep_max) || (sleep_max <? retry_delay self)) = false) as E1.
  { unfold sleep_max in *. apply orb_false_iff. split; apply Z.ltb_ge; lia. }
  assert ((retry_delay self <? 0) = false) as E2 by (apply Z.ltb_ge; lia).
  cbv [bind log emit ret]. rewrite E1, E2.
  destruct (request_loop _ _ _ _ left (S retries) _) as [[res w2] t2].
  cbn. now rewrite <- app_assoc.
Qed.

Lemma loop_exhausted (left retries : nat) (w w1 : W) (e : exn) (t1 : list event) :
  pass w = (Raise e, w1, t1) ->
  is_RequestException e = true ->
  ~ (retries < max_retries self - 1)%nat ->
  loop (S left) retries w =
  (Raise (RetriesFailed (max_retries self) e), w1,
   t1 ++ [Logged ERROR (MsgRequestFailed (max_retries self) e)])%list.
Proof.
  subst loop pass. intros E C R. cbn [request_loop].
  unfold bind at 1. unfold try_except, on_request_exception.
  rewrite E, C. apply Nat.ltb_nlt in R. rewrite R.
  cbv [bind log emit ret raise]. reflexivity.
Qed.

End Loop.

Section Passes.
Context {W : Type} `{Network W} `{Runtime}.
Variables (self : Client) (method endpoint : string) (data : option json).

Let req := request_of self method endpoint data.
Let pre := request_logs self method endpoint data.

Lemma attempt_failed (w w1 : W) (kind : string) :
  transmit req w = (Failed kind, w1) ->
  attempt self method endpoint data w =
  (Raise (RequestException kind), w1, pre ++ [Sent req])%list.
Proof. intros E. subst req pre. now rewrite attempt_eq, E. Qed.

Lemma attempt_responded (w w1 w2 : W) (r : response) (res : result flow)
    (t : list event) :
  transmit req w = (Responded r, w1) ->
  handle_response self method r w1 = (res, w2, t) ->
  attempt self method endpoint data w = (res, w2, pre ++ Sent req :: t)%list.
Proof. intros E E'. subst req pre. now rewrite attempt_eq, E, E'. Qed.

End Passes.

(** ** Retry on transport failures *)

(** C1.  With [max_retries = 3] and the fixed delay of 5 seconds: when the
    first two transport attempts raise a network-level failure and the
    third receives a successful response, [_make_request] returns that
    response's result; when all three attempts raise a network-level
    failure, it raises the retry-exhaustion error, which wraps the last
    failure.  Either way exactly three attempts are made, with a sleep of
    the fixed delay between consecutive attempts. *)
Theorem make_request_retries_transport_failures :
  forall (W : Type) (N : Network W) (R : Runtime) (self : Client)
         (method endpoint : string) (data : option json),
    max_retries self = 3%nat ->
    retry_delay self = 5 ->
    let req := request_of self method endpoint data in
    (forall (w0 w1 w2 w3 : W) (k1 k2 : string) (r : response) (v : json),
        transmit req w0 = (Failed k1, w1) ->
        transmit req (elapse 5 w1) = (Failed k2, w2) ->
        transmit req (elapse 5 w2) = (Responded r, w3) ->
        succeeds method r v ->
        exists t,
          _make_request self method endpoint data w0 = (Ok v, w3, t) /\
          io t = [Sent req; Slept 5; Sent req; Slept 5; Sent req]) /\
    (forall (w0 w1 w2 w3 : W) (k1 k2 k3 : string),
        transmit req w0 = (Failed k1, w1) ->
        transmit req (elapse 5 w1) = (Failed k2, w2) ->
        transmit req (elapse 5 w2) = (Failed k3, w3) ->
        exists t,
          _make_request self method endpoint data w0 =
            (Raise (RetriesFailed 3 (RequestException k3)), w3, t) /\
          attempts t = max_retries self /\
          io t = [Sent req; Slept 5; Sent req; Slept 5; Sent req]).
Proof.
  intros W N R self method endpoint data Hmax Hdelay req.
  assert (Hd : 0 <= retry_delay self <= sleep_max)
    by (rewrite Hdelay; unfold sleep_max; lia).
  split.
  - intros w0 w1 w2 w3 k1 k2 r v T1 T2 T3 Hok.
    destruct (handle_success self method r w3 v Hok) as (t3 & E3 & I3).
    unfold _make_request. rewrite Hmax.
    rewrite (loop_retry _ _ _ _ _ _ _ _ _ _ (attempt_failed _ _ _ _ _ _ _ T1))
      by (rewrite ?Hmax; auto; lia).
    rewrite Hdelay.
    rewrite (loop_retry _ _ _ _ _ _ _ _ _ _ (attempt_failed _ _ _ _ _ _ _ T2))
      by (rewrite ?Hmax; auto; lia).
    rewrite Hdelay.
    rewrite (loop_return _ _ _ _ _ _ _ _ _ _ (attempt_responded _ _ _ _ _ _ _ _ _ _ T3 E3)).
    eexists. split; [reflexivity|].
    read_io. now rewrite I3.
  - intros w0 w1 w2 w3 k1 k2 k3 T1 T2 T3.
    unfold _make_request. rewrite Hmax.
    rewrite (loop_retry _ _ _ _ _ _ _ _ _ _ (attempt_failed _ _ _ _ _ _ _ T1))
      by (rewrite ?Hmax; auto; lia).
    rewrite Hdelay.
    rewrite (loop_retry _ _ _ _ _ _ _ _ _ _ (attempt_failed _ _ _ _ _ _ _ T2))
      by (rewrite ?Hmax; auto; lia).
    rewrite Hdelay.
    rewrite (loop_exhausted _ _ _ _ _ _ _ _ _ _ (attempt_failed _ _ _ _ _ _ _ T3))
      by (rewrite ?Hmax; auto; lia).
    rewrite Hmax.
    eexists. split; [reflexivity|]. split.
    + count_attempts.
    + read_io.
Qed.

(** The scenario of the claim on a scripted transport: two failures and a
    success, and three failures. *)
Lemma make_request_retries_transport_failures_witness :
  let rt := table_runtime [(id_body "i-1", JObj [("id"%string, JStr "i-1")])] in
  let ok := mkResponse 200 [] (id_body "i-1") in
  let req := @request_of demo_client "GET" "/x" None in
  (exists t,
      @_make_request nat
        (scripted [Failed "ConnectionError"; Failed "Timeout"; Responded ok])
        rt demo_client "GET" "/x" None 0%nat
      = (Ok (JObj [("id"%string, JStr "i-1")]), 3%nat, t) /\
      io t = [Sent req; Slept 5; Sent req; Slept 5; Sent req]) /\
  (exists t,
      @_make_request nat
        (scripted [Failed "ConnectionError"; Failed "Timeout"; Failed "Timeout"])
        rt demo_client "GET" "/x" None 0%nat
      = (Raise (RetriesFailed 3 (RequestException "Timeout")), 3%nat, t) /\
      attempts t = 3%nat /\
      io t = [Sent req; Slept 5; Sent req; Slept 5; Sent req]).
Proof.
  intros rt ok req. split.
  - apply (proj1 (make_request_retries_transport_failures nat
                    (scripted [Failed "ConnectionError"; Failed "Timeout"; Responded ok])
                    rt demo_client "GET" "/x" None eq_refl eq_refl)
             0%nat 1%nat 2%nat 3%nat "ConnectionError" "Timeout" ok);
      try reflexivity.
    split; [cbn; lia | reflexivity].
  - apply (proj2 (make_request_retries_transport_failures nat
                    (scripted [Failed "ConnectionError"; Failed "Timeout"; Failed "Timeout"])
                    rt demo_client "GET" "/x" None eq_refl eq_refl)
             0%nat 1%nat 2%nat 3%nat "ConnectionError" "Timeout" "Timeout");
      reflexivity.
Defined.

(** ** The module-exists case and the rate-limit header *)



Example py_int_seconds : py_int "2" = Some 2.
Proof. reflexivity. Qed.

Example py_int_padded : py_int " +1_200 " = Some 1200.
Proof. reflexivity. Qed.

Example py_int_negative : py_int "-3" = Some (-3).
Proof. reflexivity. Qed.

Example py_int_http_date : py_int "Wed, 21 Oct 2015 07:28:00 GMT" = None.
Proof. reflexivity. Qed.

Example py_int_fraction : py_int "1.5" = None.
Proof. reflexivity. Qed.

Example py_int_empty : py_int "" = None.
Proof. reflexivity. Qed.



(** ** Error statuses other than 429, 400 and 403 *)

(** C2, as stated, fails.  A service that answers 500 to every attempt: the
    first response already has an error status other than 429, 400 and 403,
    yet the client does not raise the HTTP error after one attempt; it
    sends the request three times and raises the retry-exhaustion error. *)
Lemma http_error_status_is_retried :
  let r := mkResponse 500 [] "" in
  let net := scripted [Responded r; Responded r; Responded r] in
  let run := @_make_request nat net (table_runtime []) demo_client "GET" "/x" None 0%nat in
  @transmit nat net (@request_of demo_client "GET" "/x" None) 0%nat = (Responded r, 1%nat) /\
  http_error_status (status_code r) /\
  fst (fst run) = Raise (RetriesFailed 3 (HTTPError r)) /\
  attempts (snd run) = 3%nat /\
  ~ (exists t w, run = (Raise (HTTPError r), w, t) /\ attempts t = 1%nat).
Proof.
  intros r net run.
  assert (E : run =
              (Raise (RetriesFailed 3 (HTTPError r)), 3%nat, snd run))
    by (vm_compute; reflexivity).
  split; [reflexivity|]. split; [unfold http_error_status; cbn; lia|].
  split; [reflexivity|]. split; [reflexivity|].
  intros (t & w & E' & _). rewrite E' in E. discriminate E.
Qed.

(** C2, amended.  A response whose status is in 400..599 and is not 429,
    400 or 403 makes [raise_for_status] raise an [HTTPError] inside the
    [try] block; [HTTPError] is a [RequestException], so the retry clause
    handles it like a transport failure.  With [max_retries = 3] and the
    delay of 5 seconds: when a later attempt succeeds its result is
    returned, and when all three attempts receive such a status the caller
    gets the retry-exhaustion error, which wraps the [HTTPError] of the
    last response, after exactly three attempts. *)
Theorem http_error_status_retried_then_exhausted :
  forall (W : Type) (N : Network W) (R : Runtime) (self : Client)
         (method endpoint : string) (data : option json),
    max_retries self = 3%nat ->
    retry_delay self = 5 ->
    let req := request_of self method endpoint data in
    (forall r, http_error_status (status_code r) ->
               is_RequestException (HTTPError r) = true) /\
    (forall (w0 w1 w2 : W) (r1 r2 : response) (v : json),
        transmit req w0 = (Responded r1, w1) ->
        http_error_status (status_code r1) ->
        transmit req (elapse 5 w1) = (Responded r2, w2) ->
        succeeds method r2 v ->
        exists t,
          _make_request self method endpoint data w0 = (Ok v, w2, t) /\
          io t = [Sent req; Slept 5; Sent req]) /\
    (forall (w0 w1 w2 w3 : W) (r1 r2 r3 : response),
        transmit req w0 = (Responded r1, w1) ->
        http_error_status (status_code r1) ->
        transmit req (elapse 5 w1) = (Responded r2, w2) ->
        http_error_status (status_code r2) ->
        transmit req (elapse 5 w2) = (Responded r3, w3) ->
        http_error_status (status_code r3) ->
        exists t,
          _make_request self method endpoint data w0 =
            (Raise (RetriesFailed 3 (HTTPError r3)), w3, t) /\
          attempts t = max_retries self /\
          io t = [Sent req; Slept 5; Sent req; Slept 5; Sent req]).
Proof.
  intros W N R self method endpoint data Hmax Hdelay req.
  assert (Hd : 0 <= retry_delay self <= sleep_max)
    by (rewrite Hdelay; unfold sleep_max; lia).
  assert (pass_error : forall w w1 r,
             transmit req w = (Responded r, w1) ->
             http_error_status (status_code r) ->
             attempt self method endpoint data w =
             (Raise (HTTPError r), w1,
              request_logs self method endpoint data
                ++ Sent req :: response_logs r)%list).
  { intros w w1 r T (Hs & H1 & H2 & H3).
    apply (attempt_responded _ _ _ _ _ _ _ _ _ _ T).
    now apply handle_http_error. }
  split; [reflexivity|]. split.
  - intros w0 w1 w2 r1 r2 v T1 S1 T2 Hok.
    destruct (handle_success self method r2 w2 v Hok) as (t2 & E2 & I2).
    unfold _make_request. rewrite Hmax.
    rewrite (loop_retry _ _ _ _ _ _ _ _ _ _ (pass_error _ _ _ T1 S1))
      by (rewrite ?Hmax; auto; lia).
    rewrite Hdelay.
    rewrite (loop_return _ _ _ _ _ _ _ _ _ _ (attempt_responded _ _ _ _ _ _ _ _ _ _ T2 E2)).
    eexists. split; [reflexivity|]. read_io. now rewrite I2.
  - intros w0 w1 w2 w3 r1 r2 r3 T1 S1 T2 S2 T3 S3.
    unfold _make_request. rewrite Hmax.
    rewrite (loop_retry _ _ _ _ _ _ _ _ _ _ (pass_error _ _ _ T1 S1))
      by (rewrite ?Hmax; auto; lia).
    rewrite Hdelay.
    rewrite (loop_retry _ _ _ _ _ _ _ _ _ _ (pass_error _ _ _ T2 S2))
      by (rewrite ?Hmax; auto; lia).
    rewrite Hdelay.
    rewrite (loop_exhausted _ _ _ _ _ _ _ _ _ _ (pass_error _ _ _ T3 S3))
      by (rewrite ?Hmax; auto; lia).
    rewrite Hmax.
    eexists. split; [reflexivity|]. split; [count_attempts | read_io].
Qed.

(** A 503 followed by a success, and three times a 500. *)
Lemma http_error_status_retried_then_exhausted_witness :
  let rt := table_runtime [(id_body "i-1", JObj [("id"%string, JStr "i-1")])] in
  let ok := mkResponse 200 [] (id_body "i-1") in
  let busy := mkResponse 503 [] "" in
  let down := mkResponse 500 [] "" in
  let req := @request_of demo_client "GET" "/x" None in
  (exists t,
      @_make_request nat (scripted [Responded busy; Responded ok]) rt demo_client
        "GET" "/x" None 0%nat
      = (Ok (JObj [("id"%string, JStr "i-1")]), 2%nat, t) /\
      io t = [Sent req; Slept 5; Sent req]) /\
  (exists t,
      @_make_request nat (scripted [Responded down; Responded down; Responded down])
        rt demo_client "GET" "/x" None 0%nat
      = (Raise (RetriesFailed 3 (HTTPError down)), 3%nat, t) /\
      attempts t = 3%nat /\
      io t = [Sent req; Slept 5; Sent req; Slept 5; Sent req]).
Proof.
  intros rt ok busy down req.
  assert (Hs : forall s, 400 <= s < 600 -> s <> 429 -> s <> 400 -> s <> 403 ->
                         http_error_status s) by (unfold http_error_status; auto).
  split.
  - apply (proj1 (proj2 (http_error_status_retried_then_exhausted nat
                    (scripted [Responded busy; Responded ok])
                    rt demo_client "GET" "/x" None eq_refl eq_refl))
             0%nat 1%nat 2%nat busy ok);
      try reflexivity.
    + apply Hs; cbn; lia.
    + split; [cbn; lia | reflexivity].
  - apply (proj2 (proj2 (http_error_status_retried_then_exhausted nat
                    (scripted [Responded down; Responded down; Responded down])
                    rt demo_client "GET" "/x" None eq_refl eq_refl))
             0%nat 1%nat 2%nat 3%nat down down down);
      try reflexivity; apply Hs; cbn; lia.
Defined.

(** ** Rate limiting *)

Section Budget.
Context {W : Type} `{Network W} `{Runtime}.
Variables (self : Client) (method endpoint : string) (data : option json).

Let loop := request_loop self method endpoint data.
Let pass := attempt self method endpoint data.
Let req := request_of self method endpoint data.

(** What is done with a response involves no further request. *)
Lemma handle_response_sends_nothing (r : response) (w w' : W)
    (o : result flow) (t : list event) :
  handle_response self method r w = (o, w', t) -> attempts t = 0%nat.
Proof.
  unfold handle_response, raise_for_status, response_json, time_sleep.
  cbv [bind log emit when ret lift raise].
  repeat match goal with
         | |- context [if ?c then _ else _] => destruct c
         | |- context [match ?x with Ok _ => _ | Raise _ => _ end] => destruct x
         | |- context [match ?x with Some _ => _ | None => _ end] => destruct x
         end;
    intros E; inversion E; reflexivity.
Qed.

(** Every pass sends the request exactly once. *)
Lemma pass_sends_once (w w' : W) (o : result flow) (t : list event) :
  pass w = (o, w', t) -> attempts t = 1%nat.
Proof.
  subst pass. rewrite attempt_eq.
  destruct (transmit _ w) as [[r|kind] w1].
  - destruct (handle_response self method r w1) as [[res w2] th] eqn:E.
    intros [= <- <- <-].
    apply handle_response_sends_nothing in E.
    count_attempts. now rewrite E.
  - intros [= <- <- <-]. count_attempts.
Qed.

(** A loop that may still run makes at least one attempt. *)
Lemma loop_sends (left retries : nat) (w w' : W) (res : result json)
    (t : list event) :
  loop (S left) retries w = (res, w', t) -> (1 <= attempts t)%nat.
Proof.
  subst loop. cbn [request_loop]. unfold bind at 1. unfold try_except.
  destruct (attempt self method endpoint data w) as [[o w1] t1] eqn:E.
  apply pass_sends_once in E.
  destruct o as [[|v]|e].
  - destruct (request_loop _ _ _ _ left (S retries) w1) as [[r2 w2] t2].
    intros [= <- <- <-]. rewrite attempts_app. lia.
  - cbv [ret]. intros [= <- <- <-]. rewrite attempts_app. lia.
  - destruct (is_RequestException e).
    + destruct (on_request_exception self retries e w1) as [[o2 w2] t2].
      destruct o2 as [[|v]|e2].
      * destruct (request_loop _ _ _ _ left (S retries) w2) as [[r3 w3] t3].
        intros [= <- <- <-]. rewrite !attempts_app. lia.
      * cbv [ret]. intros [= <- <- <-]. rewrite !attempts_app. lia.
      * intros [= <- <- <-]. rewrite !attempts_app. lia.
    + intros [= <- <- <-]. lia.
Qed.

(** The outcome of the loop does not depend on the budget it starts
    with, as long as the budget covers the attempts it makes. *)
Lemma loop_budget (l2 : nat) :
  0 <= retry_delay self <= sleep_max ->
  forall (l1 r1 r2 : nat) (w w' : W) (res : result json) (t : list event),
    (l1 + r1 = max_retries self)%nat ->
    (l2 + r2 = max_retries self)%nat ->
    (l2 < l1)%nat ->
    loop l1 r1 w = (res, w', t) ->
    (attempts t <= l2)%nat ->
    loop l2 r2 w = (res, w', t).
Proof.
  intros Hd. induction l2 as [|l2 IH]; intros l1 r1 r2 w w' res t I1 I2 Hlt E Ha.
  - destruct l1 as [|l1]; [lia|]. apply loop_sends in E. lia.
  - destruct l1 as [|l1]; [lia|].
    destruct (pass w) as [[o w1] t1] eqn:P.
    pose proof (pass_sends_once _ _ _ _ P) as P1.
    destruct o as [[|v]|e].
    + unfold loop, pass in *. rewrite (loop_continue _ _ _ _ _ _ _ _ _ P) in E.
      rewrite (loop_continue _ _ _ _ _ _ _ _ _ P).
      destruct (request_loop _ _ _ _ l1 (S r1) w1) as [[res1 w1'] t1'] eqn:E1.
      injection E as <- <- <-. rewrite attempts_app in Ha.
      rewrite (IH l1 (S r1) (S r2) w1 w1' res1 t1'); auto; lia.
    + unfold loop, pass in *. rewrite (loop_return _ _ _ _ _ _ _ _ _ _ P) in E.
      now rewrite (loop_return _ _ _ _ _ _ _ _ _ _ P).
    + destruct (is_RequestException e) eqn:C.
      * unfold loop, pass in *.
        rewrite (loop_retry _ _ _ _ _ _ _ _ _ _ P C) in E by (auto; lia).
        destruct (request_loop _ _ _ _ l1 (S r1) _) as [[res1 w1'] t1'] eqn:E1.
        injection E as <- <- <-.
        destruct l1 as [|l1]; [lia|].
        pose proof (loop_sends _ _ _ _ _ _ E1) as S1.
        autorewrite with sent_trace in Ha.
        rewrite (loop_retry _ _ _ _ _ _ _ _ _ _ P C) by (auto; lia).
        rewrite (IH (S l1) (S r1) (S r2) _ w1' res1 t1'); auto; lia.
      * unfold loop, pass in *. rewrite (loop_raise _ _ _ _ _ _ _ _ _ _ P C) in E.
        now rewrite (loop_raise _ _ _ _ _ _ _ _ _ _ P C).
Qed.

(** The passes that receive the rate-limited responses: each sends the
    request and sleeps, and leaves one attempt less. *)
Lemma loop_rate_limited (ns : list Z) :
  forall (left retries : nat) (w wk : W),
    rate_limited self req ns w wk ->
    exists t0,
      io t0 = flat_map (fun n => [Sent req; Slept n]) ns /\
      attempts t0 = List.length ns /\
      loop (List.length ns + left) retries w =
      match loop left (List.length ns + retries) wk with
      | (res, w', t) => (res, w', t0 ++ t)
      end%list.
Proof.
  induction ns as [|n ns IH]; intros left retries w wk L.
  - inversion L; subst. exists []. repeat split.
    cbn. now destruct (loop left retries wk) as [[res w'] t].
  - inversion L as [|w0 w1 w' r n0 ns0 T Hs Hn Hr L']; subst.
    destruct (IH left (S retries) _ _ L') as (t0 & I0 & A0 & E0).
    exists ((request_logs self method endpoint data
               ++ Sent req
               :: response_logs r ++ [Logged WARNING (MsgRateLimited n); Slept n])
            ++ t0)%list.
    split; [|split].
    + read_io. cbn. now rewrite I0.
    + count_attempts. now rewrite A0.
    + cbn [List.length Nat.add]. unfold loop, req in *.
      rewrite (loop_continue _ _ _ _ _ _ _ _ _
                 (attempt_responded _ _ _ _ _ _ _ _ _ _ T
                    (handle_rate_limited self method r w1 n Hs Hn Hr))).
      rewrite E0, Nat.add_succ_r.
      match goal with
      | |- context [request_loop ?a ?b ?c ?d ?e ?f ?g] =>
          destruct (request_loop a b c d e f g) as [[res w''] t]
      end.
      now rewrite app_assoc.
Qed.

End Budget.




(** ** Construction of the client *)

Lemma unset_false (v : option string) :
  unset v = false <-> exists s, v = Some s /\ s <> "".
Proof.
  destruct v as [s|]; cbn.
  - rewrite String.eqb_neq. split.
    + intros Hs. now exists s.
    + now intros (s' & [= <-] & Hs).
  - split; [discriminate | now intros (s & E & _)].
Qed.

Lemma shape_valid_checks (environ : list (string * string)) :
  shape_valid environ <->
  unset (getenv environ "PLANE_API_KEY")
    || (String.length (api_key (client_of environ)) <? 32)%nat = false /\
  negb (negb (unset (getenv environ "PLANE_WORKSPACE_SLUG"))
        && negb (unset (getenv environ "PLANE_PROJECT_ID"))) = false.
Proof.
  unfold shape_valid. cbn [client_of api_key].
  rewrite orb_false_iff, negb_false_iff, andb_true_iff, !negb_true_iff.
  rewrite !unset_false, Nat.ltb_ge. split.
  - intros ((key & E & L) & Hw & Hp). rewrite E. cbn. repeat split; auto.
    exists key. split; [reflexivity|]. intros ->. cbn in L. lia.
  - intros (((key & E & Hk) & L) & Hw & Hp). rewrite E in *. cbn in L.
    repeat split; auto. now exists key.
Qed.

Section Construction.
Context {W : Type} `{Network W}.

(** The probe succeeds exactly when a response arrives whose status is not
    an error status; 401 is one of the error statuses. *)
Lemma validate_succeeds_iff (self : Client) (w : W) :
  (exists w' t, _validate_api_connection self w = (Ok tt, w', t)) <->
  (exists r w', transmit (probe_request self) w = (Responded r, w') /\
                ~ (400 <= status_code r < 600)).
Proof.
  unfold _validate_api_connection, try_except, requests_request, raise_for_status.
  cbv [bind log emit ret raise Exception].
  destruct (transmit (probe_request self) w) as [[r|kind] w1].
  - destruct (status_code r =? 401) eqn:E401.
    + apply Z.eqb_eq in E401. split.
      * intros (w' & t & E). discriminate E.
      * intros (r' & w' & [= <- <-] & Hs). lia.
    + destruct ((400 <=? status_code r) && (status_code r <? 600)) eqn:Es.
      * apply andb_true_iff in Es as [E1 E2].
        apply Z.leb_le in E1. apply Z.ltb_lt in E2. split.
        -- intros (w' & t & E). discriminate E.
        -- intros (r' & w' & [= <- <-] & Hs). lia.
      * split.
        -- intros _. exists r, w1. split; [reflexivity|].
           apply andb_false_iff in Es as [E1|E2];
             [apply Z.leb_gt in E1 | apply Z.ltb_ge in E2]; lia.
        -- intros _. eexists _, _. reflexivity.
  - split.
    + intros (w' & t & E). discriminate E.
    + intros (r' & w' & E & _). discriminate E.
Qed.

End Construction.




(** ** Creating a module twice *)

(** C3.  [create_module] returns the same identifier at both of two calls
    for the same name: the first call is answered by a successful response
    whose body carries the new module's identifier; the second is answered
    by a 400 response whose body contains the module-exists message and
    carries the existing identifier.  The second call returns that
    identifier instead of raising. *)
Theorem create_module_twice_same_identifier :
  forall (W : Type) (N : Network W) (R : Runtime) (self : Client) (name : string)
         (w0 w1 w2 : W) (r1 r2 : response) (created existing id : json),
    (0 < max_retries self)%nat ->
    let data := JObj [("name"%string, JStr name);
                      ("description"%string, JStr ("Module for " ++ name))] in
    let req := request_of self "POST" (project_path self ++ "/modules/") (Some data) in
    transmit req w0 = (Responded r1, w1) ->
    succeeds "POST" r1 created ->
    py_getitem created "id" = Ok id ->
    transmit req w1 = (Responded r2, w2) ->
    status_code r2 = 400 ->
    contains module_exists_marker (text r2) = true ->
    json_loads (text r2) = Some existing ->
    py_getitem existing "id" = Ok id ->
    exists t1 t2,
      create_module self (_make_request self) name w0 = (Ok id, w1, t1) /\
      create_module self (_make_request self) name w1 = (Ok id, w2, t2) /\
      io t1 = [Sent req] /\ io t2 = [Sent req].
Proof.
  intros W N R self name w0 w1 w2 r1 r2 created existing id Hmax data req
         T1 Hok Hid1 T2 Hs Hc Hj Hid2.
  destruct (handle_success self "POST" r1 w1 created Hok) as (th & Eh & Ih).
  unfold create_module, try_except, bind, _make_request. fold data.
  destruct (max_retries self) as [|left]; [lia|].
  rewrite (loop_return _ _ _ _ _ _ _ _ _ _
             (attempt_responded _ _ _ _ _ _ _ _ _ _ T1 Eh)).
  rewrite (loop_return _ _ _ _ _ _ _ _ _ _
             (attempt_responded _ _ _ _ _ _ _ _ _ _ T2
                (handle_module_exists self "POST" r2 w2 existing id Hs Hc Hj Hid2))).
  unfold lift. rewrite Hid1. cbn [py_getitem assoc String.eqb Ascii.eqb Bool.eqb].
  eexists _, _. split; [reflexivity|]. split; [reflexivity|].
  split; read_io. now rewrite Ih.
Qed.

(** The module "Backend" is created and then found to exist. *)
Lemma create_module_twice_same_identifier_witness :
  let rt := table_runtime [(id_body "m-7", JObj [("id"%string, JStr "m-7")]);
                           (exists_body "m-7", exists_json "m-7")] in
  let net := scripted [Responded (mkResponse 201 [] (id_body "m-7"));
                       Responded (mkResponse 400 [] (exists_body "m-7"))] in
  exists t1 t2,
    @create_module nat rt demo_client (@_make_request nat net rt demo_client)
      "Backend" 0%nat = (Ok (JStr "m-7"), 1%nat, t1) /\
    @create_module nat rt demo_client (@_make_request nat net rt demo_client)
      "Backend" 1%nat = (Ok (JStr "m-7"), 2%nat, t2) /\
    io t1 = [Sent (request_of demo_client "POST" "/workspaces/ws/projects/p1/modules/"
                     (Some (JObj [("name"%string, JStr "Backend");
                                  ("description"%string, JStr "Module for Backend")])))] /\
    io t2 = [Sent (request_of demo_client "POST" "/workspaces/ws/projects/p1/modules/"
                     (Some (JObj [("name"%string, JStr "Backend");
                                  ("description"%string, JStr "Module for Backend")])))].
Proof.
  intros rt net.
  apply (create_module_twice_same_identifier nat net rt demo_client "Backend"
           0%nat 1%nat 2%nat
           (mkResponse 201 [] (id_body "m-7"))
           (mkResponse 400 [] (exists_body "m-7"))
           (JObj [("id"%string, JStr "m-7")]) (exists_json "m-7") (JStr "m-7"));
    try reflexivity.
  - cbn. lia.
  - split; [cbn; lia | reflexivity].
Defined.

(** ** Operations against a recording stand-in for [_make_request] *)



(** ** Cleaning up a project *)

Section CleanupLemmas.
Context `{Runtime}.
Variable self : Client.

(** A record without a usable identifier is skipped with one warning; the
    stand-in for [_make_request] is not called. *)
Lemma cleanup_issue_skipped {St : Type}
    (request : string -> string -> option json -> M St json)
    (record : json) (s : St) :
  usable_id record = None ->
  exists warning,
    cleanup_issue self request record s =
    (Ok tt, s, [Logged DEBUG (MsgProcessingModuleIssue record);
                Logged WARNING warning]).
Proof.
  unfold usable_id, cleanup_issue. cbv [bind log emit ret lift].
  destruct (issue_data_of record) as [| b | z | str | items | fields];
    try (intros _; cbn; eexists; reflexivity).
  - intros _. cbn. destruct b; cbn; eexists; reflexivity.
  - intros _. cbn. destruct (z =? 0); cbn; eexists; reflexivity.
  - intros _. cbn. destruct (str =? "")%string; cbn; eexists; reflexivity.
  - intros _. cbn. destruct items; cbn; eexists; reflexivity.
  - destruct fields as [|f fields]; [intros _; cbn; eexists; reflexivity|].
    cbn [truthy is_dict negb orb py_get_none py_get].
    destruct (assoc "id" (f :: fields)) as [id|].
    + destruct (truthy id); [discriminate|]. intros _. cbn. eexists. reflexivity.
    + intros _. cbn. eexists. reflexivity.
Qed.

(** A record with a usable identifier leads to one call, the deletion of
    that issue; whatever the call answers, the loop body ends normally. *)
Lemma cleanup_issue_usable (respond : list call -> call -> result json)
    (record id : json) (calls : list call) :
  usable_id record = Some id ->
  exists t,
    cleanup_issue self (recorded respond) record calls =
    (Ok tt, calls ++ [delete_issue_call self id], t)%list.
Proof.
  unfold usable_id, cleanup_issue, delete_issue, delete_issue_call, recorded.
  cbv [bind log emit ret lift try_except Exception].
  destruct (issue_data_of record) as [| b | z | str | items | fields];
    try discriminate.
  destruct fields as [|f fields]; [discriminate|].
  cbn [truthy is_dict negb orb py_get_none py_get].
  destruct (assoc "id" (f :: fields)) as [id'|]; [|discriminate].
  destruct (truthy id') eqn:Et; [|discriminate].
  intros [= <-]. cbn [negb].
  destruct (respond calls _) as [v|e]; eexists; reflexivity.
Qed.

(** The loop over the association records of a module. *)
Lemma for_each_cleanup_issue (respond : list call -> call -> result json)
    (records : list json) :
  forall calls,
  exists t,
    for_each records (cleanup_issue self (recorded respond)) calls =
    (Ok tt, calls ++ delete_issue_calls self records, t)%list.
Proof.
  induction records as [|record records IH]; intros calls.
  - exists []. cbn. now rewrite app_nil_r.
  - cbn [for_each delete_issue_calls flat_map]. unfold bind.
    destruct (usable_id record) as [id|] eqn:U.
    + destruct (cleanup_issue_usable respond record id calls U) as (t1 & ->).
      destruct (IH (calls ++ [delete_issue_call self id])%list) as (t2 & ->).
      eexists. now rewrite <- app_assoc.
    + destruct (cleanup_issue_skipped (recorded respond) record calls U) as (wm & ->).
      destruct (IH calls) as (t2 & ->). eexists. reflexivity.
Qed.

(** The body of the loop over the modules, for a module whose issue
    listing succeeds. *)
Lemma cleanup_module_calls (respond : list call -> call -> result json)
    (m : module_state) (name resp : json) (calls : list call) :
  py_getitem (listed m) "id" = Ok (identifier m) ->
  py_getitem (listed m) "name" = Ok name ->
  respond calls (list_issues_call self (identifier m)) = Ok resp ->
  lists resp (associations m) ->
  exists t,
    cleanup_module self (recorded respond) (listed m) calls =
    (Ok tt, calls ++ module_calls self m, t)%list.
Proof.
  intros Hid Hname Hresp Hl.
  unfold cleanup_module, get_module_issues, delete_module, module_calls.
  unfold bind at 1. unfold lift at 1. rewrite Hid.
  unfold bind at 1. unfold lift at 1. rewrite Hname.
  unfold bind at 1. unfold log at 1, emit at 1.
  unfold try_except.
  unfold bind at 1. unfold bind at 1.
  unfold recorded at 1. unfold list_issues_call in Hresp. rewrite Hresp.
  unfold bind at 1. unfold log at 1, emit at 1.
  unfold lift at 1. unfold lists in Hl. rewrite Hl.
  unfold bind at 1. unfold lift at 1. cbn [py_len].
  unfold bind at 1. unfold log at 1, emit at 1.
  unfold bind at 1. unfold lift at 1. cbn [py_iter].
  unfold bind at 1.
  destruct (for_each_cleanup_issue respond (associations m)
              (calls ++ [list_issues_call self (identifier m)])%list) as (t1 & E1).
  unfold list_issues_call in E1. unfold call in *. rewrite E1.
  cbv [bind log emit ret recorded Exception].
  unfold delete_module_call, list_issues_call.
  rewrite <- !app_assoc.
  match goal with
  | |- context [match respond ?h ?c with Ok _ => _ | Raise _ => _ end] =>
      destruct (respond h c) as [v|e]
  end; eexists; reflexivity.
Qed.

End CleanupLemmas.

Lemma prefix_empty (s : string) : prefix "" s = true.
Proof. now destruct s. Qed.

Lemma prefix_app (p a b : string) : prefix (p ++ a) (p ++ b) = prefix a b.
Proof.
  induction p as [|c p IH]; [reflexivity|].
  cbn. destruct (ascii_dec c c) as [_|ne]; [exact IH | now destruct ne].
Qed.

Section CleanupCounts.
Context `{Runtime}.
Variable self : Client.

Lemma delete_issue_call_kind (id : json) :
  is_delete_issue self (delete_issue_call self id) = true /\
  is_delete_module self (delete_issue_call self id) = false.
Proof.
  unfold is_delete_issue, is_delete_module, delete_issue_call.
  cbn [fst snd]. rewrite !prefix_app. cbn. now rewrite prefix_empty.
Qed.

Lemma delete_module_call_kind (id : json) :
  is_delete_issue self (delete_module_call self id) = false /\
  is_delete_module self (delete_module_call self id) = true.
Proof.
  unfold is_delete_issue, is_delete_module, delete_module_call.
  cbn [fst snd]. rewrite !prefix_app. cbn. now rewrite prefix_empty.
Qed.

Lemma delete_issue_calls_count (records : list json) :
  (forall record, In record records -> usable_id record <> None) ->
  List.length (filter (is_delete_issue self) (delete_issue_calls self records))
    = List.length records /\
  filter (is_delete_module self) (delete_issue_calls self records) = [].
Proof.
  induction records as [|record records IH]; intros U; [split; reflexivity|].
  cbn [delete_issue_calls flat_map].
  destruct (usable_id record) as [id|] eqn:E.
  - destruct IH as [IH1 IH2]; [intros r Hr; apply U; now right|].
    destruct (delete_issue_call_kind id) as [K1 K2].
    cbn [app filter]. rewrite K1, K2. cbn [List.length].
    split; [f_equal; exact IH1 | exact IH2].
  - exfalso. apply (U record); [now left | exact E].
Qed.

Lemma module_calls_count (m : module_state) :
  (forall record, In record (associations m) -> usable_id record <> None) ->
  List.length (filter (is_delete_issue self) (module_calls self m))
    = List.length (associations m) /\
  List.length (filter (is_delete_module self) (module_calls self m)) = 1%nat.
Proof.
  intros U. destruct (delete_issue_calls_count (associations m) U) as [C1 C2].
  destruct (delete_module_call_kind (identifier m)) as [K1 K2].
  unfold module_calls. cbn [filter].
  assert (is_delete_issue self (list_issues_call self (identifier m)) = false) as ->
    by reflexivity.
  assert (is_delete_module self (list_issues_call self (identifier m)) = false) as ->
    by reflexivity.
  rewrite !filter_app, C2. cbn [filter]. rewrite K1, K2, app_nil_r.
  split; [exact C1 | reflexivity].
Qed.

Lemma project_calls_count (modules : list module_state) :
  (forall m record, In m modules -> In record (associations m) ->
                    usable_id record <> None) ->
  List.length (filter (is_delete_issue self) (flat_map (module_calls self) modules))
    = list_sum (map (fun m => List.length (associations m)) modules) /\
  List.length (filter (is_delete_module self) (flat_map (module_calls self) modules))
    = List.length modules.
Proof.
  induction modules as [|m modules IH]; intros U; [split; reflexivity|].
  destruct IH as [IH1 IH2]; [intros m' r Hm; apply U; now right|].
  destruct (module_calls_count m) as [C1 C2]; [intros r; apply U; now left|].
  cbn [flat_map map list_sum List.length].
  rewrite !filter_app, !length_app, C1, C2, IH1, IH2. split; reflexivity.
Qed.

End CleanupCounts.

Section CleanupProject.
Context `{Runtime}.
Variable self : Client.
Variable respond : list call -> call -> result json.

(** The loop over the modules. *)
Lemma for_each_cleanup_module (modules : list module_state) :
  listings_succeed self respond modules ->
  forall calls,
  exists t,
    for_each (map listed modules) (cleanup_module self (recorded respond)) calls =
    (Ok tt, calls ++ flat_map (module_calls self) modules, t)%list.
Proof.
  induction modules as [|m modules IH]; intros L calls.
  - exists []. cbn. now rewrite app_nil_r.
  - destruct (L m (or_introl eq_refl)) as (Hid & (name & Hname) & Hresp).
    destruct (Hresp calls) as (resp & Hr & Hl).
    destruct (cleanup_module_calls self respond m name resp calls Hid Hname Hr Hl)
      as (t1 & E1).
    destruct (IH (fun m' Hm => L m' (or_intror Hm))
                (calls ++ module_calls self m)%list) as (t2 & E2).
    cbn [map for_each flat_map]. unfold bind. rewrite E1, E2.
    eexists. now rewrite <- app_assoc.
Qed.

End CleanupProject.

(** C7.  On a project with N modules and, across them, M association
    records, each with a usable identifier, and with every listing call
    succeeding, [cleanup_project] makes these calls and no others: the
    listing of the modules and then, module by module, the listing of the
    module's issues, one delete-issue call per record, and the delete call
    for the module.  These are M delete-issue calls and N delete-module
    calls.  Nothing is assumed on what the delete calls answer: each of
    them may raise, and the remaining calls are made all the same. *)
Theorem cleanup_project_calls :
  forall (R : Runtime) (self : Client) (respond : list call -> call -> result json)
         (modules : list module_state) (listing : json),
    respond [] (list_modules_call self) = Ok listing ->
    lists listing (map listed modules) ->
    listings_succeed self respond modules ->
    (forall m record, In m modules -> In record (associations m) ->
                      usable_id record <> None) ->
    exists calls t,
      cleanup_project self (recorded respond) [] = (Ok tt, calls, t) /\
      calls = list_modules_call self :: flat_map (module_calls self) modules /\
      List.length (filter (is_delete_issue self) calls)
        = list_sum (map (fun m => List.length (associations m)) modules) /\
      List.length (filter (is_delete_module self) calls) = List.length modules.
Proof.
  intros R self respond modules listing Hlist Hl L U.
  destruct (for_each_cleanup_module self respond modules L [list_modules_call self])
    as (t & E).
  destruct (project_calls_count self modules U) as [C1 C2].
  exists (list_modules_call self :: flat_map (module_calls self) modules).
  eexists. split; [|split; [reflexivity|]].
  - unfold cleanup_project, get_modules, try_except.
    unfold bind at 1. unfold bind at 1.
    unfold recorded at 1. unfold list_modules_call in Hlist. rewrite Hlist.
    unfold lift at 1. unfold lists in Hl. rewrite Hl.
    unfold bind at 1. unfold lift at 1. cbn [py_len].
    unfold bind at 1. unfold log at 1, emit at 1.
    unfold bind at 1. unfold lift at 1. cbn [py_iter].
    unfold list_modules_call in E. cbn [app]. unfold call in *. rewrite E.
    reflexivity.
  - cbn [filter].
    assert (is_delete_issue self (list_modules_call self) = false) as -> by reflexivity.
    assert (is_delete_module self (list_modules_call self) = false) as -> by reflexivity.
    split; [exact C1 | exact C2].
Qed.

Lemma cleanup_project_calls_witness :
  exists calls t,
    @cleanup_project (list call) (table_runtime []) demo_client
      (recorded demo_respond) [] = (Ok tt, calls, t) /\
    calls =
      [("GET", "/workspaces/ws/projects/p1/modules/", None);
       ("GET", "/workspaces/ws/projects/p1/modules/m-1/module-issues/", None);
       ("DELETE", "/workspaces/ws/projects/p1/issues/i-1/", None);
       ("DELETE", "/workspaces/ws/projects/p1/issues/i-2/", None);
       ("DELETE", "/workspaces/ws/projects/p1/modules/m-1/", None);
       ("GET", "/workspaces/ws/projects/p1/modules/m-2/module-issues/", None);
       ("DELETE", "/workspaces/ws/projects/p1/issues/i-3/", None);
       ("DELETE", "/workspaces/ws/projects/p1/modules/m-2/", None)] /\
    List.length (filter (@is_delete_issue demo_client) calls) = 3%nat /\
    List.length (filter (@is_delete_module demo_client) calls) = 2%nat.
Proof.
  destruct (cleanup_project_calls (table_runtime []) demo_client demo_respond
              demo_modules (demo_listing (map listed demo_modules)))
    as (calls & t & E & Ec & C1 & C2).
  - reflexivity.
  - reflexivity.
  - intros m [<-|[<-|[]]]; (split; [reflexivity|]);
      (split; [eexists; reflexivity|]);
      intros calls; eexists; split; reflexivity.
  - intros m record [<-|[<-|[]]]; cbn [associations In].
    + intros [<-|[<-|[]]]; discriminate.
    + intros [<-|[]]; discriminate.
  - exists calls, t. split; [exact E|]. split; [rewrite Ec; reflexivity|].
    split; [exact C1 | exact C2].
Defined.

(** C8.  [cleanup_project] looks for the issue fields of an association
    record in exactly three places: under the key [issue] when the record
    has it, else under the key [issue_detail] when the record has that,
    else on the record itself; a record that is not a dictionary has no
    issue data.  A record without a usable identifier (its issue data is
    not a dictionary, or has no true [id]) is skipped with one warning:
    no call is made for it, and the loop goes on with the remaining
    records.  A record with a usable identifier leads to the deletion of
    that issue. *)
Theorem cleanup_record_shapes_and_skips :
  forall (R : Runtime) (self : Client),
    (forall fields v,
        assoc "issue" fields = Some v -> issue_data_of (JObj fields) = v) /\
    (forall fields v,
        assoc "issue" fields = None -> assoc "issue_detail" fields = Some v ->
        issue_data_of (JObj fields) = v) /\
    (forall fields,
        assoc "issue" fields = None -> assoc "issue_detail" fields = None ->
        issue_data_of (JObj fields) = JObj fields) /\
    (forall record,
        is_dict record = false ->
        issue_data_of record = JNull /\ usable_id record = None) /\
    (forall respond record rest calls,
        usable_id record = None ->
        exists warning,
          let skipped := [Logged DEBUG (MsgProcessingModuleIssue record);
                          Logged WARNING warning] in
          cleanup_issue self (recorded respond) record calls = (Ok tt, calls, skipped) /\
          for_each (record :: rest) (cleanup_issue self (recorded respond)) calls =
          match for_each rest (cleanup_issue self (recorded respond)) calls with
          | (res, calls', t) => (res, calls', skipped ++ t)
          end%list) /\
    (forall respond record id calls,
        usable_id record = Some id ->
        exists t,
          cleanup_issue self (recorded respond) record calls =
          (Ok tt, calls ++ [delete_issue_call self id], t)%list).
Proof.
  intros R self. repeat split.
  - intros fields v E. cbn. now rewrite E.
  - intros fields v E1 E2. cbn. now rewrite E1, E2.
  - intros fields E1 E2. cbn. now rewrite E1, E2.
  - destruct record; try reflexivity. discriminate.
  - destruct record; try reflexivity. discriminate.
  - intros respond record rest calls U.
    destruct (cleanup_issue_skipped self (recorded respond) record calls U)
      as (warning & E).
    exists warning. split; [exact E|].
    cbn [for_each]. unfold bind. rewrite E.
    now destruct (for_each rest _ calls) as [[res calls'] t].
  - intros respond record id calls U.
    exact (cleanup_issue_usable self respond record id calls U).
Qed.

(** A string in place of a record, and a record whose [issue] is null
    although the record itself has an [id]: both are skipped. *)
Lemma cleanup_record_shapes_and_skips_witness :
  let rt := table_runtime [] in
  let hidden := JObj [("id", JStr "i-9"); ("issue", JNull)] in
  (exists warning,
      @cleanup_issue (list call) rt demo_client (recorded demo_respond) (JStr "oops") []
      = (Ok tt, [], [Logged DEBUG (MsgProcessingModuleIssue (JStr "oops"));
                     Logged WARNING warning])) /\
  (exists warning,
      @cleanup_issue (list call) rt demo_client (recorded demo_respond) hidden []
      = (Ok tt, [], [Logged DEBUG (MsgProcessingModuleIssue hidden);
                     Logged WARNING warning])) /\
  (exists t,
      @cleanup_issue (list call) rt demo_client (recorded demo_respond)
        (JObj [("issue_detail", JObj [("id", JStr "i-3")])]) []
      = (Ok tt, [("DELETE", "/workspaces/ws/projects/p1/issues/i-3/", None)], t)).
Proof.
  intros rt hidden.
  destruct (cleanup_record_shapes_and_skips rt demo_client)
    as (_ & _ & _ & _ & Hskip & Huse).
  split; [|split].
  - destruct (Hskip demo_respond (JStr "oops") [] [] eq_refl) as (warning & E & _).
    now exists warning.
  - destruct (Hskip demo_respond hidden [] [] eq_refl) as (warning & E & _).
    now exists warning.
  - exact (Huse demo_respond (JObj [("issue_detail", JObj [("id", JStr "i-3")])])
             (JStr "i-3") [] eq_refl).
Defined.

(** ** Further properties of the request loop *)

Lemma attempts_io (t : list event) : attempts (io t) = attempts t.
Proof.
  induction t as [|ev t IH]; [reflexivity|].
  rewrite io_cons, !attempts_cons.
  destruct ev; cbn [is_io]; rewrite ?attempts_cons; now rewrite IH.
Qed.

Lemma attempts_paced (req : request) (ns : list Z) (last : bool) :
  attempts (flat_map (fun n => [Sent req; Slept n]) ns
            ++ (if last then [Sent req] else []))
  = (List.length ns + (if last then 1 else 0))%nat.
Proof.
  induction ns as [|n ns IH].
  - now destruct last.
  - cbn [flat_map app List.length]. rewrite !attempts_cons, IH. lia.
Qed.

Section LoopShape.
Context {W : Type} `{Network W} `{Runtime}.
Variables (self : Client) (method endpoint : string) (data : option json).

Let loop := request_loop self method endpoint data.
Let pass := attempt self method endpoint data.
Let req := request_of self method endpoint data.

(** What is done with a response ends in [continue] only after a sleep,
    and sleeps in no other case. *)
Lemma handle_response_io (r : response) (w w' : W) (o : result flow)
    (t : list event) :
  handle_response self method r w = (o, w', t) ->
  (o = Ok Continue /\ exists n, io t = [Slept n]) \/
  (o <> Ok Continue /\ io t = []).
Proof.
  unfold handle_response, raise_for_status, response_json, time_sleep.
  cbv [bind log emit when ret lift raise].
  repeat match goal with
         | |- context [if ?c then _ else _] => destruct c
         | |- context [match ?x with Ok _ => _ | Raise _ => _ end] => destruct x
         | |- context [match ?x with Some _ => _ | None => _ end] => destruct x
         end;
    intros [= <- <- <-];
    first [ right; split; [discriminate | reflexivity]
          | left; split; [reflexivity | eexists; reflexivity] ].
Qed.

Lemma pass_io (w w' : W) (o : result flow) (t : list event) :
  pass w = (o, w', t) ->
  (o = Ok Continue /\ exists n, io t = [Sent req; Slept n]) \/
  (o <> Ok Continue /\ io t = [Sent req]).
Proof.
  unfold pass, req. rewrite attempt_eq.
  destruct (transmit _ w) as [[r|kind] w1].
  - destruct (handle_response self method r w1) as [[res w2] th] eqn:E.
    intros [= <- <- <-].
    destruct (handle_response_io _ _ _ _ _ E) as [(-> & n & I)|(Hne & I)].
    + left. split; [reflexivity|]. exists n. read_io. now rewrite I.
    + right. split; [exact Hne|]. read_io. now rewrite I.
  - intros [= <- <- <-]. right. split; [discriminate | read_io].
Qed.

(** The retry clause sleeps and continues, or raises without sleeping. *)
Lemma on_request_exception_io (retries : nat) (e : exn) (w w' : W)
    (o : result flow) (t : list event) :
  on_request_exception self retries e w = (o, w', t) ->
  (o = Ok Continue /\ io t = [Slept (retry_delay self)]) \/
  ((exists e', o = Raise e' /\ is_RequestException e' = false) /\ io t = []).
Proof.
  unfold on_request_exception, time_sleep.
  cbv [bind log emit ret raise].
  repeat match goal with
         | |- context [if ?c then _ else _] => destruct c
         end;
    intros [= <- <- <-];
    first [ left; split; reflexivity
          | right; split; [eexists; split; reflexivity | reflexivity] ].
Qed.

(** The requests and sleeps of a run of the loop: passes that send the
    request and sleep, then at most one pass that sends it and does not
    sleep; no more passes than the loop has left. *)
Lemma loop_io (left : nat) :
  forall (retries : nat) (w : W),
  exists (ns : list Z) (last : bool),
    io (snd (loop left retries w))
    = (flat_map (fun n => [Sent req; Slept n]) ns
       ++ (if last then [Sent req] else []))%list /\
    (List.length ns + (if last then 1 else 0) <= left)%nat.
Proof.
  induction left as [|left IH]; intros retries w.
  - exists [], false. split; cbn; [reflexivity | lia].
  - unfold loop in *. cbn [request_loop]. unfold bind at 1. unfold try_except.
    destruct (attempt self method endpoint data w) as [[o w1] t1] eqn:P.
    destruct (pass_io _ _ _ _ P) as [(-> & n & I1)|(Hne & I1)].
    + destruct (IH (S retries) w1) as (ns & last & I & L).
      destruct (request_loop _ _ _ _ left (S retries) w1) as [[res w2] t2].
      cbn [snd] in *. exists (n :: ns), last.
      rewrite io_app, I1, I. cbn. split; [reflexivity | lia].
    + destruct o as [[|v]|e]; [congruence| |].
      * cbv [ret]. cbn [snd]. exists [], true.
        rewrite io_app, I1. cbn. split; [reflexivity | lia].
      * destruct (is_RequestException e).
        -- destruct (on_request_exception self retries e w1) as [[o2 w2] t2] eqn:Q.
           destruct (on_request_exception_io _ _ _ _ _ _ Q)
             as [(-> & I2)|((e' & -> & _) & I2)].
           ++ destruct (IH (S retries) w2) as (ns & last & I & L).
              destruct (request_loop _ _ _ _ left (S retries) w2) as [[res w3] t3].
              cbn [snd] in *. exists (retry_delay self :: ns), last.
              rewrite !io_app, I1, I2, I. cbn. split; [reflexivity | lia].
           ++ cbn [snd]. exists [], true.
              rewrite !io_app, I1, I2. cbn. split; [reflexivity | lia].
        -- cbn [snd]. exists [], true. rewrite I1. cbn. split; [reflexivity | lia].
Qed.

End LoopShape.

#[global] Transparent response_logs.

Section LoopErrors.
Context {W : Type} `{Network W} `{Runtime}.
Variables (self : Client) (method : string).

(** No exception of the classes of [requests] leaves the loop: the retry
    clause handles them all, and what it raises is not one of them. *)
Lemma loop_raises_no_request_exception (endpoint : string) (data : option json)
    (left : nat) :
  forall (retries : nat) (w w' : W) (e : exn) (t : list event),
    request_loop self method endpoint data left retries w = (Raise e, w', t) ->
    is_RequestException e = false.
Proof.
  induction left as [|left IH]; intros retries w w' e t.
  - cbn. cbv [bind log emit raise]. now intros [= <- <- <-].
  - cbn [request_loop]. unfold bind at 1. unfold try_except.
    destruct (attempt self method endpoint data w) as [[o w1] t1].
    destruct o as [[|v]|e1].
    + destruct (request_loop _ _ _ _ left (S retries) w1) as [[res w2] t2] eqn:E.
      intros [= -> <- <-]. exact (IH _ _ _ _ _ E).
    + cbv [ret]. discriminate.
    + destruct (is_RequestException e1) eqn:C.
      * destruct (on_request_exception self retries e1 w1) as [[o2 w2] t2] eqn:Q.
        destruct (on_request_exception_io _ _ _ _ _ _ _ Q)
          as [(-> & _)|((e' & -> & Hne) & _)].
        -- destruct (request_loop _ _ _ _ left (S retries) w2) as [[res w3] t3] eqn:E.
           intros [= -> <- <-]. exact (IH _ _ _ _ _ E).
        -- now intros [= <- <- <-].
      * now intros [= <- <- <-].
Qed.

(** A 400 response without the module-exists message, or a 403 response. *)
Lemma handle_client_error (r : response) (w : W) :
  (status_code r = 403 \/
   status_code r = 400 /\ contains module_exists_marker (text r) = false) ->
  handle_response self method r w =
  (Raise (ApiError (status_code r) (text r)), w,
   response_logs r ++ [Logged ERROR (MsgApiError (status_code r) (text r))])%list.
Proof.
  intros Hs. unfold handle_response, response_logs.
  assert (E429 : (status_code r =? 429) = false)
    by (apply Z.eqb_neq; destruct Hs as [->|[-> _]]; lia).
  assert (E4 : ((status_code r =? 400) || (status_code r =? 403)) = true)
    by (destruct Hs as [->|[-> _]]; reflexivity).
  assert (Em : ((status_code r =? 400)
                && contains module_exists_marker (text r)) = false).
  { destruct Hs as [->|[-> ->]]; reflexivity. }
  rewrite E429, E4, Em. cbv [bind log emit when ret raise].
  destruct (text r =? "")%string; reflexivity.
Qed.

(** A 400 response with the module-exists message whose body does not
    give an identifier. *)
Lemma handle_module_exists_undecodable (r : response) (w : W) :
  status_code r = 400 ->
  contains module_exists_marker (text r) = true ->
  json_loads (text r) = None ->
  handle_response self method r w = (Raise JSONDecodeError, w, response_logs r).
Proof.
  intros Hs Hc Hj. unfold handle_response, response_logs. rewrite Hs, Hc, Hj.
  cbv [bind log emit when ret raise].
  destruct (text r =? "")%string; reflexivity.
Qed.

Lemma handle_module_exists_without_id (r : response) (w : W)
    (error_data : json) (e : exn) :
  status_code r = 400 ->
  contains module_exists_marker (text r) = true ->
  json_loads (text r) = Some error_data ->
  py_getitem error_data "id" = Raise e ->
  handle_response self method r w =
  (Raise e, w, response_logs r ++ [Logged INFO MsgModuleExists])%list.
Proof.
  intros Hs Hc Hj Hi. unfold handle_response, response_logs. rewrite Hs, Hc, Hj.
  cbv [bind log emit when ret raise lift]. rewrite Hi.
  destruct (text r =? "")%string; reflexivity.
Qed.

(** A response outside the error statuses to a DELETE, or with an empty
    body: the body is not decoded. *)
Lemma handle_no_content (r : response) (w : W) :
  status_code r <> 429 ->
  ~ (400 <= status_code r < 600) ->
  method = "DELETE" \/ text r = "" ->
  handle_response self method r w = (Ok (Return (JObj [])), w, response_logs r).
Proof.
  intros H429 Herr Hd. unfold handle_response, raise_for_status, response_logs.
  apply Z.eqb_neq in H429. rewrite H429.
  assert (((status_code r =? 400) || (status_code r =? 403)) = false) as ->.
  { apply orb_false_iff. split; apply Z.eqb_neq; lia. }
  assert (((400 <=? status_code r) && (status_code r <? 600)) = false) as ->.
  { apply andb_false_iff.
    destruct (Z_lt_ge_dec (status_code r) 400);
      [left; apply Z.leb_gt | right; apply Z.ltb_ge]; lia. }
  assert (((method =? "DELETE")%string || (text r =? "")%string) = true) as ->.
  { apply orb_true_iff. destruct Hd as [->| ->]; [left|right]; reflexivity. }
  cbv [bind log emit when ret raise lift].
  destruct (text r =? "")%string; reflexivity.
Qed.

End LoopErrors.

#[global] Opaque response_logs.

(** Only the exceptions of [requests] have a [response] attribute. *)
Lemma plain_exception_has_no_response (e : exn) :
  is_RequestException e = false -> exn_response e = None.
Proof. destruct e; try reflexivity; discriminate. Qed.

(** X1.  Whatever the service and the network do, [_make_request] sends
    the same request at every attempt, makes at most [max_retries]
    attempts, and never sends the request twice without a sleep in
    between: its requests and sleeps are passes "send, sleep", followed by
    at most one pass that sends and does not sleep. *)
Theorem make_request_bounded_and_paced :
  forall (W : Type) (N : Network W) (R : Runtime) (self : Client)
         (method endpoint : string) (data : option json) (w : W),
    let req := request_of self method endpoint data in
    let t := snd (_make_request self method endpoint data w) in
    exists (ns : list Z) (last : bool),
      io t = (flat_map (fun n => [Sent req; Slept n]) ns
              ++ (if last then [Sent req] else []))%list /\
      attempts t = (List.length ns + (if last then 1 else 0))%nat /\
      (attempts t <= max_retries self)%nat.
Proof.
  intros W N R self method endpoint data w req t.
  destruct (loop_io self method endpoint data (max_retries self) 0 w)
    as (ns & last & I & L).
  exists ns, last. fold req in I. unfold _make_request in t. fold t in I.
  assert (A : attempts t = (List.length ns + (if last then 1 else 0))%nat).
  { rewrite <- attempts_io, I. apply attempts_paced. }
  split; [exact I|]. split; [exact A | lia].
Qed.

(** X2.  An exception that leaves [_make_request] is never one of the
    exceptions of [requests]: those are all handled by the retry clause,
    which raises a plain [Exception] when it gives up.  In particular the
    exception carries no [response] attribute. *)
Theorem make_request_wraps_request_exceptions :
  forall (W : Type) (N : Network W) (R : Runtime) (self : Client)
         (method endpoint : string) (data : option json) (w w' : W)
         (e : exn) (t : list event),
    _make_request self method endpoint data w = (Raise e, w', t) ->
    is_RequestException e = false /\ exn_response e = None.
Proof.
  intros W N R self method endpoint data w w' e t E.
  apply loop_raises_no_request_exception in E.
  split; [exact E | exact (plain_exception_has_no_response e E)].
Qed.

(** Three connection failures: the caller sees the plain exception. *)
Lemma make_request_wraps_request_exceptions_witness :
  let net := scripted [Failed "ConnectionError"; Failed "Timeout"; Failed "Timeout"] in
  is_RequestException (RetriesFailed 3 (RequestException "Timeout")) = false /\
  exn_response (RetriesFailed 3 (RequestException "Timeout")) = None.
Proof.
  intros net.
  apply (make_request_wraps_request_exceptions nat net (table_runtime []) demo_client
           "GET" "/x" None 0%nat 3%nat _
           (snd (@_make_request nat net (table_runtime []) demo_client "GET" "/x"
                   None 0%nat))).
  vm_compute. reflexivity.
Defined.

(** X3.  Over the transport-level [_make_request], the fallback of
    [create_module] (lines 155-160) never changes the outcome: when the
    request returns a response, the result is the response's [id] (or the
    [KeyError] or [TypeError] of reading it); when the request raises, the
    same exception is raised. *)
Theorem create_module_outcome :
  forall (W : Type) (N : Network W) (R : Runtime) (self : Client) (name : string)
         (w : W),
    let data := JObj [("name"%string, JStr name);
                      ("description"%string, JStr ("Module for " ++ name))] in
    create_module self (_make_request self) name w =
    match _make_request self "POST" (project_path self ++ "/modules/") (Some data) w with
    | (Ok response, w1, t) => (py_getitem response "id", w1, t)
    | (Raise e, w1, t) => (Raise e, w1, t)
    end.
Proof.
  intros W N R self name w data.
  unfold create_module, try_except, bind. fold data.
  destruct (_make_request self "POST" (project_path self ++ "/modules/")
              (Some data) w) as [[[response|e] w1] t] eqn:E.
  - unfold lift.
    destruct (py_getitem response "id") as [id|e] eqn:G.
    + now rewrite app_nil_r.
    + assert (exn_response e = None) as ->.
      { destruct response; cbn in G; try (injection G as <-; reflexivity).
        destruct (assoc "id" fields); [discriminate|]. now injection G as <-. }
      cbn. now rewrite !app_nil_r.
  - apply loop_raises_no_request_exception in E.
    rewrite (plain_exception_has_no_response e E).
    cbn. now rewrite app_nil_r.
Qed.



(** X5.  A 403 response, or a 400 response whose body does not contain the
    module-exists message, makes [_make_request] raise the API error that
    carries the status and the body text.  The request is sent once and
    the client does not sleep: these statuses are not retried. *)
Theorem client_error_not_retried :
  forall (W : Type) (N : Network W) (R : Runtime) (self : Client)
         (method endpoint : string) (data : option json)
         (w w1 : W) (r : response),
    (0 < max_retries self)%nat ->
    transmit (request_of self method endpoint data) w = (Responded r, w1) ->
    (status_code r = 403 \/
     status_code r = 400 /\ contains module_exists_marker (text r) = false) ->
    exists t,
      _make_request self method endpoint data w
      = (Raise (ApiError (status_code r) (text r)), w1, t) /\
      io t = [Sent (request_of self method endpoint data)] /\
      In (Logged ERROR (MsgApiError (status_code r) (text r))) t.
Proof.
  intros W N R self method endpoint data w w1 r Hmax T Hs.
  unfold _make_request. destruct (max_retries self) as [|left]; [lia|].
  rewrite (loop_raise _ _ _ _ _ _ _ _ _ _
             (attempt_responded _ _ _ _ _ _ _ _ _ _ T
                (handle_client_error self method r w1 Hs)) eq_refl).
  eexists. split; [reflexivity|]. split; [read_io|].
  apply in_or_app. right. right. apply in_or_app. right. now left.
Qed.

(** A 403 with a message, and a 400 for a missing field. *)
Lemma client_error_not_retried_witness :
  let forbidden := mkResponse 403 [] "forbidden" in
  let invalid := mkResponse 400 [] "name: this field is required" in
  (exists t,
      @_make_request nat (scripted [Responded forbidden]) (table_runtime [])
        demo_client "GET" "/x" None 0%nat
      = (Raise (ApiError 403 "forbidden"), 1%nat, t) /\
      io t = [Sent (request_of demo_client "GET" "/x" None)] /\
      In (Logged ERROR (MsgApiError 403 "forbidden")) t) /\
  (exists t,
      @_make_request nat (scripted [Responded invalid]) (table_runtime [])
        demo_client "POST" "/x" None 0%nat
      = (Raise (ApiError 400 "name: this field is required"), 1%nat, t) /\
      io t = [Sent (request_of demo_client "POST" "/x" None)] /\
      In (Logged ERROR (MsgApiError 400 "name: this field is required")) t).
Proof.
  intros forbidden invalid. split.
  - apply (client_error_not_retried nat (scripted [Responded forbidden])
             (table_runtime []) demo_client "GET" "/x" None 0%nat 1%nat forbidden);
      [cbn; lia | reflexivity | left; reflexivity].
  - apply (client_error_not_retried nat (scripted [Responded invalid])
             (table_runtime []) demo_client "POST" "/x" None 0%nat 1%nat invalid);
      [cbn; lia | reflexivity | right; split; reflexivity].
Defined.

(** X6.  A 400 response with the module-exists message is not turned into
    an API error even when its body gives no identifier: a body that is
    not JSON raises the decode error of [json.loads], and a body that
    decodes to something without an [id] raises the [KeyError] (or
    [TypeError]) of reading it.  Either way one request has been sent. *)
Theorem module_exists_without_identifier :
  forall (W : Type) (N : Network W) (R : Runtime) (self : Client)
         (method endpoint : string) (data : option json)
         (w w1 : W) (r : response),
    (0 < max_retries self)%nat ->
    transmit (request_of self method endpoint data) w = (Responded r, w1) ->
    status_code r = 400 ->
    contains module_exists_marker (text r) = true ->
    let raised :=
      match json_loads (text r) with
      | None => Some JSONDecodeError
      | Some error_data =>
          match py_getitem error_data "id" with
          | Raise e => Some e
          | Ok _ => None
          end
      end in
    forall e, raised = Some e ->
    exists t,
      _make_request self method endpoint data w = (Raise e, w1, t) /\
      io t = [Sent (request_of self method endpoint data)].
Proof.
  intros W N R self method endpoint data w w1 r Hmax T Hs Hc raised e He.
  unfold _make_request. destruct (max_retries self) as [|left]; [lia|].
  subst raised.
  destruct (json_loads (text r)) as [error_data|] eqn:Hj.
  - destruct (py_getitem error_data "id") as [id|e'] eqn:Hi; [discriminate|].
    injection He as ->.
    assert (C : is_RequestException e = false).
    { destruct error_data; cbn in Hi; try (injection Hi as <-; reflexivity).
      destruct (assoc "id" fields); [discriminate|]. now injection Hi as <-. }
    rewrite (loop_raise _ _ _ _ _ _ _ _ _ _
               (attempt_responded _ _ _ _ _ _ _ _ _ _ T
                  (handle_module_exists_without_id self method r w1 _ _ Hs Hc Hj Hi))
               C).
    eexists. split; [reflexivity | read_io].
  - injection He as <-.
    rewrite (loop_raise _ _ _ _ _ _ _ _ _ _
               (attempt_responded _ _ _ _ _ _ _ _ _ _ T
                  (handle_module_exists_undecodable self method r w1 Hs Hc Hj))
               eq_refl).
    eexists. split; [reflexivity | read_io].
Qed.

(** The message as plain text, and the message in an object without an
    identifier. *)
Lemma module_exists_without_identifier_witness :
  let plain := mkResponse 400 [] module_exists_marker in
  let body := "{" ++ dq ++ "error" ++ dq ++ ": " ++ dq ++ module_exists_marker
                  ++ dq ++ "}" in
  let rt := table_runtime [(body, JObj [("error", JStr module_exists_marker)])] in
  (exists t,
      @_make_request nat (scripted [Responded plain]) rt demo_client
        "POST" "/x" None 0%nat = (Raise JSONDecodeError, 1%nat, t) /\
      io t = [Sent (request_of demo_client "POST" "/x" None)]) /\
  (exists t,
      @_make_request nat (scripted [Responded (mkResponse 400 [] body)]) rt demo_client
        "POST" "/x" None 0%nat = (Raise (KeyError "id"), 1%nat, t) /\
      io t = [Sent (request_of demo_client "POST" "/x" None)]).
Proof.
  intros plain body rt. split.
  - apply (module_exists_without_identifier nat (scripted [Responded plain]) rt
             demo_client "POST" "/x" None 0%nat 1%nat plain);
      try reflexivity. cbn. lia.
  - apply (module_exists_without_identifier nat
             (scripted [Responded (mkResponse 400 [] body)]) rt
             demo_client "POST" "/x" None 0%nat 1%nat (mkResponse 400 [] body));
      try reflexivity. cbn. lia.
Defined.

(** X7.  For a response whose status is not an error status (any status
    outside 400..599), [_make_request] returns the empty object without
    decoding the body when the request is a DELETE or the body is empty:
    a DELETE succeeds whatever the body contains. *)
Theorem no_content_returns_empty_object :
  forall (W : Type) (N : Network W) (R : Runtime) (self : Client)
         (method endpoint : string) (data : option json)
         (w w1 : W) (r : response),
    (0 < max_retries self)%nat ->
    transmit (request_of self method endpoint data) w = (Responded r, w1) ->
    ~ (400 <= status_code r < 600) ->
    method = "DELETE" \/ text r = "" ->
    exists t,
      _make_request self method endpoint data w = (Ok (JObj []), w1, t) /\
      io t = [Sent (request_of self method endpoint data)].
Proof.
  intros W N R self method endpoint data w w1 r Hmax T Hs Hd.
  unfold _make_request. destruct (max_retries self) as [|left]; [lia|].
  assert (H429 : status_code r <> 429) by lia.
  rewrite (loop_return _ _ _ _ _ _ _ _ _ _
             (attempt_responded _ _ _ _ _ _ _ _ _ _ T
                (handle_no_content self method r w1 H429 Hs Hd))).
  eexists. split; [reflexivity | read_io].
Qed.

(** A DELETE answered with 200 and a page of HTML, and a GET answered
    with 304 and no body. *)
Lemma no_content_returns_empty_object_witness :
  let page := mkResponse 200 [] "<html>deleted</html>" in
  let unchanged := mkResponse 304 [] "" in
  (exists t,
      @_make_request nat (scripted [Responded page]) (table_runtime []) demo_client
        "DELETE" "/x" None 0%nat = (Ok (JObj []), 1%nat, t) /\
      io t = [Sent (request_of demo_client "DELETE" "/x" None)]) /\
  (exists t,
      @_make_request nat (scripted [Responded unchanged]) (table_runtime []) demo_client
        "GET" "/x" None 0%nat = (Ok (JObj []), 1%nat, t) /\
      io t = [Sent (request_of demo_client "GET" "/x" None)]).
Proof.
  intros page unchanged. split.
  - apply (no_content_returns_empty_object nat (scripted [Responded page])
             (table_runtime []) demo_client "DELETE" "/x" None 0%nat 1%nat page);
      [cbn; lia | reflexivity | cbn; lia | left; reflexivity].
  - apply (no_content_returns_empty_object nat (scripted [Responded unchanged])
             (table_runtime []) demo_client "GET" "/x" None 0%nat 1%nat unchanged);
      [cbn; lia | reflexivity | cbn; lia | right; reflexivity].
Defined.

(** ** Further properties of the clean-up and of [create_issue] *)

Lemma for_each_app {St A : Type} (l1 l2 : list A) (body : A -> M St unit) (s : St) :
  for_each (l1 ++ l2) body s =
  match for_each l1 body s with
  | (Ok _, s1, t1) =>
      match for_each l2 body s1 with (r, s2, t2) => (r, s2, (t1 ++ t2)%list) end
  | (Raise e, s1, t1) => (Raise e, s1, t1)
  end.
Proof.
  revert s. induction l1 as [|x l1 IH]; intros s.
  - cbn. now destruct (for_each l2 body s) as [[r s2] t2].
  - cbn [app for_each]. unfold bind.
    destruct (body x s) as [[[[]|e] s1] t1]; [|reflexivity].
    rewrite IH.
    destruct (for_each l1 body s1) as [[[[]|e] s2] t2]; [|reflexivity].
    destruct (for_each l2 body s2) as [[r s3] t3]. now rewrite app_assoc.
Qed.

Section CleanupEdges.
Context `{Runtime}.
Variable self : Client.
Variable respond : list call -> call -> result json.

(** A module whose issue listing raises: nothing is deleted, the module
    included, and the loop body ends normally. *)
Lemma cleanup_module_listing_fails (m : module_state) (name : json) (e : exn)
    (calls : list call) :
  py_getitem (listed m) "id" = Ok (identifier m) ->
  py_getitem (listed m) "name" = Ok name ->
  respond calls (list_issues_call self (identifier m)) = Raise e ->
  cleanup_module self (recorded respond) (listed m) calls =
  (Ok tt, calls ++ [list_issues_call self (identifier m)],
   [Logged INFO (MsgProcessingModule name);
    Logged ERROR (MsgErrorProcessingModule name e);
    Logged DEBUG (MsgFullErrorDetails e)])%list.
Proof.
  intros Hid Hname Hresp.
  unfold cleanup_module, get_module_issues.
  unfold bind at 1. unfold lift at 1. rewrite Hid.
  unfold bind at 1. unfold lift at 1. rewrite Hname.
  unfold bind at 1. unfold log at 1, emit at 1.
  unfold try_except.
  unfold bind at 1. unfold bind at 1.
  unfold recorded at 1. unfold list_issues_call in Hresp. rewrite Hresp.
  reflexivity.
Qed.

(** An entry of the module listing without an identifier or a name: the
    loop body raises before any call. *)
Lemma cleanup_module_malformed (entry : json) (e : exn) (calls : list call) :
  (py_getitem entry "id" = Raise e \/
   (exists id, py_getitem entry "id" = Ok id) /\ py_getitem entry "name" = Raise e) ->
  cleanup_module self (recorded respond) entry calls = (Raise e, calls, []).
Proof.
  intros [Hid|[(id & Hid) Hname]]; unfold cleanup_module.
  - unfold bind at 1. unfold lift at 1. now rewrite Hid.
  - unfold bind at 1. unfold lift at 1. rewrite Hid.
    unfold bind at 1. unfold lift at 1. now rewrite Hname.
Qed.

End CleanupEdges.

(** X8.  When the listing of the modules raises, [cleanup_project] logs
    the error and raises the same exception to its caller; no other call
    has been made. *)
Theorem cleanup_project_listing_failure_propagates :
  forall (R : Runtime) (self : Client) (respond : list call -> call -> result json)
         (e : exn),
    respond [] (list_modules_call self) = Raise e ->
    cleanup_project self (recorded respond) [] =
    (Raise e, [list_modules_call self],
     [Logged ERROR (MsgErrorDuringCleanup e); Logged DEBUG (MsgFullErrorDetails e)]).
Proof.
  intros R self respond e Hlist.
  unfold cleanup_project, get_modules, try_except.
  unfold bind at 1. unfold bind at 1.
  unfold recorded at 1. unfold list_modules_call in Hlist. rewrite Hlist.
  reflexivity.
Qed.

Lemma cleanup_project_listing_failure_propagates_witness :
  let respond : list call -> call -> result json :=
    fun _ _ => Raise (ApiError 403 "forbidden") in
  @cleanup_project (list call) (table_runtime []) demo_client (recorded respond) [] =
  (Raise (ApiError 403 "forbidden"),
   [("GET", "/workspaces/ws/projects/p1/modules/", None)],
   [Logged ERROR (MsgErrorDuringCleanup (ApiError 403 "forbidden"));
    Logged DEBUG (MsgFullErrorDetails (ApiError 403 "forbidden"))]).
Proof.
  intros respond.
  exact (cleanup_project_listing_failure_propagates (table_runtime []) demo_client
           respond (ApiError 403 "forbidden") eq_refl).
Defined.

(** X9.  A module whose issue listing raises is passed over: none of its
    issues is deleted and the module itself is not deleted, and the
    modules listed after it are cleaned up as usual. *)
Theorem cleanup_project_skips_module_whose_listing_fails :
  forall (R : Runtime) (self : Client) (respond : list call -> call -> result json)
         (before after : list module_state) (failing : module_state)
         (listing name : json) (e : exn),
    respond [] (list_modules_call self) = Ok listing ->
    lists listing (map listed (before ++ failing :: after)) ->
    listings_succeed self respond before ->
    listings_succeed self respond after ->
    py_getitem (listed failing) "id" = Ok (identifier failing) ->
    py_getitem (listed failing) "name" = Ok name ->
    (forall calls,
        respond calls (list_issues_call self (identifier failing)) = Raise e) ->
    exists t,
      cleanup_project self (recorded respond) [] =
      (Ok tt,
       list_modules_call self
         :: flat_map (module_calls self) before
         ++ list_issues_call self (identifier failing)
         :: flat_map (module_calls self) after, t)%list /\
      In (Logged ERROR (MsgErrorProcessingModule name e)) t.
Proof.
  intros R self respond before after failing listing name e
         Hlist Hl Lb La Hid Hname Hfail.
  destruct (for_each_cleanup_module self respond before Lb [list_modules_call self])
    as (t1 & E1).
  pose proof (cleanup_module_listing_fails self respond failing name e
                ([list_modules_call self] ++ flat_map (module_calls self) before)
                Hid Hname (Hfail _)) as E2.
  destruct (for_each_cleanup_module self respond after La
              (([list_modules_call self] ++ flat_map (module_calls self) before)
                 ++ [list_issues_call self (identifier failing)])) as (t3 & E3).
  unfold cleanup_project, get_modules, try_except.
  unfold bind at 1. unfold bind at 1.
  unfold recorded at 1. unfold list_modules_call in Hlist. rewrite Hlist.
  unfold lift at 1. unfold lists in Hl. rewrite Hl.
  unfold bind at 1. unfold lift at 1. cbn [py_len].
  unfold bind at 1. unfold log at 1, emit at 1.
  unfold bind at 1. unfold lift at 1. cbn [py_iter].
  rewrite map_app. cbn [map]. rewrite for_each_app.
  unfold list_modules_call in E1, E2, E3. cbn [app] in E1, E2, E3 |- *.
  unfold call in *. rewrite E1.
  cbn [for_each]. unfold bind at 1. rewrite E2. rewrite E3.
  eexists. split.
  - cbn [app]. rewrite <- !app_assoc. reflexivity.
  - cbn [app]. right. apply in_or_app. right. right. now left.
Qed.

Lemma cleanup_project_skips_module_whose_listing_fails_witness :
  exists t,
    @cleanup_project (list call) (table_runtime []) demo_client
      (recorded demo_respond_locked) [] =
    (Ok tt,
     [("GET", "/workspaces/ws/projects/p1/modules/", None);
      ("GET", "/workspaces/ws/projects/p1/modules/m-1/module-issues/", None);
      ("DELETE", "/workspaces/ws/projects/p1/issues/i-1/", None);
      ("DELETE", "/workspaces/ws/projects/p1/issues/i-2/", None);
      ("DELETE", "/workspaces/ws/projects/p1/modules/m-1/", None);
      ("GET", "/workspaces/ws/projects/p1/modules/m-x/module-issues/", None);
      ("GET", "/workspaces/ws/projects/p1/modules/m-2/module-issues/", None);
      ("DELETE", "/workspaces/ws/projects/p1/issues/i-3/", None);
      ("DELETE", "/workspaces/ws/projects/p1/modules/m-2/", None)], t) /\
    In (Logged ERROR (MsgErrorProcessingModule (JStr "Locked") (ApiError 403 "forbidden"))) t.
Proof.
  apply (cleanup_project_skips_module_whose_listing_fails (table_runtime [])
           demo_client demo_respond_locked (firstn 1 demo_modules)
           (skipn 1 demo_modules) locked_module
           (demo_listing
              (map listed (firstn 1 demo_modules ++ locked_module :: skipn 1 demo_modules)))
           (JStr "Locked") (ApiError 403 "forbidden"));
    try reflexivity.
  - intros m [<-|[]]. split; [reflexivity|]. split; [eexists; reflexivity|].
    intros calls. eexists. split; reflexivity.
  - intros m [<-|[]]. split; [reflexivity|]. split; [eexists; reflexivity|].
    intros calls. eexists. split; reflexivity.
Defined.

(** X10.  An entry of the module listing that has no [id] or no [name]
    stops the clean-up: the modules before it have been cleaned up, the
    exception of reading the entry is raised to the caller, and no call is
    made for the entry or for any module listed after it. *)
Theorem cleanup_project_stops_at_malformed_module :
  forall (R : Runtime) (self : Client) (respond : list call -> call -> result json)
         (before : list module_state) (entry : json) (rest : list json)
         (listing : json) (e : exn),
    respond [] (list_modules_call self) = Ok listing ->
    lists listing (map listed before ++ entry :: rest) ->
    listings_succeed self respond before ->
    (py_getitem entry "id" = Raise e \/
     (exists id, py_getitem entry "id" = Ok id) /\ py_getitem entry "name" = Raise e) ->
    exists t,
      cleanup_project self (recorded respond) [] =
      (Raise e, list_modules_call self :: flat_map (module_calls self) before, t) /\
      In (Logged ERROR (MsgErrorDuringCleanup e)) t.
Proof.
  intros R self respond before entry rest listing e Hlist Hl Lb Hbad.
  destruct (for_each_cleanup_module self respond before Lb [list_modules_call self])
    as (t1 & E1).
  pose proof (cleanup_module_malformed self respond entry e
                ([list_modules_call self] ++ flat_map (module_calls self) before)
                Hbad) as E2.
  unfold cleanup_project, get_modules, try_except.
  unfold bind at 1. unfold bind at 1.
  unfold recorded at 1. unfold list_modules_call in Hlist. rewrite Hlist.
  unfold lift at 1. unfold lists in Hl. rewrite Hl.
  unfold bind at 1. unfold lift at 1. cbn [py_len].
  unfold bind at 1. unfold log at 1, emit at 1.
  unfold bind at 1. unfold lift at 1. cbn [py_iter].
  rewrite for_each_app.
  unfold list_modules_call in E1, E2. cbn [app] in E1, E2 |- *.
  unfold call in *. rewrite E1.
  cbn [for_each]. unfold bind at 1. rewrite E2.
  cbv [Exception bind log emit raise].
  eexists. split; [reflexivity|].
  cbn [app]. right. apply in_or_app. right. now left.
Qed.

(** The second entry of the listing has no name; the third module is
    never looked at. *)
Lemma cleanup_project_stops_at_malformed_module_witness :
  let nameless := JObj [("id", JStr "m-x")] in
  let respond : list call -> call -> result json :=
    fun calls c =>
      if (fst (fst c) =? "GET")%string
         && (snd (fst c) =? "/workspaces/ws/projects/p1/modules/")%string
      then Ok (demo_listing (map listed (firstn 1 demo_modules)
                             ++ nameless :: map listed (skipn 1 demo_modules)))
      else demo_respond calls c in
  exists t,
    @cleanup_project (list call) (table_runtime []) demo_client (recorded respond) [] =
    (Raise (KeyError "name"),
     [("GET", "/workspaces/ws/projects/p1/modules/", None);
      ("GET", "/workspaces/ws/projects/p1/modules/m-1/module-issues/", None);
      ("DELETE", "/workspaces/ws/projects/p1/issues/i-1/", None);
      ("DELETE", "/workspaces/ws/projects/p1/issues/i-2/", None);
      ("DELETE", "/workspaces/ws/projects/p1/modules/m-1/", None)], t) /\
    In (Logged ERROR (MsgErrorDuringCleanup (KeyError "name"))) t.
Proof.
  intros nameless respond.
  apply (cleanup_project_stops_at_malformed_module (table_runtime []) demo_client
           respond (firstn 1 demo_modules) nameless
           (map listed (skipn 1 demo_modules))
           (demo_listing (map listed (firstn 1 demo_modules)
                          ++ nameless :: map listed (skipn 1 demo_modules)))
           (KeyError "name"));
    try reflexivity.
  - intros m [<-|[]]. split; [reflexivity|]. split; [eexists; reflexivity|].
    intros calls. eexists. split; reflexivity.
  - right. split; [eexists; reflexivity | reflexivity].
Defined.

(** X11.  [create_issue] when the creation call raises, and when the
    created issue comes back without an [id].  In the first case the
    exception is raised and nothing else is called.  In the second case no
    comment and no link call is made: reading the [id] for the comment
    raises inside the guarded step, which prints the warning; reading it
    for the link raises to the caller, so the operation fails although the
    issue exists remotely, unless the issue has no module. *)
Theorem create_issue_creation_failure_and_missing_id :
  forall (R : Runtime) (self : Client) (respond : list call -> call -> result json)
         (issue : Issue),
    let create : call :=
      ("POST", project_path self ++ "/issues/",
       Some (JObj [("name", JStr (name issue));
                   ("state", JStr "7ee23e4f-6c29-49c6-8220-06991ecd95f2")])) in
    (forall e,
        respond [] create = Raise e ->
        create_issue self (recorded respond) issue [] = (Raise e, [create], [])) /\
    (forall created e,
        respond [] create = Ok created ->
        py_getitem created "id" = Raise e ->
        create_issue self (recorded respond) issue [] =
        (if unset (module_id issue) then Ok created else Raise e,
         [create],
         if (description issue =? "")%string then []
         else [Printed (MsgCouldNotAddComment e)])).
Proof.
  intros R self respond issue create. split.
  - intros e Hc. unfold create_issue, recorded. fold create.
    unfold bind at 1. cbn [app]. now rewrite Hc.
  - intros created e Hc Hid.
    unfold create_issue, create_comment, link_issue_to_module, recorded.
    fold create.
    cbv [bind when try_except lift ret print emit Exception].
    cbn [app]. rewrite Hc, Hid.
    destruct (description issue =? "")%string;
      destruct (unset (module_id issue)); reflexivity.
Qed.

(** A service that refuses the creation, and one that answers the
    creation with an empty object. *)
Lemma create_issue_creation_failure_and_missing_id_witness :
  let issue := mkIssue "Fix login" "Steps to reproduce" (Some "m-7") None in
  let create : call :=
    ("POST", "/workspaces/ws/projects/p1/issues/",
     Some (JObj [("name", JStr "Fix login");
                 ("state", JStr "7ee23e4f-6c29-49c6-8220-06991ecd95f2")])) in
  @create_issue (list call) (table_runtime []) demo_client
    (recorded (fun _ _ => Raise (ApiError 403 "forbidden"))) issue []
  = (Raise (ApiError 403 "forbidden"), [create], []) /\
  @create_issue (list call) (table_runtime []) demo_client
    (recorded (fun _ _ => Ok (JObj []))) issue []
  = (Raise (KeyError "id"), [create],
     [Printed (MsgCouldNotAddComment (KeyError "id"))]).
Proof.
  intros issue create. split.
  - exact (proj1 (create_issue_creation_failure_and_missing_id (table_runtime [])
                    demo_client (fun _ _ => Raise (ApiError 403 "forbidden")) issue)
             (ApiError 403 "forbidden") eq_refl).
  - exact (proj2 (create_issue_creation_failure_and_missing_id (table_runtime [])
                    demo_client (fun _ _ => Ok (JObj [])) issue)
             (JObj []) (KeyError "id") eq_refl eq_refl).
Defined.

(** ** Further properties of the construction *)

Section ProbeOutcome.
Context {W : Type} `{Network W}.

(** The outcome of the probe, by what the transport does. *)
Lemma validate_outcome (self : Client) (w : W) :
  _validate_api_connection self w =
  let wrap e := ValueError "Failed to validate API connection" (Some e) in
  match transmit (probe_request self) w with
  | (Failed kind, w1) =>
      (Raise (wrap (RequestException kind)), w1,
       [Sent (probe_request self);
        Logged ERROR (MsgValidationFailed (RequestException kind))])
  | (Responded r, w1) =>
      if status_code r =? 401 then
        let e := ValueError "Authentication failed. Invalid API key." None in
        (Raise (wrap e), w1,
         [Sent (probe_request self); Logged ERROR MsgAuthenticationFailed;
          Logged ERROR (MsgValidationFailed e)])
      else if (400 <=? status_code r) && (status_code r <? 600) then
        (Raise (wrap (HTTPError r)), w1,
         [Sent (probe_request self); Logged ERROR (MsgValidationFailed (HTTPError r))])
      else (Ok tt, w1, [Sent (probe_request self); Logged INFO MsgValidated])
  end.
Proof.
  unfold _validate_api_connection, try_except, requests_request, raise_for_status.
  cbv [bind log emit ret raise Exception].
  destruct (transmit (probe_request self) w) as [[r|kind] w1]; [|reflexivity].
  destruct (status_code r =? 401); [reflexivity|].
  destruct ((400 <=? status_code r) && (status_code r <? 600)); reflexivity.
Qed.

End ProbeOutcome.

(** X12.  Whatever the environment and the service, the constructor
    either returns the client configured from the environment (with the
    retry bound 3 and the delay 5) after sending exactly the probe
    request, or raises a [ValueError] after sending at most one request:
    no other exception leaves it, and it never retries the probe. *)
Theorem construction_outcomes :
  forall (W : Type) (N : Network W) (environ : list (string * string)) (w : W),
    match __init__ environ w with
    | (Ok self, _, t) =>
        self = client_of environ /\ max_retries self = 3%nat /\ retry_delay self = 5 /\
        io t = [Sent (probe_request self)]
    | (Raise e, _, t) =>
        (exists msg cause, e = ValueError msg cause) /\ (attempts t <= 1)%nat
    end.
Proof.
  intros W N environ w. unfold __init__.
  destruct (unset (getenv environ "PLANE_API_KEY")
            || (String.length (api_key (client_of environ)) <? 32)%nat).
  { cbn. split; [eexists _, _; reflexivity | lia]. }
  destruct (negb (negb (unset (getenv environ "PLANE_WORKSPACE_SLUG"))
                  && negb (unset (getenv environ "PLANE_PROJECT_ID")))).
  { cbn. split; [eexists _, _; reflexivity | lia]. }
  unfold bind at 1. unfold log at 1, emit at 1.
  unfold bind at 1. rewrite validate_outcome.
  destruct (transmit (probe_request (client_of environ)) w) as [[r|kind] w1].
  - destruct (status_code r =? 401).
    + cbn. split; [eexists _, _; reflexivity | lia].
    + destruct ((400 <=? status_code r) && (status_code r <? 600)).
      * cbn. split; [eexists _, _; reflexivity | lia].
      * cbn. repeat split.
  - cbn. split; [eexists _, _; reflexivity | lia].
Qed.



(** ** The remaining operations of the client *)

Lemma contains_app_r (needle a b : string) :
  contains needle b = true -> contains needle (a ++ b) = true.
Proof.
  intros Hb. induction a as [|c a IH]; [exact Hb|].
  cbn [append contains]. rewrite IH. apply orb_true_r.
Qed.

(** X14.  [get_issue_types] turns a refusal that mentions "Payment
    required" into an empty list: when the service answers the listing of
    the issue types with a 403 response, or a 400 response without the
    module-exists message, whose body contains that phrase, the result is
    the empty list, after one request. *)
Theorem issue_types_empty_when_payment_required :
  forall (W : Type) (N : Network W) (R : Runtime) (X : Texts) (self : Client)
         (w w1 : W) (r : response),
    (0 < max_retries self)%nat ->
    let req := request_of self "GET" (project_path self ++ "/issue-types/") None in
    transmit req w = (Responded r, w1) ->
    (status_code r = 403 \/
     status_code r = 400 /\ contains module_exists_marker (text r) = false) ->
    contains "Payment required" (text r) = true ->
    exists t,
      get_issue_types self (_make_request self) w = (Ok (JArr []), w1, t) /\
      io t = [Sent req].
Proof.
  intros W N R X self w w1 r Hmax req T Hs Hp.
  unfold get_issue_types, try_except, bind, _make_request.
  destruct (max_retries self) as [|left]; [lia|].
  rewrite (loop_raise _ _ _ _ _ _ _ _ _ _
             (attempt_responded _ _ _ _ _ _ _ _ _ _ T
                (handle_client_error self "GET" r w1 Hs)) eq_refl).
  cbn [Exception exn_str].
  rewrite (contains_app_r _ _ _ (contains_app_r _ " Error. Response: " _ Hp)).
  cbv [ret]. eexists. split; [reflexivity|]. read_io.
Qed.

Lemma issue_types_empty_when_payment_required_witness :
  let r := mkResponse 403 [] "Payment required: upgrade the workspace plan" in
  let texts : Texts := {| library_text := fun _ => "" |} in
  exists t,
    @get_issue_types nat (table_runtime []) texts demo_client
      (@_make_request nat (scripted [Responded r]) (table_runtime []) demo_client) 0%nat
    = (Ok (JArr []), 1%nat, t) /\
    io t = [Sent (request_of demo_client "GET" "/workspaces/ws/projects/p1/issue-types/"
                    None)].
Proof.
  intros r texts.
  apply (issue_types_empty_when_payment_required nat (scripted [Responded r])
           (table_runtime []) texts demo_client 0%nat 1%nat r);
    [cbn; lia | reflexivity | left; reflexivity | reflexivity].
Defined.

Section DeleteAll.
Context `{Runtime}.
Variable self : Client.
Variable respond : list call -> call -> result json.

(** The loop body on an issue that is a dictionary: at most one call, the
    deletion, and a normal end whatever the call answers. *)
Lemma delete_listed_issue_dict (issue : json) (calls : list call) :
  is_dict issue = true ->
  exists t,
    delete_listed_issue self (recorded respond) issue calls =
    (Ok tt, calls ++ listed_issue_calls self [issue], t)%list.
Proof.
  destruct issue as [| | | | |fields]; try discriminate. intros _.
  unfold delete_listed_issue, listed_issue_calls, listed_id, delete_issue,
    delete_issue_call, recorded.
  cbv [bind log emit ret lift try_except Exception].
  cbn [py_get_none py_get flat_map].
  destruct (assoc "id" fields) as [id|].
  - destruct (truthy id); cbn [negb app].
    + destruct (respond calls _); eexists; reflexivity.
    + eexists. now rewrite app_nil_r.
  - cbn [truthy negb app]. eexists. now rewrite app_nil_r.
Qed.

(** The loop body on anything else raises before any call. *)
Lemma delete_listed_issue_not_dict (issue : json) (calls : list call) :
  is_dict issue = false ->
  delete_listed_issue self (recorded respond) issue calls =
  (Raise AttributeError, calls, []).
Proof.
  destruct issue; try discriminate; reflexivity.
Qed.

Lemma for_each_delete_listed (issues : list json) :
  Forall (fun issue => is_dict issue = true) issues ->
  forall calls,
  exists t,
    tfor_each issues
      (fun issue => core (delete_listed_issue self (recorded respond) issue)) calls =
    (Ok tt, calls ++ listed_issue_calls self issues, t)%list.
Proof.
  induction 1 as [|issue issues Hd _ IH]; intros calls.
  - exists []. cbn. now rewrite app_nil_r.
  - cbn [tfor_each]. unfold tbind at 1. unfold core at 1.
    destruct (delete_listed_issue_dict issue calls Hd) as (t1 & E1).
    destruct (IH (calls ++ listed_issue_calls self [issue])%list) as (t2 & E2).
    unfold call in *. rewrite E1, E2.
    eexists. unfold listed_issue_calls. cbn [flat_map].
    now rewrite app_nil_r, <- app_assoc.
Qed.

Lemma tfor_each_app {E St A : Type} (l1 l2 : list A) (body : A -> T E St unit)
    (s : St) :
  tfor_each (l1 ++ l2) body s =
  match tfor_each l1 body s with
  | (Ok _, s1, t1) =>
      match tfor_each l2 body s1 with (r, s2, t2) => (r, s2, (t1 ++ t2)%list) end
  | (Raise e, s1, t1) => (Raise e, s1, t1)
  end.
Proof.
  revert s. induction l1 as [|x l1 IH]; intros s.
  - cbn. now destruct (tfor_each l2 body s) as [[r s2] t2].
  - cbn [app tfor_each]. unfold tbind.
    destruct (body x s) as [[[[]|e] s1] t1]; [|reflexivity].
    rewrite IH.
    destruct (tfor_each l1 body s1) as [[[[]|e] s2] t2]; [|reflexivity].
    destruct (tfor_each l2 body s2) as [[r s3] t3]. now rewrite app_assoc.
Qed.

End DeleteAll.

(** X15.  [delete_all_issues_in_project] never raises, whatever the
    requests do: its outer handler logs the exception and returns.  When
    the listing of the issues raises, that is all that happens: one call,
    two log records, a normal return. *)
Theorem delete_all_issues_never_raises :
  forall (R : Runtime) (self : Client),
    (forall (St : Type) (request : string -> string -> option json -> M St json)
            (s : St),
        fst (fst (delete_all_issues_in_project self request s)) = Ok tt) /\
    (forall (respond : list call -> call -> result json) (e : exn),
        respond [] (project_issues_call self) = Raise e ->
        delete_all_issues_in_project self (recorded respond) [] =
        (Ok tt, [project_issues_call self],
         [LoggedMore ERROR (MsgErrorFetchingOrDeleting e);
          Core (Logged DEBUG (MsgFullErrorDetails e))])).
Proof.
  intros R self. split.
  - intros St request s. unfold delete_all_issues_in_project, ttry.
    match goal with
    | |- context [match ?body s with _ => _ end] =>
        destruct (body s) as [[[[]|e] s1] t1]
    end; reflexivity.
  - intros respond e Hlist.
    unfold delete_all_issues_in_project, ttry.
    unfold tbind at 1. unfold core at 1, recorded at 1.
    unfold project_issues_call in Hlist. rewrite Hlist. reflexivity.
Qed.

Lemma delete_all_issues_never_raises_witness :
  let respond : list call -> call -> result json :=
    fun _ _ => Raise (ApiError 403 "forbidden") in
  @delete_all_issues_in_project (list call) (table_runtime []) demo_client
    (recorded respond) [] =
  (Ok tt, [("GET", "/workspaces/ws/projects/p1/issues/", None)],
   [LoggedMore ERROR (MsgErrorFetchingOrDeleting (ApiError 403 "forbidden"));
    Core (Logged DEBUG (MsgFullErrorDetails (ApiError 403 "forbidden")))]).
Proof.
  intros respond.
  exact (proj2 (delete_all_issues_never_raises (table_runtime []) demo_client)
           respond (ApiError 403 "forbidden") eq_refl).
Defined.

(** X16.  [delete_all_issues_in_project] lists the issues once and then
    calls the deletion of every listed issue that has a true [id], in
    listing order, whatever the deletions answer.  It reads the [id] from
    the listed object itself; a listed item that is not an object ends the
    loop: the items after it are not deleted, the error is logged, and
    the operation returns normally. *)
Theorem delete_all_issues_calls :
  forall (R : Runtime) (self : Client) (respond : list call -> call -> result json)
         (listing : json) (issues rest : list json),
    respond [] (project_issues_call self) = Ok listing ->
    lists listing (issues ++ rest) ->
    Forall (fun issue => is_dict issue = true) issues ->
    match rest with
    | [] => True
    | item :: _ => is_dict item = false
    end ->
    exists t,
      delete_all_issues_in_project self (recorded respond) [] =
      (Ok tt, project_issues_call self :: listed_issue_calls self issues, t) /\
      (rest <> [] ->
       In (LoggedMore ERROR (MsgErrorFetchingOrDeleting AttributeError)) t).
Proof.
  intros R self respond listing issues rest Hlist Hl Hd Hrest.
  destruct (for_each_delete_listed self respond issues Hd [project_issues_call self])
    as (t1 & E1).
  unfold delete_all_issues_in_project, ttry.
  unfold tbind at 1. unfold core at 1, recorded at 1.
  unfold project_issues_call in Hlist. rewrite Hlist.
  unfold tbind at 1. unfold tlift at 1. unfold lists in Hl. rewrite Hl.
  unfold tbind at 1. unfold tlift at 1. cbn [py_len].
  unfold tbind at 1. unfold temit at 1.
  unfold tbind at 1. unfold tlift at 1. cbn [py_iter].
  rewrite tfor_each_app.
  unfold project_issues_call in E1 |- *. cbn [app] in E1 |- *.
  unfold call in *. rewrite E1.
  destruct rest as [|item rest].
  - cbn [tfor_each]. cbv [tret]. eexists. split; [reflexivity|]. congruence.
  - cbn [tfor_each]. unfold tbind at 1. unfold core at 1.
    rewrite (delete_listed_issue_not_dict self respond item _ Hrest).
    cbv [Exception tbind temit core log emit].
    eexists. split; [reflexivity|]. intros _.
    cbn [map app]. right. apply in_or_app. right. now left.
Qed.

(** Two issues are listed, then a string, then a third issue: the first
    two are deleted (the service refuses), the third is not reached. *)
Lemma delete_all_issues_calls_witness :
  let issues := [JObj [("id", JStr "i-1"); ("name", JStr "Login")];
                 JObj [("id", JStr "i-2")]] in
  let rest := [JStr "oops"; JObj [("id", JStr "i-3")]] in
  let respond : list call -> call -> result json :=
    fun _ c => if (fst (fst c) =? "GET")%string
               then Ok (demo_listing (issues ++ rest))
               else Raise (ApiError 403 "forbidden") in
  exists t,
    @delete_all_issues_in_project (list call) (table_runtime []) demo_client
      (recorded respond) [] =
    (Ok tt,
     [("GET", "/workspaces/ws/projects/p1/issues/", None);
      ("DELETE", "/workspaces/ws/projects/p1/issues/i-1/", None);
      ("DELETE", "/workspaces/ws/projects/p1/issues/i-2/", None)], t) /\
    In (LoggedMore ERROR (MsgErrorFetchingOrDeleting AttributeError)) t.
Proof.
  intros issues rest respond.
  destruct (delete_all_issues_calls (table_runtime []) demo_client respond
              (demo_listing (issues ++ rest)) issues rest)
    as (t & E & Hlog); try reflexivity.
  - repeat constructor.
  - exists t. split; [exact E | apply Hlog; discriminate].
Defined.

(** ** The command-line tool *)

Lemma string_length_app (a b : string) :
  String.length (a ++ b) = (String.length a + String.length b)%nat.
Proof. induction a as [|c a IH]; cbn; [reflexivity | now rewrite IH]. Qed.

Lemma substring_all (s : string) : substring 0 (String.length s) s = s.
Proof. induction s as [|c s IH]; cbn; [reflexivity | now rewrite IH]. Qed.

Lemma substring_short (s : string) (n : nat) :
  (String.length s <= n)%nat -> substring 0 n s = s.
Proof.
  revert n. induction s as [|c s IH]; intros [|n] Hn; cbn in *; try reflexivity; try lia.
  rewrite IH; [reflexivity | lia].
Qed.

Lemma substring_suffix (a b : string) :
  substring (String.length a) (String.length b) (a ++ b) = b.
Proof.
  induction a as [|c a IH]; cbn [String.length append].
  - apply substring_all.
  - cbn. exact IH.
Qed.

Lemma string_split_at (n : nat) (s : string) :
  (n <= String.length s)%nat ->
  exists a b, s = a ++ b /\ String.length a = n.
Proof.
  revert s. induction n as [|n IH]; intros s Hn.
  - exists "", s. split; reflexivity.
  - destruct s as [|c s]; cbn in Hn; [lia|].
    destruct (IH s) as (a & b & -> & La); [lia|].
    exists (String c a), b. split; [reflexivity | cbn; now rewrite La].
Qed.


Example mask_of_key :
  Main.mask "0123456789abcdef0123456789abcdef" = "****************************cdef".
Proof. reflexivity. Qed.

Example mask_of_short_key : Main.mask "abc" = "abc".
Proof. reflexivity. Qed.


Section MainShape.
Context `{Runtime} `{Texts} `{Main.Files} {W : Type} `{Network W}.

(** [main] is its four debug records followed by the report of the
    missing variables, or by the guarded run. *)
Lemma main_eq (args : Main.Args) (environ : list (string * string)) (w : W) :
  Main.main args environ w =
  match missing_vars environ with
  | _ :: _ =>
      (Ok tt, w,
       main_preamble environ
         ++ [Main.ToolLogged ERROR (Main.MsgMissingVariables (missing_vars environ))])
  | [] =>
      match Main.run_mode args environ w with
      | (Ok _, w', t) => (Ok tt, w', main_preamble environ ++ t)
      | (Raise e, w', t) =>
          (Ok tt, w',
           main_preamble environ
             ++ t ++ [Main.ToolLogged ERROR (Main.MsgErrorProcessingWorkPackages e)])
      end
  end%list.
Proof.
  unfold Main.main, missing_vars, main_preamble.
  destruct (filter _ Main.required_env_vars) as [|var vars].
  - cbv [tbind Main.tlog temit ttry Exception].
    destruct (Main.run_mode args environ w) as [[[[]|e] w'] t]; reflexivity.
  - reflexivity.
Qed.

End MainShape.

Lemma tool_requests_app (a b : list Main.tool_event) :
  tool_requests (a ++ b) = (tool_requests a ++ tool_requests b)%list.
Proof. apply flat_map_app. Qed.

Lemma tool_requests_client (t : list event) :
  tool_requests (map (fun ev => Main.FromClient (Core ev)) t) = sent t.
Proof.
  induction t as [|ev t IH]; [reflexivity|].
  cbn [map]. change (tool_requests (?x :: ?l)) with
    ((match x with
      | Main.FromClient (Core (Sent r)) => [r]
      | _ => []
      end) ++ tool_requests l)%list.
  rewrite IH. now destruct ev.
Qed.

Lemma sent_io (t : list event) : sent (io t) = sent t.
Proof.
  induction t as [|ev t IH]; [reflexivity|].
  rewrite io_cons. destruct ev; cbn [is_io]; unfold sent in *; cbn [flat_map];
    now rewrite IH.
Qed.

Section Quiet.
Context {St : Type}.

Lemma quiet_tret {A} (a : A) : quiet (@tret Main.tool_event St A a).
Proof. intros s. split; reflexivity. Qed.

Lemma quiet_traise {A} (e : exn) : quiet (@traise Main.tool_event St A e).
Proof. intros s. split; reflexivity. Qed.

Lemma quiet_tlift {A} (r : result A) : quiet (@tlift Main.tool_event St A r).
Proof. intros s. split; reflexivity. Qed.

Lemma quiet_tlog (l : level) (m : Main.tool_message) : quiet (@Main.tlog St l m).
Proof. intros s. split; reflexivity. Qed.

Lemma quiet_tbind {A B} (m : T Main.tool_event St A) (k : A -> T Main.tool_event St B) :
  quiet m -> (forall a, quiet (k a)) -> quiet (tbind m k).
Proof.
  intros Hm Hk s. unfold tbind. specialize (Hm s).
  destruct (m s) as [[[a|e] s1] t1]; cbn [fst snd] in *; destruct Hm as [-> Ht1].
  - specialize (Hk a s). destruct (k a s) as [[r s2] t2]. cbn [fst snd] in *.
    destruct Hk as [-> Ht2]. split; [reflexivity|].
    now rewrite tool_requests_app, Ht1, Ht2.
  - split; [reflexivity | exact Ht1].
Qed.

Lemma quiet_ttry {A} (m : T Main.tool_event St A) (catches : exn -> bool)
    (handler : exn -> T Main.tool_event St A) :
  quiet m -> (forall e, quiet (handler e)) -> quiet (ttry m catches handler).
Proof.
  intros Hm Hh s. unfold ttry. specialize (Hm s).
  destruct (m s) as [[[a|e] s1] t1]; cbn [fst snd] in *; destruct Hm as [-> Ht1].
  - split; [reflexivity | exact Ht1].
  - destruct (catches e).
    + specialize (Hh e s). destruct (handler e s) as [[r s2] t2]. cbn [fst snd] in *.
      destruct Hh as [-> Ht2]. split; [reflexivity|].
      now rewrite tool_requests_app, Ht1, Ht2.
    + split; [reflexivity | exact Ht1].
Qed.

Lemma quiet_tfor_each {A} (l : list A) (body : A -> T Main.tool_event St unit) :
  (forall x, quiet (body x)) -> quiet (tfor_each l body).
Proof.
  intros Hb. induction l as [|x l IH]; cbn [tfor_each].
  - apply quiet_tret.
  - apply quiet_tbind; [apply Hb | intros _; exact IH].
Qed.

Context `{Runtime} `{Main.Files}.

Lemma quiet_load_work_packages (path : string) :
  quiet (@Main.load_work_packages _ _ St path).
Proof.
  unfold Main.load_work_packages. apply quiet_ttry.
  - apply quiet_tbind; [apply quiet_tlift | intros; apply quiet_tlift].
  - intros e. apply quiet_tbind; [apply quiet_tlog | intros; apply quiet_traise].
Qed.

Lemma quiet_dry_run_packages (packages : list (string * list Main.ModuleIssue)) :
  quiet (@Main.dry_run_packages St packages).
Proof.
  unfold Main.dry_run_packages.
  apply quiet_tbind; [apply quiet_tlog | intros _].
  apply quiet_tfor_each. intros package.
  apply quiet_tbind; [apply quiet_tlog | intros _].
  apply quiet_tfor_each. intros issue.
  apply quiet_tbind; [apply quiet_tlog | intros _; apply quiet_tlog].
Qed.

End Quiet.

(** X18.  [main] returns normally whatever happens: every exception of
    the run is logged and swallowed.  When one of the four variables
    [PLANE_API_KEY], [PLANE_WORKSPACE_SLUG], [PLANE_PROJECT_ID] and
    [PLANE_HOST] is missing or empty, it reports the missing ones and does
    nothing else: no client is constructed and no request is sent, also
    for [PLANE_HOST], for which the client has a default. *)
Theorem main_returns_and_requires_variables :
  forall (R : Runtime) (X : Texts) (F : Main.Files) (W : Type) (N : Network W)
         (args : Main.Args) (environ : list (string * string)) (w : W),
    fst (fst (Main.main args environ w)) = Ok tt /\
    (forall var,
        In var Main.required_env_vars ->
        unset (getenv environ var) = true ->
        Main.main args environ w =
        (Ok tt, w,
         main_preamble environ
           ++ [Main.ToolLogged ERROR (Main.MsgMissingVariables (missing_vars environ))])%list /\
        In var (missing_vars environ) /\
        tool_requests (snd (Main.main args environ w)) = []).
Proof.
  intros R X F W N args environ w. split.
  - rewrite main_eq. destruct (missing_vars environ); [|reflexivity].
    now destruct (Main.run_mode args environ w) as [[[[]|e] w'] t].
  - intros var Hin Hunset.
    assert (Hm : In var (missing_vars environ)).
    { unfold missing_vars. apply filter_In. now split. }
    rewrite main_eq. destruct (missing_vars environ) as [|v vs] eqn:E;
      [destruct Hm|].
    split; [reflexivity|]. split; [exact Hm|]. reflexivity.
Qed.

Lemma main_returns_and_requires_variables_witness :
  let environ := [("PLANE_API_KEY", "0123456789abcdef0123456789abcdef");
                  ("PLANE_WORKSPACE_SLUG", "ws");
                  ("PLANE_PROJECT_ID", "p1")] in
  let files : Main.Files :=
    {| Main.load_json := fun _ => Ok (JObj []);
       Main.open_for_writing := fun _ => None |} in
  let texts : Texts := {| library_text := fun _ => "" |} in
  let args := Main.mkArgs None false None true false in
  @Main.main (table_runtime []) texts files nat (scripted []) args environ 0%nat =
  (Ok tt, 0%nat,
   main_preamble environ
     ++ [Main.ToolLogged ERROR (Main.MsgMissingVariables ["PLANE_HOST"])])%list /\
  In "PLANE_HOST" (missing_vars environ) /\
  tool_requests
    (snd (@Main.main (table_runtime []) texts files nat (scripted []) args environ 0%nat))
  = [].
Proof.
  intros environ files texts args.
  apply (proj2 (main_returns_and_requires_variables (table_runtime []) texts files
                  nat (scripted []) args environ 0%nat) "PLANE_HOST").
  - cbn. auto.
  - reflexivity.
Defined.



(** X20.  The modes of [main] exclude one another in a fixed order:
    [--cleanup] wins over every other argument; without it, [--export]
    wins over [--delete-all-issues], [--input] and [--dry-run]; without
    both, [--delete-all-issues] wins over [--input] and [--dry-run].  The
    arguments that lose have no effect at all. *)
Theorem main_mode_precedence :
  forall (R : Runtime) (X : Texts) (F : Main.Files) (W : Type) (N : Network W)
         (args : Main.Args) (environ : list (string * string)) (w : W),
    (Main.cleanup args = true ->
     Main.main args environ w
     = Main.main (Main.mkArgs None false None true false) environ w) /\
    (Main.cleanup args = false -> unset (Main.export args) = false ->
     Main.main args environ w
     = Main.main (Main.mkArgs None false (Main.export args) false false) environ w) /\
    (Main.cleanup args = false -> unset (Main.export args) = true ->
     Main.delete_all_issues args = true ->
     Main.main args environ w
     = Main.main (Main.mkArgs None false None false true) environ w).
Proof.
  intros R X F W N args environ w.
  rewrite !main_eq. destruct (missing_vars environ); [|repeat split; reflexivity].
  unfold Main.run_mode. cbn [Main.cleanup Main.export Main.delete_all_issues
                               Main.input Main.dry_run].
  repeat split.
  - intros ->. reflexivity.
  - intros -> ->. reflexivity.
  - intros -> -> ->. reflexivity.
Qed.

(** All the arguments at once: the run is the clean-up. *)
Lemma main_mode_precedence_witness :
  let files : Main.Files :=
    {| Main.load_json := fun _ => Ok (JObj []);
       Main.open_for_writing := fun _ => None |} in
  let texts : Texts := {| library_text := fun _ => "" |} in
  let net := scripted [Responded (mkResponse 200 [] "")] in
  @Main.main (table_runtime []) texts files nat net
    (Main.mkArgs (Some "packages.json") true (Some "out.json") true true)
    valid_environ 0%nat
  = @Main.main (table_runtime []) texts files nat net
      (Main.mkArgs None false None true false) valid_environ 0%nat.
Proof.
  intros files texts net.
  exact (proj1 (main_mode_precedence (table_runtime []) texts files nat net
                  (Main.mkArgs (Some "packages.json") true (Some "out.json") true true)
                  valid_environ 0%nat) eq_refl).
Defined.

Lemma dumps_app (a b : list Main.tool_event) :
  dumps (a ++ b) = (dumps a ++ dumps b)%list.
Proof. apply flat_map_app. Qed.

Lemma dumps_client (t : list event) :
  dumps (map (fun ev => Main.FromClient (Core ev)) t) = [].
Proof. induction t as [|ev t IH]; [reflexivity | exact IH]. Qed.

Section Reading.
Context `{Runtime}.

Lemma reading_tret {A} (a : A) : reading (tret a).
Proof. intros calls. exists []. now rewrite app_nil_r. Qed.

Lemma reading_tlift {A} (r : result A) : reading (tlift r).
Proof. intros calls. exists []. now rewrite app_nil_r. Qed.

Lemma reading_traise {A} (e : exn) : reading (@traise _ _ A e).
Proof. intros calls. exists []. now rewrite app_nil_r. Qed.

Lemma reading_tbind {A B} (m : T Main.tool_event (list call) A)
    (k : A -> T Main.tool_event (list call) B) :
  reading m -> (forall a, reading (k a)) -> reading (tbind m k).
Proof.
  intros Hm Hk calls. unfold tbind. destruct (Hm calls) as (n1 & E1 & F1 & D1).
  destruct (m calls) as [[[a|e] s1] t1]; cbn [fst snd] in *.
  - destruct (Hk a s1) as (n2 & E2 & F2 & D2).
    destruct (k a s1) as [[r s2] t2]. cbn [fst snd] in *. subst s1 s2.
    exists (n1 ++ n2)%list. rewrite app_assoc, dumps_app, D1, D2.
    repeat split. apply Forall_app. now split.
  - exists n1. now repeat split.
Qed.

Lemma reading_tfold {A} (l : list A)
    (body : Main.export_data -> A -> T Main.tool_event (list call) Main.export_data) :
  (forall data x, reading (body data x)) ->
  forall data, reading (Main.tfold l data body).
Proof.
  intros Hb. induction l as [|x l IH]; intros data; cbn [Main.tfold].
  - apply reading_tret.
  - apply reading_tbind; [apply Hb | intros data'; apply IH].
Qed.

Variable self : Client.
Variable respond : list call -> call -> result json.

(** A computation of the client that makes one GET call and then only
    logs and looks up. *)
Lemma reading_get {A} (endpoint : string) (k : json -> M (list call) A) :
  (forall v calls, snd (fst (k v calls)) = calls) ->
  reading (Main.client (bind (recorded respond "GET" endpoint None) k)).
Proof.
  intros Hk calls. exists [("GET", endpoint, None)].
  unfold Main.client, Main.tmap, bind, recorded.
  destruct (respond calls _) as [v|e].
  - specialize (Hk v (calls ++ [("GET", endpoint, None)])%list).
    destruct (k v _) as [[r s2] t2]. cbn [fst snd] in *. subst s2.
    rewrite dumps_client. repeat split. repeat constructor.
  - cbn [fst snd]. repeat split. repeat constructor.
Qed.

Lemma reading_get_modules :
  reading (Main.client (get_modules self (recorded respond))).
Proof. apply reading_get. reflexivity. Qed.

Lemma reading_get_module_issues (module_id : json) :
  reading (Main.client (get_module_issues self (recorded respond) module_id)).
Proof. apply reading_get. reflexivity. Qed.

Lemma reading_get_issue_comments (issue_id : json) :
  reading (Main.client (get_issue_comments self (recorded respond) issue_id)).
Proof. apply reading_get. reflexivity. Qed.

Lemma reading_export_issue (module_name : json) (data : Main.export_data) (issue : json) :
  reading (Main.export_issue self (recorded respond) module_name data issue).
Proof.
  unfold Main.export_issue.
  repeat (apply reading_tbind; [first [apply reading_tlift
                                      | apply reading_get_issue_comments] | intros ?]).
  apply reading_tret.
Qed.

Lemma reading_export_module (data : Main.export_data) (module : json) :
  reading (Main.export_module self (recorded respond) data module).
Proof.
  unfold Main.export_module.
  apply reading_tbind; [apply reading_tlift | intros module_id].
  apply reading_tbind; [apply reading_tlift | intros module_name].
  apply reading_tbind;
    [destruct (Main.hashable module_name); [apply reading_tret | apply reading_traise]
    | intros data'].
  apply reading_tbind; [apply reading_get_module_issues | intros module_issues].
  apply reading_tbind; [apply reading_tlift | intros issues].
  apply reading_tfold. intros d x. apply reading_export_issue.
Qed.

Lemma reading_collected : reading (collected self respond).
Proof.
  unfold collected.
  apply reading_tbind; [apply reading_get_modules | intros modules].
  apply reading_tbind; [apply reading_tlift | intros items].
  apply reading_tfold. intros d x. apply reading_export_module.
Qed.

Context `{Main.Files}.

(** [export_issues] is the collection followed by the writing. *)
Lemma export_issues_eq (output_file : string) (calls : list call) :
  Main.export_issues self (recorded respond) output_file calls =
  match collected self respond calls with
  | (Ok data, calls', t) =>
      match Main.open_for_writing output_file with
      | Some e =>
          (Raise e, calls', t ++ [Main.ToolLogged ERROR (Main.MsgErrorExporting e)])
      | None =>
          (Ok tt, calls',
           t ++ [Main.Dumped output_file data;
                 Main.ToolLogged INFO (Main.MsgExported output_file)])
      end
  | (Raise e, calls', t) =>
      (Raise e, calls', t ++ [Main.ToolLogged ERROR (Main.MsgErrorExporting e)])
  end%list.
Proof.
  unfold Main.export_issues, collected, ttry, tbind, Exception, Main.tlog, temit,
    traise, tlift.
  destruct (Main.client (get_modules self (recorded respond)) calls)
    as [[[modules|e] s1] t1]; [|now rewrite app_nil_r].
  destruct (py_iter modules) as [items|e]; [|now rewrite !app_nil_r].
  destruct (Main.tfold items [] (Main.export_module self (recorded respond)) s1)
    as [[[data|e] s2] t2]; [|now rewrite !app_nil_r].
  destruct (Main.open_for_writing output_file) as [e|];
    cbn [app]; now rewrite ?app_nil_r, <- ?app_assoc.
Qed.

End Reading.


Lemma traverse_Forall2 {A B : Type} (f : A -> result B) (P : A -> B -> Prop)
    (l : list A) (l' : list B) :
  (forall x y, P x y -> f x = Ok y) ->
  Forall2 P l l' -> Main.traverse f l = Ok l'.
Proof.
  intros Hf HF. induction HF as [|x y l l' Hxy _ IH]; cbn [Main.traverse].
  - reflexivity.
  - now rewrite (Hf _ _ Hxy), IH.
Qed.

Lemma traverse_raises {A B : Type} (f : A -> result B) (l : list A) (x : A) :
  In x l -> (exists e, f x = Raise e) -> exists e, Main.traverse f l = Raise e.
Proof.
  intros Hin [e He]. induction l as [|y l IH]; [destruct Hin|].
  cbn [Main.traverse]. destruct Hin as [->|Hin].
  - rewrite He. now exists e.
  - destruct (f y) as [b|e']; [|now exists e'].
    destruct (IH Hin) as [e' ->]. now exists e'.
Qed.

Lemma module_issue_of_entry `{Runtime} (item : json) (issue : Main.ModuleIssue) :
  entry_of item issue -> Main.module_issue_of item = Ok issue.
Proof.
  intros [s|fields n d Hn Hd]; unfold Main.module_issue_of; cbn.
  - now rewrite py_str_str.
  - now rewrite Hn, Hd.
Qed.

(** X22.  [load_work_packages] reads an object whose values are lists of
    entries: the packages come out in the order of the file, a string
    entry becomes an issue of that name with the description
    [Task: <name>], an object entry gives its [name] and [description].
    Nothing is logged and no request is made. *)
Theorem load_work_packages_reads_entries :
  forall (R : Runtime) (F : Main.Files) (St : Type) (file_path : string)
         (fields : list (string * json))
         (packages : list (string * list Main.ModuleIssue)) (s : St),
    Main.load_json file_path = Ok (JObj fields) ->
    Forall2 package_of fields packages ->
    Main.load_work_packages file_path s = (Ok packages, s, []).
Proof.
  intros R F St file_path fields packages s Hload Hfields.
  unfold Main.load_work_packages, ttry, tbind, tlift. rewrite Hload.
  unfold Main.work_packages_of.
  erewrite traverse_Forall2 with (P := package_of); [reflexivity | | exact Hfields].
  intros [k v] [k' issues] [Hk (items & Hv & Hitems)]. cbn [fst snd] in *. subst k' v.
  cbn [py_iter].
  now rewrite (traverse_Forall2 _ entry_of items issues module_issue_of_entry Hitems).
Qed.

Lemma load_work_packages_reads_entries_witness :
  let files : Main.Files :=
    {| Main.load_json :=
         fun _ => Ok (JObj [("Backend",
                             JArr [JStr "Login";
                                   JObj [("name", JStr "Logout");
                                         ("description", JStr "End the session")]]);
                            ("Frontend", JArr [])]);
       Main.open_for_writing := fun _ => None |} in
  @Main.load_work_packages (table_runtime []) files nat "packages.json" 0%nat
  = (Ok [("Backend", [Main.mkModuleIssue "Login" "Task: Login";
                      Main.mkModuleIssue "Logout" "End the session"]);
         ("Frontend", [])], 0%nat, []).
Proof.
  intros files.
  eapply (load_work_packages_reads_entries (table_runtime []) files nat "packages.json").
  - reflexivity.
  - repeat constructor; cbn [fst snd].
    + eexists. split; [reflexivity|].
      constructor; [apply entry_plain|].
      constructor; [now apply entry_detailed | constructor].
    + eexists. split; [reflexivity | constructor].
Defined.

(** X23.  One entry is enough to lose the whole file: when an object
    entry of some package has no [description] (or no [name]),
    [load_work_packages] returns no package at all; it logs the exception
    once and raises it again. *)
Theorem load_work_packages_all_or_nothing :
  forall (R : Runtime) (F : Main.Files) (St : Type) (file_path : string)
         (fields : list (string * json)) (package : string)
         (items : list json) (entry : list (string * json)) (s : St),
    Main.load_json file_path = Ok (JObj fields) ->
    In (package, JArr items) fields ->
    In (JObj entry) items ->
    assoc "name" entry = None \/ assoc "description" entry = None ->
    exists e,
      Main.load_work_packages file_path s
      = (Raise e, s, [Main.ToolLogged ERROR (Main.MsgErrorLoadingWorkPackages e)]).
Proof.
  intros R F St file_path fields package items entry s Hload Hfield Hitem Hmiss.
  unfold Main.load_work_packages, ttry, tbind, tlift. rewrite Hload.
  unfold Main.work_packages_of.
  match goal with
  | |- context [Main.traverse ?f fields] =>
      destruct (traverse_raises f fields (package, JArr items) Hfield) as [e ->]
  end.
  - cbn [snd py_iter].
    destruct (traverse_raises Main.module_issue_of items (JObj entry) Hitem) as [e ->].
    + unfold Main.module_issue_of. cbn [is_dict py_getitem].
      destruct (assoc "name" entry) as [b|] eqn:En.
      * destruct Hmiss as [Hn|Hd]; [discriminate|]. rewrite Hd. now eexists.
      * now eexists.
    + now exists e.
  - exists e. reflexivity.
Qed.

Lemma load_work_packages_all_or_nothing_witness :
  let files : Main.Files :=
    {| Main.load_json :=
         fun _ => Ok (JObj [("Backend", JArr [JStr "Login"]);
                            ("Frontend", JArr [JStr "Menu";
                                               JObj [("name", JStr "Footer")]])]);
       Main.open_for_writing := fun _ => None |} in
  exists e,
    @Main.load_work_packages (table_runtime []) files nat "packages.json" 0%nat
    = (Raise e, 0%nat, [Main.ToolLogged ERROR (Main.MsgErrorLoadingWorkPackages e)]).
Proof.
  intros files.
  eapply (load_work_packages_all_or_nothing (table_runtime []) files nat "packages.json"
           _ "Frontend" [JStr "Menu"; JObj [("name", JStr "Footer")]]
           [("name", JStr "Footer")]).
  - reflexivity.
  - cbn. auto.
  - cbn. auto.
  - right. reflexivity.
Defined.

(** X24.  A work package whose module cannot be created costs one call
    and does not stop the run: when the creation raises an exception that
    carries no response, none of the package's issues is attempted, the
    error is logged under the name of the package, and the loop goes on
    with the next package. *)
Theorem failed_module_creation_skips_package :
  forall (R : Runtime) (self : Client)
         (respond : list call -> call -> result json)
         (package : string * list Main.ModuleIssue)
         (rest : list (string * list Main.ModuleIssue))
         (calls : list call) (e : exn),
    respond calls (create_module_call self (fst package)) = Raise e ->
    exn_response e = None ->
    tfor_each (package :: rest) (Main.create_package self (recorded respond)) calls =
    match tfor_each rest (Main.create_package self (recorded respond))
            (calls ++ [create_module_call self (fst package)])%list with
    | (r, calls', t) =>
        (r, calls',
         Main.ToolLogged ERROR (Main.MsgErrorProcessingPackage (fst package) e) :: t)
    end.
Proof.
  intros R self respond package rest calls e Hraise Hplain.
  cbn [tfor_each]. unfold tbind at 1. unfold Main.create_package at 1.
  unfold ttry, tbind at 1. unfold Main.client at 1, Main.tmap.
  unfold create_module, try_except, bind at 1. unfold recorded at 1.
  unfold create_module_call, call in *. rewrite Hraise.
  cbv [Exception]. rewrite Hplain. cbv [raise Main.tlog temit map app].
  now destruct (tfor_each rest _ _) as [[r calls'] t].
Qed.

Lemma failed_module_creation_skips_package_witness :
  let respond : list call -> call -> result json :=
    fun _ _ => Raise (RetriesFailed 3 (RequestException "ConnectionError")) in
  let packages := [("Backend", [Main.mkModuleIssue "Login" "Task: Login"]);
                   ("Frontend", [Main.mkModuleIssue "Menu" "Task: Menu"])] in
  @tfor_each _ _ _ packages
    (@Main.create_package (table_runtime []) _ demo_client (recorded respond)) []
  = match @tfor_each _ _ _ [("Frontend", [Main.mkModuleIssue "Menu" "Task: Menu"])]
            (@Main.create_package (table_runtime []) _ demo_client (recorded respond))
            [create_module_call demo_client "Backend"] with
    | (r, calls', t) =>
        (r, calls',
         Main.ToolLogged ERROR
           (Main.MsgErrorProcessingPackage "Backend"
              (RetriesFailed 3 (RequestException "ConnectionError"))) :: t)
    end.
Proof.
  intros respond packages.
  exact (failed_module_creation_skips_package (table_runtime []) demo_client respond
           ("Backend", [Main.mkModuleIssue "Login" "Task: Login"])
           [("Frontend", [Main.mkModuleIssue "Menu" "Task: Menu"])] []
           (RetriesFailed 3 (RequestException "ConnectionError")) eq_refl eq_refl).
Defined.

(** X25.  An issue that cannot be created ends its work package, not the
    run: when the module is created and the creation of the first of the
    remaining issues raises, the other issues of the package are not
    attempted, the module stays, the error is logged under the name of
    the package, and the loop goes on with the next package. *)
Theorem failed_issue_skips_rest_of_package :
  forall (R : Runtime) (self : Client)
         (respond : list call -> call -> result json)
         (name : string) (issue : Main.ModuleIssue) (issues : list Main.ModuleIssue)
         (rest : list (string * list Main.ModuleIssue))
         (calls : list call) (created : json) (id : string) (e : exn),
    respond calls (create_module_call self name) = Ok created ->
    py_getitem created "id" = Ok (JStr id) ->
    respond (calls ++ [create_module_call self name])%list
      (create_issue_call self (Main.body issue)) = Raise e ->
    tfor_each ((name, issue :: issues) :: rest)
      (Main.create_package self (recorded respond)) calls =
    match tfor_each rest (Main.create_package self (recorded respond))
            (calls ++ [create_module_call self name;
                       create_issue_call self (Main.body issue)])%list with
    | (r, calls', t) =>
        (r, calls',
         Main.ToolLogged INFO (Main.MsgCreatedModule name (JStr id))
           :: Main.ToolLogged ERROR (Main.MsgErrorProcessingPackage name e) :: t)
    end.
Proof.
  intros R self respond name issue issues rest calls created id e Hmod Hid Hissue.
  cbn [tfor_each]. unfold tbind at 1. unfold Main.create_package at 1.
  cbn [fst snd tfor_each].
  unfold ttry, tbind at 1. unfold Main.client at 1, Main.tmap at 1.
  unfold create_module, try_except, bind at 1. unfold recorded at 1.
  unfold create_module_call, create_issue_call, call in *. rewrite Hmod.
  unfold lift at 1. rewrite Hid. cbn [app map].
  cbv [tbind Main.tlog temit tlift Main.create_package_issue Main.Issue_new
       Main.client Main.tmap create_issue bind recorded].
  cbn [app PlaneClient.name]. unfold call in *. rewrite Hissue.
  cbv [Exception]. cbn [map app].
  rewrite <- app_assoc. cbn [app].
  now destruct (tfor_each rest _ _) as [[r calls'] t].
Qed.

Lemma failed_issue_skips_rest_of_package_witness :
  let respond : list call -> call -> result json :=
    fun calls _ =>
      match calls with
      | [] => Ok (JObj [("id", JStr "m-1")])
      | _ => Raise (ApiError 403 "forbidden")
      end in
  @tfor_each _ _ _
    [("Backend", [Main.mkModuleIssue "Login" "Task: Login";
                  Main.mkModuleIssue "Logout" "Task: Logout"])]
    (@Main.create_package (table_runtime []) _ demo_client (recorded respond)) []
  = (Ok tt,
     [create_module_call demo_client "Backend"; create_issue_call demo_client "Login"],
     [Main.ToolLogged INFO (Main.MsgCreatedModule "Backend" (JStr "m-1"));
      Main.ToolLogged ERROR
        (Main.MsgErrorProcessingPackage "Backend" (ApiError 403 "forbidden"))]).
Proof.
  intros respond.
  exact (failed_issue_skips_rest_of_package (table_runtime []) demo_client respond
           "Backend" (Main.mkModuleIssue "Login" "Task: Login")
           [Main.mkModuleIssue "Logout" "Task: Logout"] [] []
           (JObj [("id", JStr "m-1")]) "m-1" (ApiError 403 "forbidden")
           eq_refl eq_refl eq_refl).
Defined.

(** X26.  The issue types are optional for [main]: their look-up makes
    one call and returns normally whatever the call answers, a failure
    or a listing of any shape; an exception of the call that does not
    mention "Payment required" is logged as a warning, and the run
    continues. *)
Theorem find_issue_type_never_raises :
  forall (R : Runtime) (X : Texts) (self : Client)
         (respond : list call -> call -> result json) (calls : list call),
    exists t,
      Main.find_issue_type self (recorded respond) calls
      = (Ok tt, (calls ++ [issue_types_call self])%list, t) /\
      (forall e,
          respond calls (issue_types_call self) = Raise e ->
          contains "Payment required" (exn_str e) = false ->
          t = [Main.ToolLogged WARNING (Main.MsgNoIssueTypes e)]).
Proof.
  intros R X self respond calls.
  unfold Main.find_issue_type, ttry, tbind at 1.
  unfold Main.client, Main.tmap, get_issue_types, try_except, bind, recorded.
  unfold issue_types_call, call in *.
  destruct (respond calls _) as [response|e] eqn:E.
  - unfold lift. destruct (py_get response "results" (JArr [])) as [issue_types|e'].
    + cbn [map app]. unfold tbind at 1.
      destruct (truthy issue_types).
      * unfold tbind, tlift.
        destruct (Main.first_item issue_types) as [first|e'].
        -- destruct (py_getitem first "id") as [issue_type_id|e'].
           ++ destruct (truthy issue_type_id); cbv [Main.tlog temit tret];
                eexists; (split; [reflexivity | discriminate]).
           ++ cbv [Exception Main.tlog temit]. eexists.
              split; [reflexivity | discriminate].
        -- cbv [Exception Main.tlog temit]. eexists.
           split; [reflexivity | discriminate].
      * cbv [tret truthy Main.tlog temit]. eexists.
        split; [reflexivity | discriminate].
    + cbv [Exception]. cbn [map app].
      destruct (contains "Payment required" (exn_str e')).
      * cbv [ret]. cbn [map app]. unfold tbind. cbv [tret truthy].
        eexists. split; [reflexivity | discriminate].
      * cbv [raise Main.tlog temit]. cbn [map app]. eexists.
        split; [reflexivity | discriminate].
  - cbv [Exception]. cbn [map app].
    destruct (contains "Payment required" (exn_str e)) eqn:P.
    + cbv [ret]. cbn [map app]. unfold tbind. cbv [tret truthy].
      eexists. split; [reflexivity|]. intros e0 [= <-] Hno. congruence.
    + cbv [raise Main.tlog temit]. cbn [map app]. eexists.
      split; [reflexivity|]. now intros e0 [= <-] _.
Qed.

Lemma find_issue_type_never_raises_witness :
  let texts : Texts := {| library_text := fun _ => "ConnectionError" |} in
  let failure := RetriesFailed 3 (RequestException "ConnectionError") in
  @Main.find_issue_type (table_runtime []) texts _ demo_client
    (recorded (fun _ _ => Raise failure)) []
  = (Ok tt, [issue_types_call demo_client],
     [Main.ToolLogged WARNING (Main.MsgNoIssueTypes failure)]).
Proof.
  intros texts failure.
  destruct (find_issue_type_never_raises (table_runtime []) texts demo_client
              (fun _ _ => Raise failure) []) as (t & E & Ht).
  rewrite E. now rewrite (Ht failure eq_refl eq_refl).
Defined.
